(** * paths-le: the extraction, safety and error-handling pipeline

    A shallow embedding of the TypeScript sources of paths-le
    (configuration reader, error taxonomy, safety gate, format dispatch,
    batch resolution and the de-duplication command) together with the
    properties its specification states about them.

    Conventions.
    - A JavaScript string is a [string], one character for each of its
      code units (those below 256); [String.length] is the source's
      [.length].
    - A JavaScript number that counts something (sizes, line counts,
      time stamps) is a [Z]; one that bounds something (a threshold read
      from the settings or passed as an option) is a [Js.number], an
      integer or NaN.
    - An optional field [f?: T] is an [option T]; [a ?? b] is [default b a].
    - Effects (console, output channel, dialogs) are made explicit: a
      function returns what it wrote, or threads the state of the user
      interface. *)

From Stdlib Require Import Ascii String.
From stdpp Require Import base gmap strings list pretty.

Local Open Scope string_scope.
Local Open Scope list_scope.
Local Open Scope Z_scope.

(** ** JavaScript strings and regular expressions

    The string operations and the fragment of regular expressions the
    sources use: a pattern is a sequence of character classes, each with
    one of the greedy quantifiers (none, [?], [*], [+]).  Matching is
    JavaScript's: leftmost, each quantifier taking as much as it can and
    giving characters back only when the rest of the pattern fails. *)

Module Js.

Definition chr (n : nat) : ascii := ascii_of_nat n.

Definition exactly (c : ascii) : ascii → bool := Ascii.eqb c.

Definition oneOf (cs : string) (a : ascii) : bool :=
  existsb (Ascii.eqb a) (list_ascii_of_string cs).

Definition noneOf (cs : string) (a : ascii) : bool := negb (oneOf cs a).

Definition between (lo hi : ascii) (a : ascii) : bool :=
  (nat_of_ascii lo <=? nat_of_ascii a)%nat && (nat_of_ascii a <=? nat_of_ascii hi)%nat.

(** [\s]: tab, line feed, vertical tab, form feed, carriage return, space
    and the no-break space. *)
Definition space (a : ascii) : bool :=
  existsb (Nat.eqb (nat_of_ascii a)) [9; 10; 11; 12; 13; 32; 160]%nat.

(** The lower case of a character, as [toLowerCase] has it for the code
    units below 256: of the letters A to Z, and of the capital letters of
    Latin-1 (code units 192 to 222, the multiplication sign at 215
    excepted). *)
Definition toLower (a : ascii) : ascii :=
  if between "A" "Z" a
     || (between (chr 192) (chr 222) a && negb (exactly (chr 215) a))
  then chr (nat_of_ascii a + 32) else a.

(** The capital of a letter a to z; every other character is itself. *)
Definition capital (a : ascii) : ascii :=
  if between "a" "z" a then chr (nat_of_ascii a - 32) else a.

(** A pattern character [c] under the [i] flag, for a [c] below 128 (the
    patterns of the sources have no other): it matches the characters
    that have its capital. *)
Definition ci (c : ascii) (a : ascii) : bool :=
  Ascii.eqb (capital c) (capital a).

Fixpoint toLowerCase (s : string) : string :=
  match s with
  | EmptyString => EmptyString
  | String a s' => String (toLower a) (toLowerCase s')
  end.

(** A string with its letters a to z in capitals: [s.toUpperCase()] for
    a string [s] of characters below 128. *)
Fixpoint capitals (s : string) : string :=
  match s with
  | EmptyString => EmptyString
  | String a s' => String (capital a) (capitals s')
  end.

(** [s.includes(needle)] *)
Fixpoint includes (s needle : string) : bool :=
  String.prefix needle s ||
  match s with
  | EmptyString => false
  | String _ s' => includes s' needle
  end.

(** [s.split(sep)] for a one-character separator: always at least one
    piece. *)
Fixpoint split (sep : ascii) (s : string) : list string :=
  match s with
  | EmptyString => [EmptyString]
  | String a s' =>
    if Ascii.eqb a sep then EmptyString :: split sep s'
    else match split sep s' with
         | piece :: pieces => String a piece :: pieces
         | [] => [String a EmptyString]
         end
  end.

Inductive quantifier := Once | Opt | Star | Plus.

Record atom := Atom { a_class : ascii → bool; a_quant : quantifier }.

Abbreviation regex := (list atom).

Definition one (c : ascii → bool) : atom := Atom c Once.
Definition opt (c : ascii → bool) : atom := Atom c Opt.
Definition star (c : ascii → bool) : atom := Atom c Star.
Definition plus (c : ascii → bool) : atom := Atom c Plus.

(** The characters of [s], literally, and under the [i] flag. *)
Definition lit (s : string) : regex :=
  (λ c, one (exactly c)) <$> list_ascii_of_string s.

Definition lit_i (s : string) : regex :=
  (λ c, one (ci c)) <$> list_ascii_of_string s.

(** [many c k s]: the class [c] repeated, longest first, followed by what
    [k] matches; the result is the number of characters consumed. *)
Fixpoint many (c : ascii → bool) (k : string → option nat) (s : string)
    : option nat :=
  match s with
  | EmptyString => k s
  | String a s' =>
    if c a then
      match many c k s' with
      | Some n => Some (S n)
      | None => k s
      end
    else k s
  end.

(** [match_here re s]: the length of the match of [re] that starts at the
    first character of [s], if there is one. *)
Fixpoint match_here (re : regex) (s : string) : option nat :=
  match re with
  | [] => Some O
  | Atom c q :: re' =>
    match q, s with
    | Once, String a s' => if c a then S <$> match_here re' s' else None
    | Once, EmptyString => None
    | Opt, String a s' =>
      if c a then
        match match_here re' s' with
        | Some n => Some (S n)
        | None => match_here re' s
        end
      else match_here re' s
    | Opt, EmptyString => match_here re' s
    | Star, _ => many c (match_here re') s
    | Plus, String a s' => if c a then S <$> many c (match_here re') s' else None
    | Plus, EmptyString => None
    end
  end.

(** A subject string cut by the [g] flag: the matches, leftmost first and
    not overlapping, and the characters between them.  (Every pattern of
    the sources consumes at least one character.) *)
Inductive piece := Lit (a : ascii) | Hit (m : string).

Fixpoint pieces (re : regex) (skip : nat) (s : string) : list piece :=
  match s with
  | EmptyString => []
  | String a s' =>
    match skip with
    | S n => pieces re n s'
    | O =>
      match match_here re s with
      | Some (S n) => Hit (substring 0 (S n) s) :: pieces re n s'
      | _ => Lit a :: pieces re O s'
      end
    end
  end.

(** [s.replace(/re/g, replacement)] *)
Definition replace (re : regex) (replacement : string) (s : string) : string :=
  foldr (λ p acc,
           match p with
           | Lit a => String a acc
           | Hit _ => replacement +:+ acc
           end) EmptyString (pieces re O s).

(** [s.match(/re/g) ?? []] *)
Definition matchAll (re : regex) (s : string) : list string :=
  omap (λ p, match p with Hit m => Some m | Lit _ => None end) (pieces re O s).

(** The decimal numeral of an integer, as a template literal prints it. *)
Definition numeral (z : Z) : string := pretty z.

(** A number that bounds something (a threshold, a limit): an integer,
    or NaN. *)
Inductive number := Finite (z : Z) | NaN.

(** [String(n)] *)
Definition numberText (n : number) : string :=
  match n with
  | Finite z => numeral z
  | NaN => "NaN"
  end.

(** [Math.max(a, b)]: NaN when either argument is. *)
Definition max (a b : number) : number :=
  match a, b with
  | Finite x, Finite y => Finite (Z.max x y)
  | _, _ => NaN
  end.

(** [a > b] and [a >= b]: false when either side is NaN. *)
Definition gt (a b : number) : bool :=
  match a, b with
  | Finite x, Finite y => y <? x
  | _, _ => false
  end.

Definition ge (a b : number) : bool :=
  match a, b with
  | Finite x, Finite y => y <=? x
  | _, _ => false
  end.

(** A value of the settings file at a key that is read as a number: an
    integer, a boolean, [null], or an object without [valueOf] or
    [toString] among its keys, such as the empty object.  (Strings and
    arrays, which [Number] parses, are left out.) *)
Inductive Json := JNumber (z : Z) | JBoolean (b : bool) | JNull | JObject.

(** [Number(v)]: an object becomes the string [[object Object]] and that
    spells no number. *)
Definition Number (v : Json) : number :=
  match v with
  | JNumber z => Finite z
  | JBoolean true => Finite 1
  | JBoolean false => Finite 0
  | JNull => Finite 0
  | JObject => NaN
  end.

(** An [Error] object: its message and the stack trace the engine may
    have attached to it. *)
Record Error := { message : string; stack : option string }.

(** A value handed to a message template or kept in a context object. *)
Inductive Value := Num (n : number) | Str (s : string).

(** What a function wrote, in order: lines appended to an output channel
    and entries of the console. *)
Inductive Effect :=
| AppendLine (line : string)
| ConsoleWarn (text : string)
| ConsoleError (text : string)
| ConsoleInfo (text : string).

(** What [localize] returns when no translation bundle is loaded: the
    default message with each placeholder [{0}] to [{9}] replaced by its
    argument. *)
Definition valueText (v : Value) : string :=
  match v with
  | Num n => numberText n
  | Str s => s
  end.

Fixpoint format (template : string) (args : list Value) : string :=
  match template with
  | EmptyString => EmptyString
  | String a t =>
    match t with
    | String d (String c rest) =>
      if Ascii.eqb a "{" && between "0" "9" d && Ascii.eqb c "}" then
        match args !! (nat_of_ascii d - 48)%nat with
        | Some v => valueText v +:+ format rest args
        | None => String a (format t args)
        end
      else String a (format t args)
    | _ => String a (format t args)
    end
  end.

Definition localizeDefault (key defaultMessage : string) (args : list Value)
    : string :=
  format defaultMessage args.

(** The text of an effect, whatever its channel. *)
Definition text_of (e : Effect) : string :=
  match e with
  | AppendLine s | ConsoleWarn s | ConsoleError s | ConsoleInfo s => s
  end.


(** [s.trimStart()], [s.trimEnd()] and [s.trim()]: white space is the
    class of [\s]. *)
Fixpoint trimStart (s : string) : string :=
  match s with
  | EmptyString => EmptyString
  | String a s' => if space a then trimStart s' else s
  end.

Fixpoint trimEnd (s : string) : string :=
  match s with
  | EmptyString => EmptyString
  | String a s' =>
    match trimEnd s' with
    | EmptyString => if space a then EmptyString else String a EmptyString
    | t => String a t
    end
  end.

Definition trim (s : string) : string := trimEnd (trimStart s).

(** [lines.join(sep)] *)
Definition join (sep : string) (lines : list string) : string :=
  String.concat sep lines.

(** [Array.prototype.sort(compare)]: the sort is stable, so for a
    comparator that orders its arguments consistently the result is the
    one sorted arrangement that keeps equal elements in their original
    order.  It is computed here by insertion: an element moves past the
    elements that compare strictly below it. *)
Fixpoint insertSorted {A} (compare : A → A → Z) (x : A) (l : list A) : list A :=
  match l with
  | [] => [x]
  | y :: l' =>
    if 0 <? compare x y then y :: insertSorted compare x l' else x :: l
  end.

Definition sort {A} (compare : A → A → Z) (l : list A) : list A :=
  foldr (insertSorted compare) [] l.

End Js.

(** An integer is read as the number it is. *)
Coercion Js.Finite : Z >-> Js.number.

(** ** Configuration (config/config.ts) *)

Module Config.

(** The [paths-le] section of the workspace settings.  The keys read as
    booleans and strings hold the values the extension declares for
    them; a key read as a number holds whatever the settings file has
    there. *)
Record WorkspaceConfiguration := {
  numbers : gmap string Js.Json;
  booleans : gmap string bool;
  strings : gmap string string;
}.

Inductive NotificationLevel := all | important | silent.

Inductive PresetType :=
  minimal | balanced | comprehensive | performance | validation_preset.

(** The two option groups; their readers treat the group and each of its
    fields as optional ([config.resolution?.resolveSymlinks ?? false]). *)
Record Resolution := {
  resolveSymlinks : option bool;
  resolveWorkspaceRelative : option bool;
}.

Record Validation := {
  enabled : option bool;
  checkExistence : option bool;
  checkPermissions : option bool;
}.

Record Configuration := {
  copyToClipboardEnabled : bool;
  dedupeEnabled : bool;
  notificationsLevel : NotificationLevel;
  postProcessOpenInNewFile : bool;
  openResultsSideBySide : bool;
  safetyEnabled : bool;
  safetyFileSizeWarnBytes : Js.number;
  safetyLargeOutputLinesThreshold : Js.number;
  safetyManyDocumentsThreshold : Js.number;
  showParseErrors : bool;
  statusBarEnabled : bool;
  telemetryEnabled : bool;
  analysisEnabled : bool;
  analysisIncludeValidation : bool;
  analysisIncludePatterns : bool;
  validationEnabled : bool;
  validationCheckExistence : bool;
  validationCheckPermissions : bool;
  performanceEnabled : bool;
  performanceMaxDuration : Js.number;
  performanceMaxMemoryUsage : Js.number;
  performanceMaxCpuUsage : Js.number;
  performanceMinThroughput : Js.number;
  performanceMaxCacheSize : Js.number;
  keyboardShortcutsEnabled : bool;
  keyboardExtractShortcut : string;
  keyboardValidateShortcut : string;
  keyboardAnalyzeShortcut : string;
  presetsEnabled : bool;
  defaultPreset : PresetType;
  resolution : option Resolution;
  validation : option Validation;
}.

(** [config.get(key, defaultValue)] at each of the three value types. *)
Definition get_number (config : WorkspaceConfiguration) (key : string)
    (defaultValue : Z) : Js.Json :=
  default (Js.JNumber defaultValue) (numbers config !! key).

Definition get_boolean (config : WorkspaceConfiguration) (key : string)
    (defaultValue : bool) : bool :=
  default defaultValue (booleans config !! key).

Definition get_string (config : WorkspaceConfiguration) (key : string)
    (defaultValue : string) : string :=
  default defaultValue (strings config !! key).

Definition readBoolean (config : WorkspaceConfiguration) (key : string)
    (defaultValue : bool) : bool :=
  get_boolean config key defaultValue.

Definition readString (config : WorkspaceConfiguration) (key : string)
    (defaultValue : string) : string :=
  get_string config key defaultValue.

(** [Math.max(minValue, Number(config.get(key, defaultValue)))] *)
Definition readNumber (config : WorkspaceConfiguration) (key : string)
    (defaultValue minValue : Z) : Js.number :=
  Js.max minValue (Js.Number (get_number config key defaultValue)).

Definition isValidNotificationLevel (v : string) : option NotificationLevel :=
  if String.eqb v "all" then Some all
  else if String.eqb v "important" then Some important
  else if String.eqb v "silent" then Some silent
  else None.

Definition readNotificationLevel (config : WorkspaceConfiguration)
    : NotificationLevel :=
  let notifRaw :=
    get_string config "notificationLevel"
      (get_string config "notificationsLevel" "silent") in
  match isValidNotificationLevel notifRaw with
  | Some level => level
  | None => silent
  end.

Definition isValidPreset (v : string) : option PresetType :=
  if String.eqb v "minimal" then Some minimal
  else if String.eqb v "balanced" then Some balanced
  else if String.eqb v "comprehensive" then Some comprehensive
  else if String.eqb v "performance" then Some performance
  else if String.eqb v "validation" then Some validation_preset
  else None.

Definition readPreset (config : WorkspaceConfiguration) : PresetType :=
  let presetValue := get_string config "presets.defaultPreset" "balanced" in
  match isValidPreset presetValue with
  | Some preset => preset
  | None => balanced
  end.

Definition getConfiguration (config : WorkspaceConfiguration)
    : Configuration := {|
  copyToClipboardEnabled := readBoolean config "copyToClipboardEnabled" false;
  dedupeEnabled := readBoolean config "dedupeEnabled" false;
  notificationsLevel := readNotificationLevel config;
  postProcessOpenInNewFile :=
    readBoolean config "postProcess.openInNewFile" false;
  openResultsSideBySide := readBoolean config "openResultsSideBySide" false;
  safetyEnabled := readBoolean config "safety.enabled" true;
  safetyFileSizeWarnBytes :=
    readNumber config "safety.fileSizeWarnBytes" 1000000 1000;
  safetyLargeOutputLinesThreshold :=
    readNumber config "safety.largeOutputLinesThreshold" 50000 100;
  safetyManyDocumentsThreshold :=
    readNumber config "safety.manyDocumentsThreshold" 8 1;
  showParseErrors := readBoolean config "showParseErrors" false;
  statusBarEnabled := readBoolean config "statusBar.enabled" true;
  telemetryEnabled := readBoolean config "telemetryEnabled" false;
  analysisEnabled := readBoolean config "analysis.enabled" true;
  analysisIncludeValidation :=
    readBoolean config "analysis.includeValidation" true;
  analysisIncludePatterns :=
    readBoolean config "analysis.includePatterns" true;
  validationEnabled := readBoolean config "validation.enabled" true;
  validationCheckExistence :=
    readBoolean config "validation.checkExistence" true;
  validationCheckPermissions :=
    readBoolean config "validation.checkPermissions" false;
  performanceEnabled := readBoolean config "performance.enabled" true;
  performanceMaxDuration :=
    readNumber config "performance.maxDuration" 5000 1000;
  performanceMaxMemoryUsage :=
    readNumber config "performance.maxMemoryUsage" 104857600 1048576;
  performanceMaxCpuUsage :=
    readNumber config "performance.maxCpuUsage" 1000000 100000;
  performanceMinThroughput :=
    readNumber config "performance.minThroughput" 1000 100;
  performanceMaxCacheSize :=
    readNumber config "performance.maxCacheSize" 1000 100;
  keyboardShortcutsEnabled :=
    readBoolean config "keyboard.shortcuts.enabled" true;
  keyboardExtractShortcut :=
    readString config "keyboard.extractShortcut" "ctrl+alt+p";
  keyboardValidateShortcut :=
    readString config "keyboard.validateShortcut" "ctrl+alt+v";
  keyboardAnalyzeShortcut :=
    readString config "keyboard.analyzeShortcut" "ctrl+alt+a";
  presetsEnabled := readBoolean config "presets.enabled" true;
  defaultPreset := readPreset config;
  resolution := Some {|
    resolveSymlinks :=
      Some (readBoolean config "resolution.resolveSymlinks" false);
    resolveWorkspaceRelative :=
      Some (readBoolean config "resolution.resolveWorkspaceRelative" false);
  |};
  validation := Some {|
    enabled := Some (readBoolean config "validation.enabled" true);
    checkExistence :=
      Some (readBoolean config "validation.checkExistence" true);
    checkPermissions :=
      Some (readBoolean config "validation.checkPermissions" false);
  |};
|}.

End Config.

(** ** Error taxonomy and recovery (utils/errorHandling.ts) *)

Module ErrorHandling.

Inductive ErrorCategory :=
  Parse | Validation | Safety | Operational | FileSystem | Configuration | Parsing.

Inductive ErrorSeverity := Info | Warning | Error | Critical.

Inductive RecoveryAction := Skip | Retry | Abort | Fallback.

Inductive Level := Low | Medium | High.

(** The string each member of the unions is at run time. *)
Definition categoryName (c : ErrorCategory) : string :=
  match c with
  | Parse => "parse"
  | Validation => "validation"
  | Safety => "safety"
  | Operational => "operational"
  | FileSystem => "file-system"
  | Configuration => "configuration"
  | Parsing => "parsing"
  end.

Definition severityName (s : ErrorSeverity) : string :=
  match s with
  | Info => "info"
  | Warning => "warning"
  | Error => "error"
  | Critical => "critical"
  end.

Definition recoveryActionName (a : RecoveryAction) : string :=
  match a with
  | Skip => "skip"
  | Retry => "retry"
  | Abort => "abort"
  | Fallback => "fallback"
  end.

Definition levelName (l : Level) : string :=
  match l with
  | Low => "low"
  | Medium => "medium"
  | High => "high"
  end.

Record EnhancedError := {
  category : ErrorCategory;
  originalError : Js.Error;
  message : string;
  userFriendlyMessage : string;
  userMessage : string;
  suggestion : string;
  recoverable : bool;
  severity : Level;
  timestamp : Z;
}.

(** [fallbackAction] is a closure that may throw: given the number of the
    attempt it tells whether the action completed. *)
Record ErrorRecoveryOptions := {
  retryable : bool;
  maxRetries : Z;
  retryDelay : Z;
  fallbackAction : option (nat → bool);
  userAction : option string;
}.

Record EnhancedErrorOptions := {
  opt_recoverable : option bool;
  opt_severity : option Level;
  opt_suggestion : option string;
}.

Definition noOptions : EnhancedErrorOptions :=
  {| opt_recoverable := None; opt_severity := None; opt_suggestion := None |}.

Section ErrorHandling.

(** [localize(key, defaultMessage, ...args)] of vscode-nls, and the clock
    read by [new Date()]. *)
Variable localize : string → string → list Js.Value → string.
Variable now : Z.

Definition isErrorRecoverable (error : Js.Error) (category : ErrorCategory)
    : bool :=
  match category with
  | Parse | Parsing => true
  | FileSystem =>
    Js.includes (Js.message error) "permission"
    || Js.includes (Js.message error) "network"
  | Configuration | Validation => true
  | Safety => false
  | Operational => negb (Js.includes (Js.message error) "fatal")
  end.

(** The seven categories are covered one by one; the closing
    "Unknown error" of the source answers no member of [ErrorCategory]. *)
Definition buildUserFriendlyMessage (error : Js.Error)
    (category : ErrorCategory) (context : option Js.Value) : string :=
  match category with
  | Parse | Parsing =>
    localize "runtime.error.parse" "Failed to parse path values: {0}"
      [default (Js.Str "unknown file") context]
  | FileSystem =>
    localize "runtime.error.file-system" "File system error: {0}"
      [Js.Str (Js.message error)]
  | Configuration =>
    localize "runtime.error.configuration" "Configuration error: {0}"
      [Js.Str (Js.message error)]
  | Validation =>
    localize "runtime.error.validation" "Path validation failed: {0}"
      [Js.Str (Js.message error)]
  | Safety =>
    localize "runtime.error.safety" "Safety threshold exceeded: {0}"
      [Js.Str (Js.message error)]
  | Operational =>
    localize "runtime.error.operational" "Path extraction failed: {0}"
      [Js.Str (Js.message error)]
  end.

Definition buildErrorSuggestion (category : ErrorCategory) : string :=
  match category with
  | Parse | Parsing =>
    localize "runtime.error.parse.suggestion"
      "Check the path format and ensure values are valid" []
  | FileSystem =>
    localize "runtime.error.file-system.suggestion"
      "Check file permissions and ensure the file exists" []
  | Configuration =>
    localize "runtime.error.configuration.suggestion"
      "Reset to default settings or check configuration syntax" []
  | Validation =>
    localize "runtime.error.validation.suggestion"
      "Review path values and ensure they meet validation criteria" []
  | Safety =>
    localize "runtime.error.safety.suggestion"
      "Reduce file size or adjust safety thresholds" []
  | Operational =>
    localize "runtime.error.operational.suggestion"
      "Try again or check system resources" []
  end.

Definition createEnhancedError (error : Js.Error) (category : ErrorCategory)
    (context : option (gmap string Js.Value))
    (options : option EnhancedErrorOptions) : EnhancedError :=
  let userFriendlyMessage :=
    buildUserFriendlyMessage error category (context ≫= (.!! "filepath")) in
  let suggestion :=
    default (buildErrorSuggestion category) (options ≫= opt_suggestion) in
  let recoverable :=
    default (isErrorRecoverable error category) (options ≫= opt_recoverable) in
  let severity := default Medium (options ≫= opt_severity) in
  {| category := category;
     originalError := error;
     message := Js.message error;
     userFriendlyMessage := userFriendlyMessage;
     userMessage := userFriendlyMessage;
     suggestion := suggestion;
     recoverable := recoverable;
     severity := severity;
     timestamp := now |}.

Definition buildErrorRecoveryOptions (error : EnhancedError)
    : ErrorRecoveryOptions :=
  match category error with
  | FileSystem =>
    {| retryable := true; maxRetries := 3; retryDelay := 1000;
       fallbackAction := None; userAction := None |}
  | Operational =>
    {| retryable := true; maxRetries := 2; retryDelay := 2000;
       fallbackAction := None; userAction := None |}
  | Configuration =>
    {| retryable := false; maxRetries := 0; retryDelay := 0;
       fallbackAction := Some (λ _, true); userAction := None |}
  | _ =>
    {| retryable := false; maxRetries := 0; retryDelay := 0;
       fallbackAction := None; userAction := None |}
  end.

End ErrorHandling.

(** The six patterns of [sanitizeErrorMessage]. *)
Definition usersDirPattern : Js.regex :=
  Js.lit "/Users/" ++ [Js.plus (Js.noneOf "/")] ++ Js.lit "/".

Definition homeDirPattern : Js.regex :=
  Js.lit "/home/" ++ [Js.plus (Js.noneOf "/")] ++ Js.lit "/".

Definition windowsUsersDirPattern : Js.regex :=
  Js.lit "C:\Users\" ++ [Js.plus (Js.noneOf "\")] ++ Js.lit "\".

Definition assignmentPattern (name : string) : Js.regex :=
  Js.lit_i name
  ++ [Js.one (Js.oneOf "=:"); Js.star Js.space;
      Js.plus (λ a, negb (Js.space a))].

Definition sanitizeErrorMessage (message : string) : string :=
  Js.replace (assignmentPattern "key") "key=***"
    (Js.replace (assignmentPattern "token") "token=***"
      (Js.replace (assignmentPattern "password") "password=***"
        (Js.replace windowsUsersDirPattern "C:\Users\***\"
          (Js.replace homeDirPattern "/home/***/"
            (Js.replace usersDirPattern "/Users/***/" message))))).

Definition handleError (error : EnhancedError) : list Js.Effect :=
  let sanitizedMessage := sanitizeErrorMessage (userFriendlyMessage error) in
  if recoverable error then [Js.ConsoleWarn ("[Paths-LE] " +:+ sanitizedMessage)]
  else [Js.ConsoleError ("[Paths-LE] " +:+ sanitizedMessage)].

(** The error handler and its two collaborators. *)

(** The levels of [log]: ['info' | 'warn' | 'error']. *)
Inductive LogLevel := level_info | level_warn | level_error.

Definition logLevelName (level : LogLevel) : string :=
  match level with
  | level_info => "info"
  | level_warn => "warn"
  | level_error => "error"
  end.

Record ErrorLogger := {
  log : string → LogLevel → list Js.Effect;
  logger_logError : EnhancedError → list Js.Effect;
  logWarning : string → option (gmap string Js.Value) → list Js.Effect;
  logInfo : string → option (gmap string Js.Value) → list Js.Effect;
}.

Record ErrorNotifier := {
  showError : string → option string → list Js.Effect;
  showWarning : string → option string → list Js.Effect;
  showInfo : string → option string → list Js.Effect;
  showProgress : string → list Js.Effect;
}.

Record ErrorHandler := {
  handle : EnhancedError → list Js.Effect;
  handleWithRecovery :
    EnhancedError → option ErrorRecoveryOptions → bool * list Js.Effect;
  logError : EnhancedError → list Js.Effect;
  notifyUser : EnhancedError → list Js.Effect;
}.

Record HandlerConfig := {
  cfg_showParseErrors : bool;
  cfg_notificationsLevel : Config.NotificationLevel;
  cfg_maxRetries : Z;
  cfg_retryDelay : Z;
}.

Section Collaborators.

(** [new Date().toISOString()] and [JSON.stringify]. *)
Variable isoNow : string.
Variable stringify : gmap string Js.Value → string.

Definition createErrorLogger (appendLine : string → list Js.Effect)
    : ErrorLogger :=
  let contextStr (context : option (gmap string Js.Value)) :=
    match context with
    | Some c => " " +:+ stringify c
    | None => EmptyString
    end in
  {| log := λ message level,
       appendLine
         ("[" +:+ isoNow +:+ "] [" +:+ Js.capitals (logLevelName level) +:+ "] "
          +:+ message);
     logger_logError := λ error,
       appendLine
         ("[" +:+ isoNow +:+ "] [ERROR] " +:+ categoryName (category error)
          +:+ ": " +:+ message error)
       ++ match Js.stack (originalError error) with
          | Some stack =>
            if String.eqb stack EmptyString then []
            else appendLine ("Stack: " +:+ stack)
          | None => []
          end;
     logWarning := λ message context,
       appendLine
         ("[" +:+ isoNow +:+ "] [WARN] " +:+ message +:+ contextStr context);
     logInfo := λ message context,
       appendLine
         ("[" +:+ isoNow +:+ "] [INFO] " +:+ message +:+ contextStr context);
  |}.

End Collaborators.

(** [details ? `\nDetails: ${details}` : EmptyString] *)
Definition detailsSuffix (details : option string) : string :=
  match details with
  | Some d =>
    if String.eqb d EmptyString then EmptyString
    else String (Js.chr 10) ("Details: " +:+ d)
  | None => EmptyString
  end.

Definition createErrorNotifier : ErrorNotifier := {|
  showError := λ message details,
    [Js.ConsoleError ("[Paths-LE Error] " +:+ message +:+ detailsSuffix details)];
  showWarning := λ message details,
    [Js.ConsoleWarn ("[Paths-LE Warning] " +:+ message +:+ detailsSuffix details)];
  showInfo := λ message details,
    [Js.ConsoleInfo ("[Paths-LE Info] " +:+ message +:+ detailsSuffix details)];
  showProgress := λ message,
    [Js.ConsoleInfo ("[Paths-LE Progress] " +:+ message)];
|}.

Definition shouldShowError (config : HandlerConfig) (error : EnhancedError)
    : bool :=
  match severity error, cfg_notificationsLevel config with
  | High, _ => true
  | Medium, Config.silent => false
  | Medium, _ => true
  | Low, Config.all => true
  | Low, _ => false
  end.

Definition handler_handle (logger : ErrorLogger) (notifier : ErrorNotifier)
    (config : HandlerConfig) (error : EnhancedError) : list Js.Effect :=
  logger_logError logger error
  ++ (if negb (shouldShowError config error) then []
      else match severity error with
           | High => showError notifier (userMessage error) (Some (suggestion error))
           | _ => showWarning notifier (userMessage error) (Some (suggestion error))
           end).

(** The retry loop of [handleWithRecovery], attempt [attempt] of at most
    [remaining] more. *)
Fixpoint retryLoop (handle : EnhancedError → list Js.Effect)
    (error : EnhancedError) (fallback : option (nat → bool))
    (attempt remaining : nat) : bool * list Js.Effect :=
  match remaining with
  | O => (false, handle error)
  | S remaining' =>
    match fallback with
    | None =>
      let '(r, out) := retryLoop handle error fallback (S attempt) remaining' in
      (r, handle error ++ out)
    | Some action =>
      if action attempt then (true, [])
      else retryLoop handle error fallback (S attempt) remaining'
    end
  end.

Definition createErrorHandler (logger : ErrorLogger) (notifier : ErrorNotifier)
    (config : HandlerConfig) : ErrorHandler :=
  let handle := handler_handle logger notifier config in
  {| handle := handle;
     handleWithRecovery := λ error options,
       let recoveryOptions :=
         default (buildErrorRecoveryOptions error) options in
       if negb (retryable recoveryOptions) then (false, handle error)
       else retryLoop handle error (fallbackAction recoveryOptions) O
              (Z.to_nat (maxRetries recoveryOptions));
     logError := λ error, logger_logError logger error;
     notifyUser := λ error,
       match severity error with
       | High => showError notifier (userMessage error) (Some (suggestion error))
       | Medium =>
         showWarning notifier (userMessage error) (Some (suggestion error))
       | Low => showInfo notifier (userMessage error) (Some (suggestion error))
       end;
  |}.

(** The plain error records of [createError] and [createParseError]. *)
Record StandardError := {
  std_category : ErrorCategory;
  std_severity : ErrorSeverity;
  std_message : string;
  std_recoverable : bool;
  std_recoveryAction : RecoveryAction;
  std_timestamp : Z;
}.

Definition createError (now : Z) (category : ErrorCategory)
    (severity : ErrorSeverity) (message : string) (recoverable : bool)
    (recoveryAction : RecoveryAction) : StandardError :=
  {| std_category := category; std_severity := severity;
     std_message := message; std_recoverable := recoverable;
     std_recoveryAction := recoveryAction; std_timestamp := now |}.

Record PositionedParseError := {
  ppe_category : ErrorCategory;
  ppe_severity : ErrorSeverity;
  ppe_message : string;
  ppe_filepath : option string;
  ppe_position : option (Z * Z);
  ppe_recoverable : bool;
  ppe_recoveryAction : RecoveryAction;
  ppe_timestamp : Z;
}.

Definition createParseError (now : Z) (message : string)
    (filepath : option string) (position : option (Z * Z))
    : PositionedParseError :=
  {| ppe_category := Parsing; ppe_severity := Warning;
     ppe_message := message; ppe_filepath := filepath;
     ppe_position := position; ppe_recoverable := true;
     ppe_recoveryAction := Skip; ppe_timestamp := now |}.

Definition categorizeError (error : Js.Error) : ErrorCategory :=
  let message := Js.toLowerCase (Js.message error) in
  if Js.includes message "parse" || Js.includes message "syntax" then Parsing
  else if Js.includes message "validation" || Js.includes message "invalid"
  then Validation
  else if Js.includes message "permission" || Js.includes message "access"
  then FileSystem
  else if Js.includes message "config" || Js.includes message "setting"
  then Configuration
  else if Js.includes message "safety" || Js.includes message "threshold"
  then Safety
  else Operational.

Definition is_file_system (c : ErrorCategory) : bool :=
  match c with FileSystem => true | _ => false end.

Definition is_validation (c : ErrorCategory) : bool :=
  match c with Validation => true | _ => false end.

Definition is_parsing (c : ErrorCategory) : bool :=
  match c with Parsing => true | _ => false end.

Definition determineSeverity (error : Js.Error) (category : ErrorCategory)
    : ErrorSeverity :=
  let message := Js.toLowerCase (Js.message error) in
  if Js.includes message "critical" || Js.includes message "fatal" then Critical
  else if Js.includes message "error" || is_file_system category then Error
  else if Js.includes message "warning" || is_validation category then Warning
  else Info.

Definition determineRecoveryAction (category : ErrorCategory)
    (severity : ErrorSeverity) : RecoveryAction :=
  match category, severity with
  | FileSystem, Error => Retry
  | Parsing, _ | Validation, _ => Skip
  | _, Critical => Abort
  | _, _ => Fallback
  end.

End ErrorHandling.

(** ** The safety gate (utils/safety.ts) *)

Module Safety.

Import ErrorHandling.

Record TextDocument := {
  getText : string;
  fileName : string;
  languageId : string;
}.

Record SafetyResult := {
  proceed : bool;
  message : string;
  error : option EnhancedError;
  warnings : list string;
}.

Record CustomThresholds := {
  fileSizeBytes : option Js.number;
  lineCount : option Js.number;
  pathCount : option Js.number;
}.

Record SafetyCheckOptions := {
  showProgress : option bool;
  allowOverride : option bool;
  customThresholds : option CustomThresholds;
}.

Definition noSafetyOptions : SafetyCheckOptions :=
  {| showProgress := None; allowOverride := None; customThresholds := None |}.

(** The host window: which button the user will press at each of the
    dialogs still to come ([None]: the dialog is dismissed), and the
    warning dialogs shown so far, oldest first. *)
Record Window := {
  answers : list (option nat);
  shown : list string;
}.

(** [vscode.window.showWarningMessage(message, options, ...items)] *)
Definition showWarningMessage (message : string) (items : list string)
    (w : Window) : option string * Window :=
  (hd None (answers w) ≫= (items !!.),
   {| answers := tail (answers w); shown := shown w ++ [message] |}).

(** The characters a path runs over in [estimatePathCount]: anything
    but white space, either quote, and the five characters listed. *)
Definition pathChar (a : ascii) : bool :=
  negb (Js.space a || Js.exactly (Js.chr 34) a || Js.oneOf "'<>|*?" a).

Definition quoteChar (a : ascii) : bool :=
  Js.exactly (Js.chr 34) a || Js.exactly "'" a.

Definition estimatePathCount (content : string) : Z :=
  let unixPaths :=
    length (Js.matchAll (Js.lit "/" ++ [Js.plus pathChar]) content) in
  let windowsPaths :=
    length (Js.matchAll
              ([Js.one (λ a, Js.between "A" "Z" a || Js.between "a" "z" a)]
               ++ Js.lit ":\" ++ [Js.plus pathChar]) content) in
  let relativePaths :=
    length (Js.matchAll
              (Js.lit "." ++ [Js.opt (Js.exactly ".")] ++ Js.lit "/"
               ++ [Js.plus pathChar]) content) in
  let quotedPaths :=
    length (filter (λ path, Js.includes path "/" || Js.includes path "\")
              (Js.matchAll
                 [Js.one quoteChar; Js.star (λ a, negb (quoteChar a));
                  Js.one quoteChar] content)) in
  Z.of_nat (unixPaths + windowsPaths + relativePaths + quotedPaths).

Definition countComplexPatterns (content : string) : Z :=
  let nestedObjects :=
    length (Js.matchAll
              (Js.lit "{" ++ [Js.star (Js.noneOf "{}")] ++ Js.lit "{"
               ++ [Js.star (Js.noneOf "{}")] ++ Js.lit "}"
               ++ [Js.star (Js.noneOf "{}")] ++ Js.lit "}") content) in
  let nestedArrays :=
    length (Js.matchAll
              (Js.lit "[" ++ [Js.star (Js.noneOf "[]")] ++ Js.lit "["
               ++ [Js.star (Js.noneOf "[]")] ++ Js.lit "]"
               ++ [Js.star (Js.noneOf "[]")] ++ Js.lit "]") content) in
  let regexPatterns :=
    length (Js.matchAll
              (Js.lit "/"
               ++ [Js.plus (λ a, negb (Js.exactly "/" a || Js.exactly (Js.chr 10) a))]
               ++ Js.lit "/" ++ [Js.star (Js.oneOf "gimuy")]) content) in
  let templateLiterals :=
    length (Js.matchAll
              (Js.lit "`" ++ [Js.star (Js.noneOf "`")] ++ Js.lit "${"
               ++ [Js.star (Js.noneOf "}")] ++ Js.lit "}"
               ++ [Js.star (Js.noneOf "`")] ++ Js.lit "`") content) in
  Z.of_nat (nestedObjects + nestedArrays + regexPatterns + templateLiterals).

Section Safety.

(** [localize] of this file and of errorHandling.ts, the clock, and the
    stack trace the engine attaches to a new [Error]. *)
Variable localize : string → string → list Js.Value → string.
Variable localizeError : string → string → list Js.Value → string.
Variable now : Z.
Variable captureStack : string → option string.

Definition newError (message : string) : Js.Error :=
  {| Js.message := message; Js.stack := captureStack message |}.

Definition buildFileSizeError (fileSize : Z) (threshold : Js.number)
    (fileName : string) : SafetyResult :=
  let error :=
    createEnhancedError localizeError now
      (newError
         (localize "runtime.safety.file-size"
            "File size ({0} bytes) exceeds safety threshold ({1} bytes)"
            [Js.Num fileSize; Js.Num threshold]))
      Safety
      (Some {[ "fileSize" := Js.Num fileSize;
               "threshold" := Js.Num threshold;
               "fileName" := Js.Str fileName ]})
      (Some {| opt_recoverable := Some false;
               opt_severity := Some High;
               opt_suggestion :=
                 Some (localize "runtime.safety.file-size.suggestion"
                         "Consider splitting the file or increasing the safety threshold in settings"
                         []) |}) in
  {| proceed := false;
     message := userMessage error;
     error := Some error;
     warnings := [] |}.

Definition collectSafetyWarnings (content : string)
    (config : Config.Configuration) (options : SafetyCheckOptions)
    : list string :=
  let lines := Js.split (Js.chr 10) content in
  let lineCountThreshold :=
    default (Config.safetyLargeOutputLinesThreshold config)
      (customThresholds options ≫= lineCount) in
  let estimatedPaths := estimatePathCount content in
  let complexPatterns := countComplexPatterns content in
  (if Js.gt (Z.of_nat (length lines)) lineCountThreshold then
     [localize "runtime.safety.line-count.warning"
        "Large file detected: {0} lines (threshold: {1})"
        [Js.Num (Z.of_nat (length lines)); Js.Num lineCountThreshold]]
   else [])
  ++ (if 1000 <? estimatedPaths then
        [localize "runtime.safety.path-count.warning"
           "Large number of paths detected: estimated {0} paths"
           [Js.Num estimatedPaths]]
      else [])
  ++ (if 100 <? complexPatterns then
        [localize "runtime.safety.complex-patterns.warning"
           "Complex patterns detected: {0} patterns"
           [Js.Num complexPatterns]]
      else []).

Definition buildSafetyMessage (warnings : list string) : string :=
  match warnings with
  | [] => localize "runtime.safety.passed" "Safety checks passed" []
  | _ =>
    localize "runtime.safety.warnings"
      "Safety checks passed with {0} warnings"
      [Js.Num (Z.of_nat (length warnings))]
  end.

Definition handleSafetyChecks (document : TextDocument)
    (config : Config.Configuration) (options : SafetyCheckOptions)
    : SafetyResult :=
  if negb (Config.safetyEnabled config) then
    {| proceed := true; message := EmptyString; error := None; warnings := [] |}
  else
    let content := getText document in
    let fileSizeThreshold :=
      default (Config.safetyFileSizeWarnBytes config)
        (customThresholds options ≫= fileSizeBytes) in
    if Js.gt (Z.of_nat (String.length content)) fileSizeThreshold then
      buildFileSizeError (Z.of_nat (String.length content)) fileSizeThreshold
        (fileName document)
    else
      let warnings := collectSafetyWarnings content config options in
      {| proceed := true;
         message := buildSafetyMessage warnings;
         error := None;
         warnings := warnings |}.

Definition promptUserOverride (message : string) (w : Window)
    : bool * Window :=
  let continueAnyway :=
    localize "runtime.safety.override.continue" "Continue Anyway" [] in
  let cancel := localize "runtime.safety.override.cancel" "Cancel" [] in
  let '(override, w') :=
    showWarningMessage message [continueAnyway; cancel] w in
  (bool_decide (override = Some continueAnyway), w').

Definition handleSafetyChecksWithUserConfirmation (document : TextDocument)
    (config : Config.Configuration) (options : SafetyCheckOptions)
    (w : Window) : SafetyResult * Window :=
  let result := handleSafetyChecks document config options in
  if negb (proceed result) && default false (allowOverride options) then
    let '(shouldContinue, w') := promptUserOverride (message result) w in
    if shouldContinue then
      ({| proceed := true;
          message :=
            localize "runtime.safety.override.approved"
              "Safety override approved by user" [];
          error := error result;
          warnings := warnings result |}, w')
    else (result, w')
  else (result, w).

Definition shouldCancelOperation (processedItems threshold startTime : Z)
    (maxTimeMs : option Z) : bool :=
  let elapsedTime := now - startTime in
  (threshold <? processedItems) || (default 30000 maxTimeMs <? elapsedTime).

Definition createSafetyWarning (message : string)
    (details : option (gmap string Js.Value)) : EnhancedError :=
  createEnhancedError localizeError now (newError message) Safety
    (Some (default ∅ details))
    (Some {| opt_recoverable := Some true;
             opt_severity := Some Medium;
             opt_suggestion :=
               Some (localize "runtime.safety.warning.suggestion"
                       "Consider adjusting safety settings or breaking down the operation"
                       []) |}).

End Safety.

End Safety.

(** ** Format dispatch (extraction/extract.ts) *)

Module Extraction.

Inductive FileType :=
  csv | toml | dotenv | javascript | typescript | json | html | css | unknown.

#[global] Instance FileType_eq_dec : EqDecision FileType.
Proof. solve_decision. Defined.

Record Path := {
  value : string;
  line : option Z;
  column : option Z;
}.

Record Metadata := {
  metadata_languageId : string;
  supportedFormats : list string;
}.

(** The fields of a [ParseError] hold the strings the object literal of
    [buildUnsupportedFormatResult] gives them. *)
Record ParseError := {
  category : string;
  severity : string;
  message : string;
  context : option string;
  recoverable : bool;
  recoveryAction : string;
  timestamp : Z;
  metadata : option Metadata;
}.

Record ExtractionResult := {
  success : bool;
  paths : list Path;
  errors : list ParseError;
}.

Definition determineFileType (languageId : string) : FileType :=
  if String.eqb languageId "csv" then csv
  else if String.eqb languageId "toml" then toml
  else if String.eqb languageId "dotenv" || String.eqb languageId "env"
  then dotenv
  else if String.eqb languageId "javascript"
          || String.eqb languageId "javascriptreact"
  then javascript
  else if String.eqb languageId "typescript"
          || String.eqb languageId "typescriptreact"
  then typescript
  else if String.eqb languageId "json" || String.eqb languageId "jsonc"
  then json
  else if String.eqb languageId "html" then html
  else if String.eqb languageId "css" || String.eqb languageId "scss"
          || String.eqb languageId "less"
  then css
  else unknown.

Section Extraction.

(** The seven format extractors (extraction/formats): each returns the
    candidates it found, or [None] when it throws.  [now] is the clock
    read by [Date.now()]. *)
Variable extractFromCsv : string → option (list Path).
Variable extractFromToml : string → option (list Path).
Variable extractFromDotenv : string → option (list Path).
Variable extractFromJavaScript : string → option (list Path).
Variable extractFromJson : string → option (list Path).
Variable extractFromCss : string → option (list Path).
Variable extractFromHtml : string → option (list Path).
Variable now : Z.

Definition extractPathsByFileType (content : string) (fileType : FileType)
    : option (list Path) :=
  match fileType with
  | csv => extractFromCsv content
  | toml => extractFromToml content
  | dotenv => extractFromDotenv content
  | javascript | typescript => extractFromJavaScript content
  | json => extractFromJson content
  | css => extractFromCss content
  | html => extractFromHtml content
  | unknown => Some []
  end.

Definition buildUnsupportedFormatResult (languageId : string)
    : ExtractionResult :=
  let error := {|
    category := "format";
    severity := "info";
    message :=
      "Path extraction is not supported for " +:+ languageId
      +:+ " files. Supported formats: CSV, TOML, ENV, JS, TS, JSON, HTML, CSS.";
    context := Some ("File type: " +:+ languageId);
    recoverable := false;
    recoveryAction := "none";
    timestamp := now;
    metadata := Some {|
      metadata_languageId := languageId;
      supportedFormats :=
        ["csv"; "toml"; "dotenv"; "javascript"; "typescript"; "json";
         "html"; "css"];
    |};
  |} in
  {| success := false; paths := []; errors := [error] |}.

(** The promise [extractPaths] returns: [Some] the value it is fulfilled
    with, [None] when it is rejected. *)
Definition extractPaths (content languageId : string)
    : option ExtractionResult :=
  let fileType := determineFileType languageId in
  match fileType with
  | unknown => Some (buildUnsupportedFormatResult languageId)
  | _ =>
    paths ← extractPathsByFileType content fileType;
    Some {| success := true; paths := paths; errors := [] |}
  end.

End Extraction.

End Extraction.

(** ** The host editor, as the commands use it

    The settings of the two scopes the commands write to, and what a
    command does to the editor, in order. *)

Module Host.

Inductive ConfigurationTarget := Global | Workspace.

(** The user (global) and the workspace settings; a workspace value
    hides the user value of the same key. *)
Record Settings := {
  user : Config.WorkspaceConfiguration;
  workspace : Config.WorkspaceConfiguration;
}.

(** [vscode.workspace.getConfiguration('paths-le')] *)
Definition getConfiguration (settings : Settings)
    : Config.WorkspaceConfiguration := {|
  Config.numbers :=
    Config.numbers (workspace settings) ∪ Config.numbers (user settings);
  Config.booleans :=
    Config.booleans (workspace settings) ∪ Config.booleans (user settings);
  Config.strings :=
    Config.strings (workspace settings) ∪ Config.strings (user settings);
|}.

Definition setBoolean (key : string) (value : bool)
    (config : Config.WorkspaceConfiguration) : Config.WorkspaceConfiguration := {|
  Config.numbers := Config.numbers config;
  Config.booleans := <[key := value]> (Config.booleans config);
  Config.strings := Config.strings config;
|}.

(** [configuration.update(key, value, target)] for a boolean value. *)
Definition update (key : string) (value : bool) (target : ConfigurationTarget)
    (settings : Settings) : Settings :=
  match target with
  | Global =>
    {| user := setBoolean key value (user settings);
       workspace := workspace settings |}
  | Workspace =>
    {| user := user settings;
       workspace := setBoolean key value (workspace settings) |}
  end.

Inductive Event :=
| NotifierInfo (message : string)
| NotifierWarning (message : string)
| NotifierError (message : string)
| StatusProgress (message : string)
| StatusHide
| Telemetry (name : string) (properties : list (string * Js.Value))
| InformationMessage (message : string)
| WarningMessage (message : string)
| OpenExternal (url : string)
| OpenBeside (content : string)
| OpenNewFile (content : string)
| ReplaceDocument (content : string)
| ClipboardWrite (content : string).

(** How an asynchronous command ends: it completes, its promise is
    rejected, or it waits for ever. *)
Inductive Outcome := Completed | Rejected | Pending.

End Host.

(** ** Batch resolution (commands/extract.ts) *)

Module ExtractCommand.

Section Resolve.

(** The workspace folder of a path (utils/pathResolver) and canonical
    resolution (utils/pathValidation), which answers with the resolved
    path, or with the path it was given when resolution fails. *)
Variable WorkspaceFolder : Type.
Variable getWorkspaceFolderForPath : string → option WorkspaceFolder.

Record ResolveOptions := {
  resolveSymlinks : bool;
  resolveWorkspaceRelative : bool;
  workspaceFolder : option WorkspaceFolder;
}.

Variable resolvePathCanonical : string → ResolveOptions → string.

(** The state of [Promise.all] over the mapped paths: the slot of each
    promise, empty until the promise settles, and the two counters the
    callbacks share. *)
Record Batch := {
  slots : list (option string);
  resolvedCount : Z;
  fallbackCount : Z;
}.

(** The callback of [paths.map], up to its [return]. *)
Definition resolveOne (config : option Config.Resolution)
    (path : Extraction.Path) : string :=
  let workspaceFolder := getWorkspaceFolderForPath (Extraction.value path) in
  let resolveOptions := {|
    resolveSymlinks := default false (config ≫= Config.resolveSymlinks);
    resolveWorkspaceRelative :=
      default false (config ≫= Config.resolveWorkspaceRelative);
    workspaceFolder := workspaceFolder;
  |} in
  resolvePathCanonical (Extraction.value path) resolveOptions.

(** The resolution of the path at index [i] completes: its callback
    resumes, counts, and fulfils promise [i]. *)
Definition settle (config : option Config.Resolution)
    (paths : list Extraction.Path) (i : nat) (b : Batch) : Batch :=
  match paths !! i with
  | None => b
  | Some path =>
    let resolved := resolveOne config path in
    if String.eqb resolved (Extraction.value path) then
      {| slots := <[i := Some resolved]> (slots b);
         resolvedCount := resolvedCount b;
         fallbackCount := fallbackCount b + 1 |}
    else
      {| slots := <[i := Some resolved]> (slots b);
         resolvedCount := resolvedCount b + 1;
         fallbackCount := fallbackCount b |}
  end.

(** The resolutions complete in the order [schedule] lists them. *)
Definition settleAll (config : option Config.Resolution)
    (paths : list Extraction.Path) (schedule : list nat) : Batch :=
  foldl (λ b i, settle config paths i b)
    {| slots := replicate (length paths) None;
       resolvedCount := 0; fallbackCount := 0 |}
    schedule.

(** [Promise.all] is fulfilled, with the values in slot order, once every
    promise is. *)
Definition promiseAll (slots : list (option string)) : option (list string) :=
  mapM id slots.

(** The result and the status-bar messages, for the order [schedule] in
    which the resolutions complete. *)
Definition resolvePathsIfNeeded (paths : list Extraction.Path)
    (config : option Config.Resolution) (canonicalEnabled : bool)
    (schedule : list nat) : option (list string * list string) :=
  if negb canonicalEnabled then Some (Extraction.value <$> paths, [])
  else
    let b := settleAll config paths schedule in
    formattedPaths ← promiseAll (slots b);
    Some (formattedPaths,
          if 0 <? resolvedCount b then
            ["✅ Resolved " +:+ Js.numeral (resolvedCount b) +:+ " canonical paths"]
          else if 0 <? fallbackCount b then
            ["⚠️ Canonical resolution failed, using original paths"]
          else []).

End Resolve.

Arguments resolveOne {WorkspaceFolder}.
Arguments settle {WorkspaceFolder}.
Arguments settleAll {WorkspaceFolder}.
Arguments resolvePathsIfNeeded {WorkspaceFolder}.

Section Command.

(** The collaborators of the command: workspace folders and canonical
    resolution, the localizers and clock of the safety gate, and the
    seven extractors. *)
Variable WorkspaceFolder : Type.
Variable getWorkspaceFolderForPath : string → option WorkspaceFolder.
Variable resolvePathCanonical :
  string → ResolveOptions WorkspaceFolder → string.
Variable localize : string → string → list Js.Value → string.
Variable localizeError : string → string → list Js.Value → string.
Variable now : Z.
Variable captureStack : string → option string.
Variable extractFromCsv : string → option (list Extraction.Path).
Variable extractFromToml : string → option (list Extraction.Path).
Variable extractFromDotenv : string → option (list Extraction.Path).
Variable extractFromJavaScript : string → option (list Extraction.Path).
Variable extractFromJson : string → option (list Extraction.Path).
Variable extractFromCss : string → option (list Extraction.Path).
Variable extractFromHtml : string → option (list Extraction.Path).

(** What a command works on: the settings and the dialogs. *)
Record State := {
  settings : Host.Settings;
  window : Safety.Window;
}.

(** The message of a [ParseError] is always set, so the [??] defaults of
    the source are never taken. *)
Definition handleExtractionFailure (result : Extraction.ExtractionResult)
    : list Host.Event :=
  match Extraction.errors result with
  | [] => [Host.NotifierError "Failed to extract paths: Unknown error"]
  | firstError :: _ =>
    if String.eqb (Extraction.category firstError) "format" then
      [Host.NotifierInfo (Extraction.message firstError)]
    else
      [Host.NotifierError
         ("Failed to extract paths: " +:+ Extraction.message firstError)]
  end.

Definition disableCanonicalResolution (st : State) : list Host.Event * State :=
  let settings1 :=
    Host.update "resolution.resolveSymlinks" false Host.Workspace
      (settings st) in
  let settings2 :=
    Host.update "resolution.resolveWorkspaceRelative" false Host.Workspace
      settings1 in
  ([Host.NotifierInfo "Canonical path resolution disabled for security"],
   {| settings := settings2; window := window st |}).

Definition canonicalWarning : string :=
  "⚠️ SECURITY WARNING: Canonical path resolution is enabled. This may expose sensitive file system paths in the extracted output. Only use in trusted environments.".

Definition handleCanonicalResolutionWarning (st : State)
    : bool * list Host.Event * State :=
  let progress := Host.StatusProgress "⚠️ Resolving canonical paths..." in
  let context := Host.getConfiguration (settings st) in
  let warningShown :=
    Config.get_boolean context "_internal.canonicalWarningShown" false in
  if warningShown then (true, [progress], st)
  else
    let '(choice, w) :=
      Safety.showWarningMessage canonicalWarning
        ["Continue"; "Disable and Continue"; "Learn More"] (window st) in
    let st1 := {| settings := settings st; window := w |} in
    match choice with
    | Some label =>
      if String.eqb label "Disable and Continue" then
        let '(events, st2) := disableCanonicalResolution st1 in
        (false, progress :: events, st2)
      else if String.eqb label "Learn More" then
        (false,
         [progress;
          Host.OpenExternal
            "https://github.com/OffensiveEdge/paths-le#security-considerations"],
         st1)
      else if String.eqb label "Continue" then
        (true, [progress],
         {| settings :=
              Host.update "_internal.canonicalWarningShown" true Host.Global
                (settings st1);
            window := w |})
      else (false, [progress], st1)
    | None => (false, [progress], st1)
    end.

Definition showSuccessMessage (pathCount : Z) (languageId : string)
    : list Host.Event :=
  [Host.NotifierInfo
     ("Extracted " +:+ Js.numeral pathCount +:+ " paths from document");
   Host.Telemetry "extract-success"
     [("count", Js.Num pathCount); ("language", Js.Str languageId)]].

Definition copyIfEnabled (copyToClipboard : bool) (content : string)
    : list Host.Event :=
  if copyToClipboard then [Host.ClipboardWrite content] else [].

Definition openInSideBySide (content : string) (copyToClipboard : bool)
    : list Host.Event :=
  Host.OpenBeside content :: copyIfEnabled copyToClipboard content.

Definition openInNewFile (content : string) (copyToClipboard : bool)
    : list Host.Event :=
  Host.OpenNewFile content :: copyIfEnabled copyToClipboard content.

Definition replaceCurrentDocument (content : string) (copyToClipboard : bool)
    : list Host.Event :=
  Host.ReplaceDocument content :: copyIfEnabled copyToClipboard content.

Definition displayResults (formattedPaths : list string) (pathCount : Z)
    (document : Safety.TextDocument) (config : Config.Configuration)
    : list Host.Event :=
  let pathsContent := Js.join (String (Js.chr 10) EmptyString) formattedPaths in
  if Config.openResultsSideBySide config then
    openInSideBySide pathsContent (Config.copyToClipboardEnabled config)
    ++ showSuccessMessage pathCount (Safety.languageId document)
  else if Config.postProcessOpenInNewFile config then
    openInNewFile pathsContent (Config.copyToClipboardEnabled config)
    ++ showSuccessMessage pathCount (Safety.languageId document)
  else
    replaceCurrentDocument pathsContent (Config.copyToClipboardEnabled config)
    ++ showSuccessMessage pathCount (Safety.languageId document).

(** The callback of [registerExtractCommand], for the active editor's
    document (if there is one) and the order [schedule] in which the
    resolutions of the batch complete. *)
Definition extractCommand (editor : option Safety.TextDocument)
    (schedule : list nat) (st : State)
    : Host.Outcome * list Host.Event * State :=
  let started := Host.Telemetry "command-extract-paths" [] in
  match editor with
  | None =>
    (Host.Completed,
     [started; Host.NotifierWarning "No active editor found"], st)
  | Some document =>
    let config := Config.getConfiguration (Host.getConfiguration (settings st)) in
    let safetyResult :=
      Safety.handleSafetyChecks localize localizeError now captureStack
        document config Safety.noSafetyOptions in
    if negb (Safety.proceed safetyResult) then
      (Host.Completed,
       [started; Host.NotifierWarning (Safety.message safetyResult)], st)
    else
      match
        Extraction.extractPaths extractFromCsv extractFromToml
          extractFromDotenv extractFromJavaScript extractFromJson
          extractFromCss extractFromHtml now
          (Safety.getText document) (Safety.languageId document)
      with
      | None => (Host.Rejected, [started], st)
      | Some result =>
        if negb (Extraction.success result) then
          (Host.Completed, started :: handleExtractionFailure result, st)
        else
          match Extraction.paths result with
          | [] =>
            (Host.Completed,
             [started;
              Host.NotifierInfo "No paths found in the current document"],
             st)
          | _ =>
            let canonicalEnabled :=
              default false
                (Config.resolution config ≫= Config.resolveSymlinks)
              || default false
                   (Config.resolution config
                    ≫= Config.resolveWorkspaceRelative) in
            let '(shouldContinue, warned, st1) :=
              if canonicalEnabled then handleCanonicalResolutionWarning st
              else (true, [], st) in
            if negb shouldContinue then
              (Host.Completed, started :: warned, st1)
            else
              match
                resolvePathsIfNeeded getWorkspaceFolderForPath
                  resolvePathCanonical (Extraction.paths result)
                  (Config.resolution config) canonicalEnabled schedule
              with
              | None =>
                (Host.Pending,
                 started :: warned
                 ++ [Host.StatusProgress "Extracting paths..."], st1)
              | Some (formattedPaths, status) =>
                (Host.Completed,
                 started :: warned
                 ++ [Host.StatusProgress "Extracting paths..."]
                 ++ (Host.StatusProgress <$> status)
                 ++ displayResults formattedPaths
                      (Z.of_nat (length (Extraction.paths result)))
                      document config
                 ++ [Host.StatusHide],
                 st1)
              end
          end
      end
  end.

End Command.

Arguments extractCommand {WorkspaceFolder}.


End ExtractCommand.

(** ** De-duplication (commands/dedupe.ts) *)

Module Dedupe.

(** The [for] loop of [deduplicateLines], with its two locals. *)
Fixpoint deduplicateLoop (seen : gset string) (deduped : list string)
    (lines : list string) : list string :=
  match lines with
  | [] => deduped
  | line :: rest =>
    if bool_decide (line = EmptyString) || bool_decide (line ∈ seen) then
      deduplicateLoop seen deduped rest
    else deduplicateLoop ({[line]} ∪ seen) (deduped ++ [line]) rest
  end.

Definition deduplicateLines (lines : list string) : list string :=
  deduplicateLoop ∅ [] lines.

(** The callback of [registerDedupeCommand], for the text of the active
    editor's document, if there is one. *)
Definition dedupeCommand (localize : string → string → list Js.Value → string)
    (editor : option string) : list Host.Event :=
  match editor with
  | None =>
    [Host.WarningMessage
       (localize "runtime.dedupe.no-editor" "No active editor found" [])]
  | Some text =>
    let lines := Js.trim <$> Js.split (Js.chr 10) text in
    let deduped := deduplicateLines lines in
    let removedCount := Z.of_nat (length lines) - Z.of_nat (length deduped) in
    [Host.ReplaceDocument (Js.join (String (Js.chr 10) EmptyString) deduped);
     Host.InformationMessage
       (localize "runtime.dedupe.success"
          "Removed {0} duplicate paths ({1} remaining)"
          [Js.Num removedCount; Js.Num (Z.of_nat (length deduped))])]
  end.

End Dedupe.

(** ** Sorting (commands/sort.ts) *)

Module Sort.

Inductive SortOrder := asc | desc | length_asc | length_desc.

Record SortOption := {
  label : string;
  value : SortOrder;
}.

Section Sort.

(** [localize] of this file, and [a.localeCompare(b)], the collation of
    the host's locale. *)
Variable localize : string → string → list Js.Value → string.
Variable localeCompare : string → string → Z.

Definition sortOptions : list SortOption := [
  {| label := localize "runtime.sort.pick.alpha-asc" "Alphabetical (A → Z)" [];
     value := asc |};
  {| label := localize "runtime.sort.pick.alpha-desc" "Alphabetical (Z → A)" [];
     value := desc |};
  {| label :=
       localize "runtime.sort.pick.length-asc" "By Length (Short → Long)" [];
     value := length_asc |};
  {| label :=
       localize "runtime.sort.pick.length-desc" "By Length (Long → Short)" [];
     value := length_desc |}
].

(** [promptSortOrder]: the entry of the quick pick the user chooses, by
    position, or none when the pick is dismissed. *)
Definition promptSortOrder (pick : option nat) : option SortOption :=
  pick ≫= (sortOptions !!.).

Definition extractLines (text : string) : list string :=
  filter (λ line, 0 < Z.of_nat (String.length line))
    (Js.trim <$> Js.split (Js.chr 10) text).

Definition sortLines (lines : list string) (order : SortOrder) : list string :=
  match order with
  | length_asc =>
    Js.sort (λ a b, Z.of_nat (String.length a) - Z.of_nat (String.length b))
      lines
  | length_desc =>
    Js.sort (λ a b, Z.of_nat (String.length b) - Z.of_nat (String.length a))
      lines
  | asc => Js.sort (λ a b, localeCompare a b) lines
  | desc => Js.sort (λ a b, localeCompare b a) lines
  end.

(** The callback of [registerSortCommand]. *)
Definition sortCommand (editor : option string) (pick : option nat)
    : list Host.Event :=
  match editor with
  | None =>
    [Host.WarningMessage
       (localize "runtime.sort.no-editor" "No active editor found" [])]
  | Some text =>
    match promptSortOrder pick with
    | None => []
    | Some sortOption =>
      let lines := extractLines text in
      let sorted := sortLines lines (value sortOption) in
      [Host.ReplaceDocument (Js.join (String (Js.chr 10) EmptyString) sorted);
       Host.InformationMessage
         (localize "runtime.sort.success" "Sorted {0} paths ({1})"
            [Js.Num (Z.of_nat (length sorted)); Js.Str (label sortOption)])]
    end
  end.

End Sort.

End Sort.

(** ** Validation of extracted paths (utils/validation.ts) *)

Module Validation.

Inductive PathType := absolute | relative | url.

Record PathFormatValidation := {
  isValid : bool;
  errors : list string;
}.

Inductive Status := valid | invalid.

Record ValidationResult := {
  path : string;
  status : Status;
  error : option string;
  exists_ : option bool;
  resolvedPath : option string;
  permissions : option string;
}.

Section Validation.

(** The functions of utils/pathValidation and utils/pathResolver, and
    [vscode.workspace.fs.stat]: whether the call succeeds ([false]: it
    throws). *)
Variable WorkspaceFolder : Type.
Variable getWorkspaceFolderForPath : string → option WorkspaceFolder.
Variable validatePathFormat : string → PathFormatValidation.
Variable isValidPath : string → bool.
Variable detectPathType : string → PathType.
Variable resolvePathCanonical :
  string → ExtractCommand.ResolveOptions WorkspaceFolder → string.
Variable stat : string → bool.

Definition buildInvalidResult (path error : string) : ValidationResult :=
  {| path := path; status := invalid; error := Some error;
     exists_ := None; resolvedPath := None; permissions := None |}.

Definition buildValidResult (path : string) (exists_ : bool)
    : ValidationResult :=
  {| path := path; status := valid; error := None;
     exists_ := Some exists_; resolvedPath := None; permissions := None |}.

Definition checkPermissionsEnabled (config : Config.Configuration) : bool :=
  default false (Config.validation config ≫= Config.checkPermissions).

Definition buildValidResultWithResolution (path resolvedPath : string)
    (config : Config.Configuration) : ValidationResult :=
  {| path := path; status := valid; error := None;
     exists_ := Some true;
     resolvedPath :=
       if String.eqb resolvedPath path then None else Some resolvedPath;
     permissions :=
       if checkPermissionsEnabled config then Some "read-write" else None |}.

Definition resolvePathIfNeeded (path : string) (config : Config.Configuration)
    : string :=
  if negb (default false (Config.validation config ≫= Config.enabled)) then path
  else if negb (default false
                  (Config.resolution config ≫= Config.resolveSymlinks))
          && negb (default false
                     (Config.resolution config
                      ≫= Config.resolveWorkspaceRelative))
  then path
  else
    let workspaceFolder := getWorkspaceFolderForPath path in
    resolvePathCanonical path
      {| ExtractCommand.resolveSymlinks :=
           default true (Config.resolution config ≫= Config.resolveSymlinks);
         ExtractCommand.resolveWorkspaceRelative :=
           default true
             (Config.resolution config ≫= Config.resolveWorkspaceRelative);
         ExtractCommand.workspaceFolder := workspaceFolder |}.

(** [None]: the promise is rejected, [stat] having thrown. *)
Definition checkPathExistence (path resolvedPath : string)
    (config : Config.Configuration) : option ValidationResult :=
  if stat resolvedPath then
    Some {| path := path; status := valid; error := None;
            exists_ := Some true;
            resolvedPath :=
              if String.eqb resolvedPath path then None else Some resolvedPath;
            permissions :=
              if checkPermissionsEnabled config then Some "read-write"
              else None |}
  else None.

Definition validatePath (path : string) (config : Config.Configuration)
    : option ValidationResult :=
  let formatValidation := validatePathFormat path in
  if negb (isValid formatValidation) then
    Some (buildInvalidResult path (Js.join ", " (errors formatValidation)))
  else if negb (isValidPath path) then
    Some (buildInvalidResult path
            "Path contains invalid characters or reserved names")
  else
    match detectPathType path with
    | url => Some (buildValidResult path true)
    | _ =>
      let resolvedPath := resolvePathIfNeeded path config in
      if negb (default false
                 (Config.validation config ≫= Config.checkExistence))
      then Some (buildValidResultWithResolution path resolvedPath config)
      else checkPathExistence path resolvedPath config
    end.

(** The loop of [validatePaths]: the first rejection ends it. *)
Fixpoint validateLoop (results : list ValidationResult) (paths : list string)
    (config : Config.Configuration) : option (list ValidationResult) :=
  match paths with
  | [] => Some results
  | path :: rest =>
    match validatePath path config with
    | None => None
    | Some result => validateLoop (results ++ [result]) rest config
    end
  end.

Definition validatePaths (paths : list string) (config : Config.Configuration)
    : option (list ValidationResult) :=
  validateLoop [] paths config.

End Validation.

Arguments validatePath {WorkspaceFolder}.
Arguments validatePaths {WorkspaceFolder}.
Arguments validateLoop {WorkspaceFolder}.
Arguments resolvePathIfNeeded {WorkspaceFolder}.

End Validation.

(** ** Input validators of the prompts (ui/prompts.ts) *)

Module Prompts.






End Prompts.

(** * Vocabulary of the statements and sample inputs *)

Module Spec.

(** The numeric threshold settings: the settings key, the floor
    [getConfiguration] hands to [readNumber] for it, and the field of
    the result that holds the effective value. *)
Inductive ThresholdKey :=
| FileSizeWarnBytes | LargeOutputLinesThreshold | ManyDocumentsThreshold
| MaxDuration | MaxMemoryUsage | MaxCpuUsage | MinThroughput | MaxCacheSize.

Definition settingName (k : ThresholdKey) : string :=
  match k with
  | FileSizeWarnBytes => "safety.fileSizeWarnBytes"
  | LargeOutputLinesThreshold => "safety.largeOutputLinesThreshold"
  | ManyDocumentsThreshold => "safety.manyDocumentsThreshold"
  | MaxDuration => "performance.maxDuration"
  | MaxMemoryUsage => "performance.maxMemoryUsage"
  | MaxCpuUsage => "performance.maxCpuUsage"
  | MinThroughput => "performance.minThroughput"
  | MaxCacheSize => "performance.maxCacheSize"
  end.

Definition floorOf (k : ThresholdKey) : Z :=
  match k with
  | FileSizeWarnBytes => 1000
  | LargeOutputLinesThreshold => 100
  | ManyDocumentsThreshold => 1
  | MaxDuration => 1000
  | MaxMemoryUsage => 1048576
  | MaxCpuUsage => 100000
  | MinThroughput => 100
  | MaxCacheSize => 100
  end.

Definition effective (k : ThresholdKey) (c : Config.Configuration)
    : Js.number :=
  match k with
  | FileSizeWarnBytes => Config.safetyFileSizeWarnBytes c
  | LargeOutputLinesThreshold => Config.safetyLargeOutputLinesThreshold c
  | ManyDocumentsThreshold => Config.safetyManyDocumentsThreshold c
  | MaxDuration => Config.performanceMaxDuration c
  | MaxMemoryUsage => Config.performanceMaxMemoryUsage c
  | MaxCpuUsage => Config.performanceMaxCpuUsage c
  | MinThroughput => Config.performanceMinThroughput c
  | MaxCacheSize => Config.performanceMaxCacheSize c
  end.

(** The four recovery actions of the taxonomy, as strings. *)
Definition recoveryActions : list string := ["skip"; "retry"; "abort"; "fallback"].

(** The file-size threshold in force: the custom one when the options
    give one, else the configured one. *)
Definition fileSizeThreshold (config : Config.Configuration)
    (options : Safety.SafetyCheckOptions) : Js.number :=
  match Safety.customThresholds options with
  | Some custom =>
    match Safety.fileSizeBytes custom with
    | Some bytes => bytes
    | None => Config.safetyFileSizeWarnBytes config
    end
  | None => Config.safetyFileSizeWarnBytes config
  end.

(** The size of a document as the gate measures it: the length of its
    text, which the gate's message reports in bytes. *)
Definition sizeOf (document : Safety.TextDocument) : Z :=
  Z.of_nat (String.length (Safety.getText document)).

(** The number of bytes of a text in UTF-8, the encoding of the editor's
    files unless another is chosen, and what [Buffer.byteLength] counts:
    one for a code unit below 128 and two for the others (below 256). *)
Fixpoint byteLength (s : string) : Z :=
  match s with
  | EmptyString => 0
  | String a s' =>
    (if (nat_of_ascii a <? 128)%nat then 1 else 2) + byteLength s'
  end.

(** A hard block: an error of category safety, severity high, not
    recoverable. *)
Definition hardBlock (r : Safety.SafetyResult) : Prop :=
  Safety.proceed r = false
  ∧ ∃ e, Safety.error r = Some e
         ∧ ErrorHandling.category e = ErrorHandling.Safety
         ∧ ErrorHandling.severity e = ErrorHandling.High
         ∧ ErrorHandling.recoverable e = false.

(** The label of the button the user presses at the next dialog, if
    any. *)
Definition pressed (labels : list string) (w : Safety.Window)
    : option string :=
  match Safety.answers w with
  | Some button :: _ => labels !! button
  | _ => None
  end.

(** De-duplication in the words of the specification: a line is kept
    when it is not empty and does not occur among the lines before it. *)
Fixpoint firstOccurrencesAfter (before lines : list string) : list string :=
  match lines with
  | [] => []
  | line :: rest =>
    (if bool_decide (line ≠ EmptyString ∧ line ∉ before) then [line] else [])
    ++ firstOccurrencesAfter (before ++ [line]) rest
  end.

Definition firstOccurrences (lines : list string) : list string :=
  firstOccurrencesAfter [] lines.

(** No character of [s] is in the class [c]. *)
Fixpoint avoids (c : ascii → bool) (s : string) : bool :=
  match s with
  | EmptyString => true
  | String a s' => negb (c a) && avoids c s'
  end.

(** A pattern that cannot match without a character of the class [c]:
    one of its atoms stands for at least one character, all of them in
    [c]. *)
Definition needs (re : Js.regex) (c : ascii → bool) : Prop :=
  Exists (λ atom,
            (Js.a_quant atom = Js.Once ∨ Js.a_quant atom = Js.Plus)
            ∧ ∀ a, Js.a_class atom a = true → c a = true) re.



(** The number of lines of a text: one more than its line feeds. *)
Fixpoint lineFeeds (s : string) : nat :=
  match s with
  | EmptyString => O
  | String a s' =>
    if Ascii.eqb a (Js.chr 10) then S (lineFeeds s') else lineFeeds s'
  end.

Definition lineCount (s : string) : Z := Z.of_nat (S (lineFeeds s)).

(** The line-count threshold in force: the custom one when the options
    give one, else the configured one. *)
Definition lineCountThreshold (config : Config.Configuration)
    (options : Safety.SafetyCheckOptions) : Js.number :=
  match Safety.customThresholds options with
  | Some custom =>
    match Safety.lineCount custom with
    | Some lines => lines
    | None => Config.safetyLargeOutputLinesThreshold config
    end
  | None => Config.safetyLargeOutputLinesThreshold config
  end.

(** The language identifiers the extractor accepts. *)
Definition supportedLanguageIds : list string := [
  "csv"; "toml"; "dotenv"; "env"; "javascript"; "javascriptreact";
  "typescript"; "typescriptreact"; "json"; "jsonc"; "html"; "css"; "scss";
  "less"
].

(** Canonical resolution is switched on in the settings. *)
Definition canonicalResolution (settings : Host.Settings) : bool :=
  Config.readBoolean (Host.getConfiguration settings)
    "resolution.resolveSymlinks" false
  || Config.readBoolean (Host.getConfiguration settings)
       "resolution.resolveWorkspaceRelative" false.

(** The text an event puts before the user as the result of a command,
    and the text it puts on the clipboard. *)
Definition displayed (event : Host.Event) : option string :=
  match event with
  | Host.OpenBeside content | Host.OpenNewFile content
  | Host.ReplaceDocument content => Some content
  | _ => None
  end.

Definition copied (event : Host.Event) : option string :=
  match event with
  | Host.ClipboardWrite content => Some content
  | _ => None
  end.

(** Each element's key is at most the keys of the elements after it. *)
Fixpoint ascending {A} (key : A → Z) (l : list A) : Prop :=
  match l with
  | [] => True
  | x :: l' => Forall (λ y, key x ≤ key y) l' ∧ ascending key l'
  end.

(** The length of a line, as a key. *)
Definition len (line : string) : Z := Z.of_nat (String.length line).

(** The line feed, as a class of characters. *)
Definition isLineFeed (a : ascii) : bool := Ascii.eqb a (Js.chr 10).

End Spec.

Module Samples.

Definition settings : Config.WorkspaceConfiguration := {|
  Config.numbers := {[ "safety.fileSizeWarnBytes" := Js.JNumber 10 ]};
  Config.booleans := ∅;
  Config.strings := ∅;
|}.

Definition configuration : Config.Configuration :=
  Config.getConfiguration settings.

(** A document of 1200 characters, above the floor of the file-size
    threshold. *)
Definition largeDocument : Safety.TextDocument := {|
  Safety.getText := String.concat EmptyString (replicate 100 "/tmp/a.txt; ");
  Safety.fileName := "paths.txt";
  Safety.languageId := "plaintext";
|}.

Definition smallDocument : Safety.TextDocument := {|
  Safety.getText := "./src/index.ts";
  Safety.fileName := "notes.md";
  Safety.languageId := "markdown";
|}.

Definition overrideAllowed : Safety.SafetyCheckOptions := {|
  Safety.showProgress := None;
  Safety.allowOverride := Some true;
  Safety.customThresholds := None;
|}.

Definition noStack (message : string) : option string := None.

(** The user presses "Continue Anyway" at the first dialog and "Cancel"
    at the second. *)
Definition approveThenCancel : Safety.Window :=
  {| Safety.answers := [Some 0%nat; Some 1%nat]; Safety.shown := [] |}.

(** The user presses "Continue Anyway" at every dialog. *)
Definition approveTwice : Safety.Window :=
  {| Safety.answers := [Some 0%nat; Some 0%nat]; Safety.shown := [] |}.

(** An extractor that finds one candidate, the content itself. *)
Definition wholeContent (content : string) : option (list Extraction.Path) :=
  Some [{| Extraction.value := content;
           Extraction.line := None; Extraction.column := None |}].

Definition extract : string → string → option Extraction.ExtractionResult :=
  Extraction.extractPaths wholeContent wholeContent wholeContent wholeContent
    wholeContent wholeContent wholeContent 0.

(** A file-system error whose message names a home directory and a
    token. *)
Definition leakyError : ErrorHandling.EnhancedError :=
  ErrorHandling.createEnhancedError Js.localizeDefault 0
    {| Js.message := "permission denied: /home/alice/notes.txt token=abc123";
       Js.stack := None |}
    ErrorHandling.FileSystem None None.

Definition channel (line : string) : list Js.Effect := [Js.AppendLine line].

Definition logger : ErrorHandling.ErrorLogger :=
  ErrorHandling.createErrorLogger "2024-01-01T00:00:00.000Z" (λ _, "{}") channel.

Definition handler : ErrorHandling.ErrorHandler :=
  ErrorHandling.createErrorHandler logger ErrorHandling.createErrorNotifier
    {| ErrorHandling.cfg_showParseErrors := true;
       ErrorHandling.cfg_notificationsLevel := Config.all;
       ErrorHandling.cfg_maxRetries := 3;
       ErrorHandling.cfg_retryDelay := 1000 |}.

(** Canonical resolution that prefixes every path with a root. *)
Definition underRoot (path : string)
    (options : ExtractCommand.ResolveOptions unit) : string :=
  "/workspace/" +:+ path.

(** Canonical resolution that looks at its options: a path inside a
    workspace folder goes under the root, below [real] when symlinks are
    resolved; outside a workspace folder it stays as it is. *)
Definition underFolder (path : string)
    (options : ExtractCommand.ResolveOptions unit) : string :=
  match ExtractCommand.workspaceFolder _ options with
  | Some _ =>
    if ExtractCommand.resolveSymlinks _ options
    then "/workspace/real/" +:+ path
    else "/workspace/" +:+ path
  | None => path
  end.

Definition threePaths : list Extraction.Path :=
  (λ v, {| Extraction.value := v;
           Extraction.line := None; Extraction.column := None |})
  <$> ["a.ts"; "b.ts"; "c.ts"].

(** Two lines of plain prose. *)
Definition plainDocument : Safety.TextDocument := {|
  Safety.getText := String.concat (String (Js.chr 10) EmptyString)
                      ["remember the milk"; "call the printer"];
  Safety.fileName := "todo.txt";
  Safety.languageId := "plaintext";
|}.

(** Options that warn above one line. *)
Definition oneLineOptions : Safety.SafetyCheckOptions := {|
  Safety.showProgress := None;
  Safety.allowOverride := None;
  Safety.customThresholds :=
    Some {| Safety.fileSizeBytes := None;
            Safety.lineCount := Some (Js.Finite 1);
            Safety.pathCount := None |};
|}.

(** Settings in which the file-size threshold is an empty object
    instead of a number. *)
Definition brokenSettings : Config.WorkspaceConfiguration := {|
  Config.numbers := {[ "safety.fileSizeWarnBytes" := Js.JObject ]};
  Config.booleans := ∅;
  Config.strings := ∅;
|}.

(** A text file of [n] times the letter e with an acute accent (code
    unit 233). *)
Definition accented (n : nat) : Safety.TextDocument := {|
  Safety.getText := string_of_list_ascii (replicate n (Js.chr 233));
  Safety.fileName := "accents.txt";
  Safety.languageId := "plaintext";
|}.

(** Options with a custom file-size threshold of 1000. *)
Definition customLimit : Safety.SafetyCheckOptions := {|
  Safety.showProgress := None;
  Safety.allowOverride := None;
  Safety.customThresholds :=
    Some {| Safety.fileSizeBytes := Some (Js.Finite 1000);
            Safety.lineCount := None;
            Safety.pathCount := None |};
|}.

Definition noSettings : Config.WorkspaceConfiguration :=
  {| Config.numbers := ∅; Config.booleans := ∅; Config.strings := ∅ |}.

Definition hostSettings : Host.Settings :=
  {| Host.user := settings; Host.workspace := noSettings |}.

(** Settings that switch symlink resolution on, for all workspaces. *)
Definition canonicalSettings : Host.Settings :=
  {| Host.user :=
       {| Config.numbers := ∅;
          Config.booleans := {[ "resolution.resolveSymlinks" := true ]};
          Config.strings := ∅ |};
     Host.workspace := noSettings |}.

Definition cssDocument : Safety.TextDocument := {|
  Safety.getText := "./a.css";
  Safety.fileName := "a.css";
  Safety.languageId := "css";
|}.

(** An extractor that throws. *)
Definition throwing (content : string) : option (list Extraction.Path) := None.

(** The command's state: the sample settings, and a user who presses
    the first button of every dialog, or the second button of the first
    dialog. *)
Definition hostState : ExtractCommand.State :=
  {| ExtractCommand.settings := hostSettings;
     ExtractCommand.window := approveTwice |}.

Definition canonicalState : ExtractCommand.State :=
  {| ExtractCommand.settings := canonicalSettings;
     ExtractCommand.window := approveTwice |}.

Definition secondButtonState : ExtractCommand.State :=
  {| ExtractCommand.settings := canonicalSettings;
     ExtractCommand.window :=
       {| Safety.answers := [Some 1%nat]; Safety.shown := [] |} |}.

(** The extract command with the default messages and an extractor that
    returns the content for every format but CSS, whose extractor is
    given. *)
Definition command (cssExtractor : string → option (list Extraction.Path)) :=
  ExtractCommand.extractCommand (WorkspaceFolder := unit) (λ _, None)
    underRoot Js.localizeDefault Js.localizeDefault 0 noStack
    wholeContent wholeContent wholeContent wholeContent wholeContent
    cssExtractor wholeContent.

(** A small validator: the empty path is malformed, a path that begins
    with a scheme is a URL, and only one file exists. *)
Definition formatOf (path : string) : Validation.PathFormatValidation :=
  if String.eqb path EmptyString then
    {| Validation.isValid := false;
       Validation.errors := ["Path is empty"] |}
  else {| Validation.isValid := true; Validation.errors := [] |}.

Definition typeOf (path : string) : Validation.PathType :=
  if String.prefix "https://" path then Validation.url
  else Validation.relative.

Definition onlyA (path : string) : bool := String.eqb path "/workspace/a.ts".

Definition validate (stat : string → bool) :=
  Validation.validatePaths (WorkspaceFolder := unit) (λ _, None) formatOf
    (λ _, true) typeOf underRoot stat.

(** The configuration with symlink resolution on, and the one with
    existence checking off. *)
Definition canonicalConfiguration : Config.Configuration :=
  Config.getConfiguration (Host.getConfiguration canonicalSettings).

Definition uncheckedConfiguration : Config.Configuration :=
  Config.getConfiguration
    {| Config.numbers := ∅;
       Config.booleans := {[ "validation.checkExistence" := false ]};
       Config.strings := ∅ |}.

End Samples.

(** * Properties *)

(** ** Configuration *)

Lemma readNumber_configured config key (d m : Z) (raw : Js.Json) :
  Config.numbers config !! key = Some raw →
  Config.readNumber config key d m = Js.max m (Js.Number raw).
Proof.
  intros Hraw. unfold Config.readNumber, Config.get_number. by rewrite Hraw.
Qed.

(** What [readNumber] returns is at least the floor, or it is NaN. *)
Lemma readNumber_floor config key (d m : Z) :
  Config.readNumber config key d m = Js.NaN
  ∨ ∃ t : Z, Config.readNumber config key d m = Js.Finite t ∧ m ≤ t.
Proof.
  unfold Config.readNumber.
  destruct (Js.Number (Config.get_number config key d)) as [v|]; simpl.
  - right. exists (Z.max m v). split; [done|lia].
  - by left.
Qed.

(** For each numeric threshold setting and each integer configured for
    it, the value [getConfiguration] returns is the maximum of the
    configured value and the setting's floor, and so is never below the
    floor. *)
Lemma getConfiguration_threshold_floor
    (config : Config.WorkspaceConfiguration) (k : Spec.ThresholdKey) (v : Z) :
  Config.numbers config !! Spec.settingName k = Some (Js.JNumber v) →
  Spec.effective k (Config.getConfiguration config)
  = Js.Finite (Z.max v (Spec.floorOf k))
  ∧ Js.ge (Spec.effective k (Config.getConfiguration config)) (Spec.floorOf k)
    = true.
Proof.
  intros Hv.
  assert (Spec.effective k (Config.getConfiguration config)
          = Js.Finite (Z.max v (Spec.floorOf k))) as ->.
  { destruct k; simpl in *; rewrite (readNumber_configured _ _ _ _ _ Hv);
      simpl; f_equal; lia. }
  split; [done|]. simpl. apply Z.leb_le. lia.
Qed.

Lemma getConfiguration_threshold_floor_witness :
  Config.safetyFileSizeWarnBytes Samples.configuration = Js.Finite 1000
  ∧ Js.ge (Config.safetyFileSizeWarnBytes Samples.configuration) 1000 = true.
Proof.
  apply (getConfiguration_threshold_floor
           Samples.settings Spec.FileSizeWarnBytes 10).
  reflexivity.
Defined.

(** C7. The floor is not enforced for every configured value.  When the
    value configured for a numeric threshold setting is one that
    [Number] turns into NaN, such as an object, the value
    [getConfiguration] returns for the setting is NaN: it is not the
    maximum of anything and the floor, and it is not at least the
    floor. *)
Theorem getConfiguration_threshold_NaN
    (config : Config.WorkspaceConfiguration) (k : Spec.ThresholdKey)
    (raw : Js.Json) :
  Config.numbers config !! Spec.settingName k = Some raw →
  Js.Number raw = Js.NaN →
  Spec.effective k (Config.getConfiguration config) = Js.NaN
  ∧ Js.ge (Spec.effective k (Config.getConfiguration config)) (Spec.floorOf k)
    = false.
Proof.
  intros Hraw Hnan.
  assert (Spec.effective k (Config.getConfiguration config) = Js.NaN) as ->.
  { destruct k; simpl in *; rewrite (readNumber_configured _ _ _ _ _ Hraw);
      by rewrite Hnan. }
  done.
Qed.

Lemma getConfiguration_threshold_NaN_witness :
  Config.safetyFileSizeWarnBytes
    (Config.getConfiguration Samples.brokenSettings) = Js.NaN
  ∧ Js.ge (Config.safetyFileSizeWarnBytes
             (Config.getConfiguration Samples.brokenSettings)) 1000 = false.
Proof.
  apply (getConfiguration_threshold_NaN
           Samples.brokenSettings Spec.FileSizeWarnBytes Js.JObject).
  - reflexivity.
  - reflexivity.
Defined.

(** Whatever is configured, and also when nothing is, the value
    returned is at least the floor or it is NaN. *)
Lemma getConfiguration_floor_always
    (config : Config.WorkspaceConfiguration) (k : Spec.ThresholdKey) :
  Spec.effective k (Config.getConfiguration config) = Js.NaN
  ∨ ∃ t : Z, Spec.effective k (Config.getConfiguration config) = Js.Finite t
             ∧ Spec.floorOf k ≤ t.
Proof. destruct k; simpl; apply readNumber_floor. Qed.

(** ** Format dispatch *)

Section ExtractionProperties.

Variables csvX tomlX dotenvX jsX jsonX cssX htmlX
  : string → option (list Extraction.Path).
Variable now : Z.

Let extractPaths :=
  Extraction.extractPaths csvX tomlX dotenvX jsX jsonX cssX htmlX now.

Lemma extractPaths_unknown content languageId :
  Extraction.determineFileType languageId = Extraction.unknown →
  extractPaths content languageId
  = Some (Extraction.buildUnsupportedFormatResult now languageId).
Proof.
  intros Hft. unfold extractPaths, Extraction.extractPaths. by rewrite Hft.
Qed.

Lemma extractPaths_supported content languageId r :
  Extraction.determineFileType languageId ≠ Extraction.unknown →
  extractPaths content languageId = Some r →
  Extraction.success r = true ∧ Extraction.errors r = [].
Proof.
  intros Hft. unfold extractPaths, Extraction.extractPaths.
  destruct (Extraction.determineFileType languageId) eqn:E;
    try congruence;
    simpl;
    match goal with
    | |- context [?x content] => destruct (x content); simpl
    end;
    intros [= <-]; done.
Qed.

(** C1. For a format identifier that [determineFileType] maps to
    [unknown], and any content, [extractPaths] returns a result with
    [success] false, no paths, and exactly one error, of category
    "format", severity "info" and not recoverable. *)
Theorem extractPaths_unknown_format content languageId :
  Extraction.determineFileType languageId = Extraction.unknown →
  ∃ r e,
    extractPaths content languageId = Some r
    ∧ Extraction.success r = false
    ∧ Extraction.paths r = []
    ∧ Extraction.errors r = [e]
    ∧ Extraction.category e = "format"
    ∧ Extraction.severity e = "info"
    ∧ Extraction.recoverable e = false.
Proof.
  intros Hft. rewrite (extractPaths_unknown _ _ Hft).
  eexists _, _. repeat split.
Qed.

(** C10. Whenever [extractPaths] returns a result with [success] true,
    the result carries no errors. *)
Theorem extractPaths_success_no_errors content languageId r :
  extractPaths content languageId = Some r →
  Extraction.success r = true →
  Extraction.errors r = [].
Proof.
  intros Hr Hs.
  destruct (decide (Extraction.determineFileType languageId
                    = Extraction.unknown)) as [Hft|Hft].
  - rewrite (extractPaths_unknown _ _ Hft) in Hr.
    injection Hr as <-. discriminate Hs.
  - by destruct (extractPaths_supported _ _ _ Hft Hr).
Qed.

(** C6, as the code has it.  The recovery action [determineRecoveryAction]
    computes, and the one [createParseError] sets, is one of "skip",
    "retry", "abort" and "fallback"; the error [extractPaths] produces for
    an unsupported format carries the recovery action "none". *)
Theorem recoveryAction_values :
  (∀ category severity,
     ErrorHandling.recoveryActionName
       (ErrorHandling.determineRecoveryAction category severity)
     ∈ Spec.recoveryActions)
  ∧ (∀ t message filepath position,
       ErrorHandling.recoveryActionName
         (ErrorHandling.ppe_recoveryAction
            (ErrorHandling.createParseError t message filepath position))
       = "skip")
  ∧ (∀ content languageId,
       Extraction.determineFileType languageId = Extraction.unknown →
       ∃ r e, extractPaths content languageId = Some r
              ∧ Extraction.errors r = [e]
              ∧ Extraction.recoveryAction e = "none").
Proof.
  split; [|split].
  - intros c s. unfold Spec.recoveryActions.
    rewrite !elem_of_cons. destruct c, s; simpl; tauto.
  - reflexivity.
  - intros content languageId Hft.
    rewrite (extractPaths_unknown _ _ Hft). by eexists _, _.
Qed.

End ExtractionProperties.

Lemma extractPaths_unknown_format_witness :
  ∃ r e,
    Samples.extract "# notes" "markdown" = Some r
    ∧ Extraction.success r = false
    ∧ Extraction.paths r = []
    ∧ Extraction.errors r = [e]
    ∧ Extraction.category e = "format"
    ∧ Extraction.severity e = "info"
    ∧ Extraction.recoverable e = false.
Proof.
  apply (extractPaths_unknown_format
           Samples.wholeContent Samples.wholeContent Samples.wholeContent
           Samples.wholeContent Samples.wholeContent Samples.wholeContent
           Samples.wholeContent 0 "# notes" "markdown").
  reflexivity.
Defined.

Lemma extractPaths_success_no_errors_witness :
  let r := {| Extraction.success := true;
              Extraction.paths :=
                [{| Extraction.value := "./a.css";
                    Extraction.line := None; Extraction.column := None |}];
              Extraction.errors := [] |} in
  Samples.extract "./a.css" "css" = Some r
  ∧ Extraction.success r = true
  ∧ Extraction.errors r = [].
Proof.
  intros r. split; [reflexivity|]. split; [reflexivity|].
  apply (extractPaths_success_no_errors
           Samples.wholeContent Samples.wholeContent Samples.wholeContent
           Samples.wholeContent Samples.wholeContent Samples.wholeContent
           Samples.wholeContent 0 "./a.css" "css" r);
    reflexivity.
Defined.

Lemma recoveryAction_values_witness :
  ∃ r e, Samples.extract "# notes" "markdown" = Some r
         ∧ Extraction.errors r = [e]
         ∧ Extraction.recoveryAction e = "none".
Proof.
  destruct (recoveryAction_values
              Samples.wholeContent Samples.wholeContent Samples.wholeContent
              Samples.wholeContent Samples.wholeContent Samples.wholeContent
              Samples.wholeContent 0) as (_ & _ & H).
  apply (H "# notes" "markdown"). reflexivity.
Defined.

(** C6, as stated, fails: the error of an unsupported format has a
    recovery action outside the four. *)
Lemma unsupported_format_recoveryAction_counterexample :
  ∃ r e,
    Samples.extract "# notes" "markdown" = Some r
    ∧ e ∈ Extraction.errors r
    ∧ Extraction.recoveryAction e ∉ Spec.recoveryActions.
Proof.
  eexists _, _. split; [reflexivity|]. split.
  - simpl. apply list_elem_of_here.
  - simpl. unfold Spec.recoveryActions.
    rewrite !elem_of_cons, elem_of_nil.
    intros [?|[?|[?|[?|[]]]]]; discriminate.
Qed.

(** ** The safety gate *)

Section SafetyProperties.

Variable localize : string → string → list Js.Value → string.
Variable localizeError : string → string → list Js.Value → string.
Variable now : Z.
Variable captureStack : string → option string.

Let handleSafetyChecks :=
  Safety.handleSafetyChecks localize localizeError now captureStack.
Let handleSafetyChecksWithUserConfirmation :=
  Safety.handleSafetyChecksWithUserConfirmation
    localize localizeError now captureStack.
Let buildFileSizeError :=
  Safety.buildFileSizeError localize localizeError now captureStack.

Lemma fileSizeThreshold_default config options :
  default (Config.safetyFileSizeWarnBytes config)
    (Safety.customThresholds options ≫= Safety.fileSizeBytes)
  = Spec.fileSizeThreshold config options.
Proof.
  unfold Spec.fileSizeThreshold.
  destruct (Safety.customThresholds options) as [custom|]; [|done].
  simpl. by destruct (Safety.fileSizeBytes custom).
Qed.

Lemma handleSafetyChecks_disabled document config options :
  Config.safetyEnabled config = false →
  handleSafetyChecks document config options
  = {| Safety.proceed := true; Safety.message := EmptyString;
       Safety.error := None; Safety.warnings := [] |}.
Proof.
  intros Hoff. unfold handleSafetyChecks, Safety.handleSafetyChecks.
  by rewrite Hoff.
Qed.

Lemma handleSafetyChecks_over document config options :
  Config.safetyEnabled config = true →
  Js.gt (Spec.sizeOf document) (Spec.fileSizeThreshold config options) = true →
  handleSafetyChecks document config options
  = buildFileSizeError (Spec.sizeOf document)
      (Spec.fileSizeThreshold config options) (Safety.fileName document).
Proof.
  intros Hon Hgt. unfold handleSafetyChecks, Safety.handleSafetyChecks.
  rewrite Hon, fileSizeThreshold_default. cbn [negb].
  unfold Spec.sizeOf in Hgt. by rewrite Hgt.
Qed.

Lemma handleSafetyChecks_within document config options :
  Config.safetyEnabled config = true →
  Js.gt (Spec.sizeOf document) (Spec.fileSizeThreshold config options) = false →
  Safety.proceed (handleSafetyChecks document config options) = true
  ∧ Safety.error (handleSafetyChecks document config options) = None.
Proof.
  intros Hon Hle. unfold handleSafetyChecks, Safety.handleSafetyChecks.
  rewrite Hon, fileSizeThreshold_default. cbn [negb].
  unfold Spec.sizeOf in Hle. by rewrite Hle.
Qed.

Lemma buildFileSizeError_hardBlock fileSize threshold fileName :
  Spec.hardBlock (buildFileSizeError fileSize threshold fileName)
  ∧ Safety.warnings (buildFileSizeError fileSize threshold fileName) = [].
Proof.
  split; [|done]. split; [done|]. eexists. by repeat split.
Qed.

(** A result that does not proceed is the one of [buildFileSizeError]. *)
Lemma handleSafetyChecks_blocked document config options :
  Safety.proceed (handleSafetyChecks document config options) = false →
  ∃ fileSize threshold,
    handleSafetyChecks document config options
    = buildFileSizeError fileSize threshold (Safety.fileName document).
Proof.
  unfold handleSafetyChecks, Safety.handleSafetyChecks.
  destruct (Config.safetyEnabled config); simpl; [|done].
  match goal with |- context [if ?c then _ else _] => destruct c end;
    [|done].
  intros _. by eexists _, _.
Qed.

(** The gate as the code has it.  With safety enabled: when the length
    of the content, in code units, exceeds the file-size threshold (the
    custom one when given, else the configured one), [handleSafetyChecks]
    returns [proceed] false with an error of category safety, severity
    high, not recoverable; when it does not, [handleSafetyChecks] returns
    [proceed] true. *)
Lemma handleSafetyChecks_file_size_gate document config options :
  Config.safetyEnabled config = true →
  (Js.gt (Spec.sizeOf document) (Spec.fileSizeThreshold config options) = true →
   Spec.hardBlock (handleSafetyChecks document config options))
  ∧ (Js.gt (Spec.sizeOf document) (Spec.fileSizeThreshold config options)
     = false →
     Safety.proceed (handleSafetyChecks document config options) = true).
Proof.
  intros Hon. split.
  - intros Hlt. rewrite (handleSafetyChecks_over _ _ _ Hon Hlt).
    apply buildFileSizeError_hardBlock.
  - intros Hle. by apply handleSafetyChecks_within.
Qed.

(** A text has at most as many code units as bytes, so a text whose byte
    length is within the threshold passes the gate. *)
Lemma length_le_byteLength (s : string) :
  Z.of_nat (String.length s) ≤ Spec.byteLength s.
Proof.
  induction s as [|a s IH]; [done|].
  cbn [String.length Spec.byteLength].
  destruct (nat_of_ascii a <? 128)%nat; lia.
Qed.

Lemma handleSafetyChecks_within_bytes document config options :
  Config.safetyEnabled config = true →
  Js.gt (Spec.byteLength (Safety.getText document))
    (Spec.fileSizeThreshold config options) = false →
  Safety.proceed (handleSafetyChecks document config options) = true.
Proof.
  intros Hon Hbytes. apply handleSafetyChecks_within; [done|].
  pose proof (length_le_byteLength (Safety.getText document)) as Hle.
  unfold Spec.sizeOf.
  destruct (Spec.fileSizeThreshold config options) as [t|]; [|done].
  simpl in *. apply Z.ltb_ge. apply Z.ltb_ge in Hbytes. lia.
Qed.

(** A threshold that is NaN blocks nothing. *)
Lemma handleSafetyChecks_NaN_threshold document config options :
  Spec.fileSizeThreshold config options = Js.NaN →
  Safety.proceed (handleSafetyChecks document config options) = true.
Proof.
  intros Hnan. destruct (Config.safetyEnabled config) eqn:Hon.
  - apply handleSafetyChecks_within; [done|]. by rewrite Hnan.
  - by rewrite handleSafetyChecks_disabled.
Qed.

(** C2. The gate does not measure bytes.  The text of 1000 times the
    letter e with an acute accent has 1000 code units and, in UTF-8, 2000
    bytes.  With safety enabled and a file-size threshold of 1000,
    configured or custom, its byte length exceeds the threshold and
    [handleSafetyChecks] returns [proceed] true all the same; and when
    the gate does block, at 1001 such letters, the message gives the
    number of code units as the number of bytes. *)
Theorem handleSafetyChecks_counts_code_units :
  let threshold := Spec.fileSizeThreshold Samples.configuration
                     Safety.noSafetyOptions in
  Config.safetyEnabled Samples.configuration = true
  ∧ threshold = Js.Finite 1000
  ∧ Spec.fileSizeThreshold Samples.configuration Samples.customLimit
    = Js.Finite 1000
  ∧ Spec.byteLength (Safety.getText (Samples.accented 1000)) = 2000
  ∧ Js.gt (Spec.byteLength (Safety.getText (Samples.accented 1000))) threshold
    = true
  ∧ Safety.proceed
      (handleSafetyChecks (Samples.accented 1000) Samples.configuration
         Safety.noSafetyOptions) = true
  ∧ Safety.proceed
      (handleSafetyChecks (Samples.accented 1000) Samples.configuration
         Samples.customLimit) = true
  ∧ Spec.byteLength (Safety.getText (Samples.accented 1001)) = 2002
  ∧ ∃ e,
      Safety.error
        (handleSafetyChecks (Samples.accented 1001) Samples.configuration
           Safety.noSafetyOptions) = Some e
      ∧ Js.message (ErrorHandling.originalError e)
        = localize "runtime.safety.file-size"
            "File size ({0} bytes) exceeds safety threshold ({1} bytes)"
            [Js.Num 1001; Js.Num 1000].
Proof.
  intros threshold.
  split; [reflexivity|]. split; [reflexivity|]. split; [reflexivity|].
  split; [by vm_compute|]. split; [by vm_compute|].
  split; [|split; [|split]].
  - apply handleSafetyChecks_within; [reflexivity|by vm_compute].
  - apply handleSafetyChecks_within; [reflexivity|by vm_compute].
  - by vm_compute.
  - rewrite handleSafetyChecks_over; [|reflexivity|by vm_compute].
    eexists. split; [reflexivity|].
    replace (Spec.sizeOf (Samples.accented 1001)) with 1001 by (by vm_compute).
    reflexivity.
Qed.

(** C3. A result of [handleSafetyChecks] or of
    [handleSafetyChecksWithUserConfirmation] whose [proceed] is false
    has its error set and no warnings. *)
Theorem safetyResult_invariant document config options w r :
  r = handleSafetyChecks document config options
  ∨ r = (handleSafetyChecksWithUserConfirmation document config options w).1 →
  Safety.proceed r = false →
  is_Some (Safety.error r) ∧ Safety.warnings r = [].
Proof.
  assert (Hplain : Safety.proceed (handleSafetyChecks document config options)
                   = false →
                   is_Some (Safety.error
                              (handleSafetyChecks document config options))
                   ∧ Safety.warnings
                       (handleSafetyChecks document config options) = []).
  { intros Hstop.
    destruct (handleSafetyChecks_blocked _ _ _ Hstop) as (s & t & ->).
    split; [by eexists|done]. }
  intros [->| ->]; [exact Hplain|].
  unfold handleSafetyChecksWithUserConfirmation,
    Safety.handleSafetyChecksWithUserConfirmation.
  fold (handleSafetyChecks document config options).
  destruct (negb _ && _); [|exact Hplain].
  destruct (Safety.promptUserOverride _ _ _) as [[] w']; simpl;
    [discriminate|exact Hplain].
Qed.

(** C5, as the code has it.  When the safety check of a document blocks
    and override is allowed, a call of
    [handleSafetyChecksWithUserConfirmation] shows the user one dialog,
    with the message of the block, and returns [proceed] true exactly
    when the user chooses to continue at that dialog.  Nothing is recorded:
    the next call on the same document asks again. *)
Theorem override_asked_at_every_call document config options w :
  Safety.proceed (handleSafetyChecks document config options) = false →
  Safety.allowOverride options = Some true →
  let blocked := handleSafetyChecks document config options in
  let run := handleSafetyChecksWithUserConfirmation document config options in
  let continueAnyway :=
    localize "runtime.safety.override.continue" "Continue Anyway" [] in
  let cancel := localize "runtime.safety.override.cancel" "Cancel" [] in
  Safety.shown (run w).2 = Safety.shown w ++ [Safety.message blocked]
  ∧ Safety.answers (run w).2 = tail (Safety.answers w)
  ∧ (Safety.proceed (run w).1 = true
     ↔ Spec.pressed [continueAnyway; cancel] w = Some continueAnyway)
  ∧ Safety.shown (run (run w).2).2
    = Safety.shown w ++ [Safety.message blocked; Safety.message blocked].
Proof.
  intros Hstop Hallow blocked run continueAnyway cancel.
  assert (Hstep : ∀ w0,
    Safety.shown (run w0).2 = Safety.shown w0 ++ [Safety.message blocked]
    ∧ Safety.answers (run w0).2 = tail (Safety.answers w0)
    ∧ (Safety.proceed (run w0).1 = true
       ↔ Spec.pressed [continueAnyway; cancel] w0 = Some continueAnyway)).
  { intros w0. unfold run, handleSafetyChecksWithUserConfirmation,
      Safety.handleSafetyChecksWithUserConfirmation.
    fold (handleSafetyChecks document config options). fold blocked.
    replace (Safety.proceed blocked) with false by done.
    rewrite Hallow. simpl.
    unfold Safety.promptUserOverride, Safety.showWarningMessage.
    fold continueAnyway cancel.
    assert (Hpressed :
      hd None (Safety.answers w0) ≫= ([continueAnyway; cancel] !!.)
      = Spec.pressed [continueAnyway; cancel] w0).
    { unfold Spec.pressed. by destruct (Safety.answers w0) as [|[button|] ?]. }
    rewrite Hpressed.
    case_bool_decide as Hyes; simpl; (split; [done|]); (split; [done|]).
    - done.
    - fold blocked in Hstop. rewrite Hstop. split; [discriminate|done]. }
  destruct (Hstep w) as (Hshown & Hanswers & Hproceed).
  split; [done|]. split; [done|]. split; [done|].
  destruct (Hstep (run w).2) as (-> & _ & _).
  by rewrite Hshown, <- app_assoc.
Qed.

End SafetyProperties.

Lemma handleSafetyChecks_file_size_gate_witness :
  Spec.hardBlock
    (Safety.handleSafetyChecks Js.localizeDefault Js.localizeDefault 0
       Samples.noStack Samples.largeDocument Samples.configuration
       Safety.noSafetyOptions)
  ∧ Safety.proceed
      (Safety.handleSafetyChecks Js.localizeDefault Js.localizeDefault 0
         Samples.noStack Samples.smallDocument Samples.configuration
         Safety.noSafetyOptions) = true.
Proof.
  split.
  - apply (handleSafetyChecks_file_size_gate Js.localizeDefault
             Js.localizeDefault 0 Samples.noStack Samples.largeDocument
             Samples.configuration Safety.noSafetyOptions);
      [reflexivity|vm_compute; reflexivity].
  - apply (handleSafetyChecks_file_size_gate Js.localizeDefault
             Js.localizeDefault 0 Samples.noStack Samples.smallDocument
             Samples.configuration Safety.noSafetyOptions);
      [reflexivity|vm_compute; reflexivity].
Defined.

Lemma safetyResult_invariant_witness :
  is_Some
    (Safety.error
       (Safety.handleSafetyChecks Js.localizeDefault Js.localizeDefault 0
          Samples.noStack Samples.largeDocument Samples.configuration
          Safety.noSafetyOptions))
  ∧ Safety.warnings
      (Safety.handleSafetyChecks Js.localizeDefault Js.localizeDefault 0
         Samples.noStack Samples.largeDocument Samples.configuration
         Safety.noSafetyOptions) = [].
Proof.
  apply (safetyResult_invariant Js.localizeDefault Js.localizeDefault 0
           Samples.noStack Samples.largeDocument Samples.configuration
           Safety.noSafetyOptions Samples.approveTwice);
    [left; reflexivity|vm_compute; reflexivity].
Defined.

Lemma override_asked_at_every_call_witness :
  let run :=
    Safety.handleSafetyChecksWithUserConfirmation Js.localizeDefault
      Js.localizeDefault 0 Samples.noStack Samples.largeDocument
      Samples.configuration Samples.overrideAllowed in
  length (Safety.shown (run (run Samples.approveTwice).2).2) = 2%nat.
Proof.
  intros run.
  destruct (override_asked_at_every_call Js.localizeDefault
              Js.localizeDefault 0 Samples.noStack Samples.largeDocument
              Samples.configuration Samples.overrideAllowed
              Samples.approveTwice) as (_ & _ & _ & H);
    [vm_compute; reflexivity|reflexivity|].
  unfold run. rewrite H. reflexivity.
Defined.

(** C5, as stated, fails: the user approves the override of a blocked
    document; the next call on the same document shows the dialog again
    and, the user cancelling this time, returns [proceed] false. *)
Lemma override_not_recorded_counterexample :
  let run :=
    Safety.handleSafetyChecksWithUserConfirmation Js.localizeDefault
      Js.localizeDefault 0 Samples.noStack Samples.largeDocument
      Samples.configuration Samples.overrideAllowed in
  let first := run Samples.approveThenCancel in
  let second := run first.2 in
  Safety.proceed
    (Safety.handleSafetyChecks Js.localizeDefault Js.localizeDefault 0
       Samples.noStack Samples.largeDocument Samples.configuration
       Samples.overrideAllowed) = false
  ∧ Safety.allowOverride Samples.overrideAllowed = Some true
  ∧ Safety.proceed first.1 = true
  ∧ length (Safety.shown first.2) = 1%nat
  ∧ Safety.proceed second.1 = false
  ∧ length (Safety.shown second.2) = 2%nat.
Proof. vm_compute. repeat split. Qed.

(** ** The unit tests of the taxonomy, replayed on the embedding

    Expectations of utils/errorHandling.test.ts, evaluated. *)

Example test_sanitize_unix_user_path :
  ErrorHandling.sanitizeErrorMessage "Error in /home/username/file.log"
  = "Error in /home/***/file.log".
Proof. reflexivity. Qed.

Example test_sanitize_macos_user_path :
  ErrorHandling.sanitizeErrorMessage "Error in /Users/username/file.log"
  = "Error in /Users/***/file.log".
Proof. reflexivity. Qed.

Example test_sanitize_windows_user_path :
  ErrorHandling.sanitizeErrorMessage "Error in C:\Users\username\file.log"
  = "Error in C:\Users\***\file.log".
Proof. reflexivity. Qed.

Example test_sanitize_credentials :
  ErrorHandling.sanitizeErrorMessage "password=secret123" = "password=***"
  ∧ ErrorHandling.sanitizeErrorMessage "token=abc123def456" = "token=***"
  ∧ ErrorHandling.sanitizeErrorMessage "key=sk-abc123def456" = "key=***".
Proof. repeat split. Qed.

Example test_sanitize_preserves_other_text :
  ErrorHandling.sanitizeErrorMessage "Path parsing failed for /var/log/app.log"
  = "Path parsing failed for /var/log/app.log".
Proof. reflexivity. Qed.

Example test_categorizeError :
  ErrorHandling.categorizeError {| Js.message := "Syntax error"; Js.stack := None |}
  = ErrorHandling.Parsing
  ∧ ErrorHandling.categorizeError
      {| Js.message := "Permission denied"; Js.stack := None |}
    = ErrorHandling.FileSystem
  ∧ ErrorHandling.categorizeError
      {| Js.message := "Safety threshold exceeded"; Js.stack := None |}
    = ErrorHandling.Safety
  ∧ ErrorHandling.categorizeError
      {| Js.message := "Something went wrong"; Js.stack := None |}
    = ErrorHandling.Operational.
Proof. repeat split. Qed.

Example test_determineSeverity :
  ErrorHandling.determineSeverity
    {| Js.message := "Fatal error"; Js.stack := None |} ErrorHandling.Operational
  = ErrorHandling.Critical
  ∧ ErrorHandling.determineSeverity
      {| Js.message := "File not found"; Js.stack := None |}
      ErrorHandling.FileSystem
    = ErrorHandling.Error
  ∧ ErrorHandling.determineSeverity
      {| Js.message := "Invalid input"; Js.stack := None |}
      ErrorHandling.Validation
    = ErrorHandling.Warning
  ∧ ErrorHandling.determineSeverity
      {| Js.message := "Something happened"; Js.stack := None |}
      ErrorHandling.Operational
    = ErrorHandling.Info.
Proof. repeat split. Qed.

Example test_recoverable :
  ErrorHandling.recoverable
    (ErrorHandling.createEnhancedError Js.localizeDefault 0
       {| Js.message := "network timeout"; Js.stack := None |}
       ErrorHandling.FileSystem None None) = true
  ∧ ErrorHandling.recoverable
      (ErrorHandling.createEnhancedError Js.localizeDefault 0
         {| Js.message := "fatal error occurred"; Js.stack := None |}
         ErrorHandling.Operational None None) = false
  ∧ ErrorHandling.recoverable
      (ErrorHandling.createEnhancedError Js.localizeDefault 0
         {| Js.message := "File too large"; Js.stack := None |}
         ErrorHandling.Safety None None) = false.
Proof. repeat split. Qed.

(** ** Error messages *)

(** [handleError] writes one console entry, the sanitized user-friendly
    message, whether the error is recoverable or not. *)
Lemma handleError_sanitized (error : ErrorHandling.EnhancedError) :
  Js.text_of <$> ErrorHandling.handleError error
  = ["[Paths-LE] "
     +:+ ErrorHandling.sanitizeErrorMessage
           (ErrorHandling.userFriendlyMessage error)].
Proof.
  unfold ErrorHandling.handleError.
  by destruct (ErrorHandling.recoverable error).
Qed.

(** The logger of [createErrorLogger] appends the message of the error
    as it is. *)
Lemma logger_logError_raw isoNow stringify (error : ErrorHandling.EnhancedError) :
  ∃ rest,
    ErrorHandling.logger_logError
      (ErrorHandling.createErrorLogger isoNow stringify Samples.channel) error
    = Js.AppendLine
        ("[" +:+ isoNow +:+ "] [ERROR] "
         +:+ ErrorHandling.categoryName (ErrorHandling.category error)
         +:+ ": " +:+ ErrorHandling.message error) :: rest.
Proof. simpl. by eexists. Qed.

(** C4 fails on the logger and on the handler built from it.  For an
    error whose message names a home directory and a token,
    [logError] appends the message unchanged to the output channel and
    [handle] also shows it unchanged, while sanitization would have
    replaced both, as [handleError] does. *)
Theorem logError_writes_unsanitized_message :
  ErrorHandling.logError Samples.handler Samples.leakyError
  = [Js.AppendLine
       "[2024-01-01T00:00:00.000Z] [ERROR] file-system: permission denied: /home/alice/notes.txt token=abc123"]
  ∧ length (ErrorHandling.handle Samples.handler Samples.leakyError) = 2%nat
  ∧ Forall (λ e, Js.includes (Js.text_of e) "/home/alice/" = true
                 ∧ Js.includes (Js.text_of e) "token=abc123" = true)
      (ErrorHandling.handle Samples.handler Samples.leakyError)
  ∧ ErrorHandling.sanitizeErrorMessage
      (ErrorHandling.message Samples.leakyError)
    = "permission denied: /home/***/notes.txt token=***"
  ∧ ErrorHandling.handleError Samples.leakyError
    = [Js.ConsoleWarn
         "[Paths-LE] File system error: permission denied: /home/***/notes.txt token=***"].
Proof.
  split; [reflexivity|]. split; [reflexivity|]. split.
  - repeat constructor.
  - split; reflexivity.
Qed.

(** ** Batch resolution *)

Section ResolveProperties.

Variable WorkspaceFolder : Type.
Variable getWorkspaceFolderForPath : string → option WorkspaceFolder.
Variable resolvePathCanonical :
  string → ExtractCommand.ResolveOptions WorkspaceFolder → string.
Variable config : option Config.Resolution.
Variable paths : list Extraction.Path.

Let resolveOne :=
  ExtractCommand.resolveOne getWorkspaceFolderForPath resolvePathCanonical
    config.
Let settle :=
  ExtractCommand.settle getWorkspaceFolderForPath resolvePathCanonical
    config paths.
Let settleAll :=
  ExtractCommand.settleAll getWorkspaceFolderForPath resolvePathCanonical
    config paths.

Lemma settle_slots i b :
  ExtractCommand.slots (settle i b)
  = match paths !! i with
    | Some path => <[i := Some (resolveOne path)]> (ExtractCommand.slots b)
    | None => ExtractCommand.slots b
    end.
Proof.
  unfold settle, ExtractCommand.settle.
  destruct (paths !! i) as [path|]; [|done].
  fold (resolveOne path). by destruct (String.eqb _ _).
Qed.

(** Settling keeps the number of slots, leaves the slots of the other
    promises alone, and fills the slot of a settled promise with the
    resolution of the path at its index. *)
Lemma settle_fold schedule : ∀ b,
  length (ExtractCommand.slots b) = length paths →
  let final := ExtractCommand.slots (foldl (λ b i, settle i b) b schedule) in
  length final = length paths
  ∧ (∀ j, j ∉ schedule → final !! j = ExtractCommand.slots b !! j)
  ∧ (∀ j path, j ∈ schedule → paths !! j = Some path →
       final !! j = Some (Some (resolveOne path))).
Proof.
  induction schedule as [|i rest IH]; intros b Hlen; simpl.
  - split; [done|]. split; [done|]. intros j path Hj.
    by apply elem_of_nil in Hj.
  - assert (Hlen' : length (ExtractCommand.slots (settle i b)) = length paths).
    { rewrite settle_slots. destruct (paths !! i); [|done].
      by rewrite length_insert. }
    destruct (IH (settle i b) Hlen') as (Hl & Hother & Hfilled).
    split; [done|]. split.
    + intros j Hj. apply not_elem_of_cons in Hj as [Hne Hj].
      rewrite (Hother j Hj), settle_slots.
      destruct (paths !! i); [|done]. by rewrite list_lookup_insert_ne.
    + intros j path Hj Hpath.
      destruct (decide (j ∈ rest)) as [Hin|Hout]; [by apply Hfilled|].
      apply elem_of_cons in Hj as [->|Hj]; [|done].
      rewrite (Hother i Hout), settle_slots, Hpath.
      apply list_lookup_insert_eq. rewrite Hlen.
      by apply lookup_lt_Some in Hpath.
Qed.

Lemma settleAll_slots schedule :
  schedule ≡ₚ seq 0 (length paths) →
  ExtractCommand.slots (settleAll schedule) = (Some ∘ resolveOne) <$> paths.
Proof.
  intros Hperm. unfold settleAll, ExtractCommand.settleAll.
  fold settle.
  match goal with
  | |- ExtractCommand.slots (foldl _ ?b0 _) = _ =>
    destruct (settle_fold schedule b0) as (Hl & _ & Hfilled)
  end.
  { simpl. apply length_replicate. }
  apply list_eq. intros j. rewrite list_lookup_fmap.
  destruct (paths !! j) as [path|] eqn:Hpath; simpl.
  - apply Hfilled; [|done]. rewrite Hperm. apply elem_of_seq.
    apply lookup_lt_Some in Hpath. lia.
  - apply lookup_ge_None. rewrite Hl. by apply lookup_ge_None.
Qed.

(** C8. With canonical resolution enabled, in whatever order the
    resolutions of a batch complete, [resolvePathsIfNeeded] returns a
    list as long as the input whose element at each index is the
    resolution of the input path at that index: what
    [resolvePathCanonical] answers for the value of that path, with the
    two flags of the configuration (off when absent) and the workspace
    folder of the path. *)
Theorem resolvePathsIfNeeded_keeps_order (schedule : list nat) :
  schedule ≡ₚ seq 0 (length paths) →
  ∃ formattedPaths status,
    ExtractCommand.resolvePathsIfNeeded getWorkspaceFolderForPath
      resolvePathCanonical paths config true schedule
    = Some (formattedPaths, status)
    ∧ length formattedPaths = length paths
    ∧ ∀ i path,
        paths !! i = Some path →
        formattedPaths !! i
        = Some (resolvePathCanonical (Extraction.value path)
                  {| ExtractCommand.resolveSymlinks :=
                       default false (config ≫= Config.resolveSymlinks);
                     ExtractCommand.resolveWorkspaceRelative :=
                       default false
                         (config ≫= Config.resolveWorkspaceRelative);
                     ExtractCommand.workspaceFolder :=
                       getWorkspaceFolderForPath (Extraction.value path) |}).
Proof.
  intros Hperm. unfold ExtractCommand.resolvePathsIfNeeded. simpl.
  fold settleAll. rewrite (settleAll_slots _ Hperm).
  unfold ExtractCommand.promiseAll.
  rewrite list_fmap_compose, (mapM_fmap_Some id Some) by done. simpl.
  eexists _, _. split; [done|]. split.
  - apply length_fmap.
  - intros i path Hpath. by rewrite list_lookup_fmap, Hpath.
Qed.

End ResolveProperties.

Lemma resolvePathsIfNeeded_keeps_order_witness :
  ∃ formattedPaths status,
    ExtractCommand.resolvePathsIfNeeded (λ _, Some ()) Samples.underFolder
      Samples.threePaths
      (Some {| Config.resolveSymlinks := Some true;
               Config.resolveWorkspaceRelative := None |})
      true [2; 0; 1]%nat
    = Some (formattedPaths, status)
    ∧ length formattedPaths = 3%nat
    ∧ formattedPaths !! 0%nat = Some "/workspace/real/a.ts"
    ∧ formattedPaths !! 1%nat = Some "/workspace/real/b.ts"
    ∧ formattedPaths !! 2%nat = Some "/workspace/real/c.ts".
Proof.
  destruct (resolvePathsIfNeeded_keeps_order unit (λ _, Some ())
              Samples.underFolder
              (Some {| Config.resolveSymlinks := Some true;
                       Config.resolveWorkspaceRelative := None |})
              Samples.threePaths [2; 0; 1]%nat)
    as (formattedPaths & status & Hresult & Hlength & Heach).
  { simpl. rewrite (Permutation_swap 0%nat 2%nat [1%nat]).
    apply perm_skip, perm_swap. }
  exists formattedPaths, status.
  split; [exact Hresult|]. split; [exact Hlength|].
  split; [exact (Heach 0%nat _ eq_refl)|].
  split; [exact (Heach 1%nat _ eq_refl)|exact (Heach 2%nat _ eq_refl)].
Defined.

(** ** De-duplication *)

Lemma elem_of_firstOccurrencesAfter lines : ∀ before x,
  x ∈ Spec.firstOccurrencesAfter before lines
  ↔ x ∈ lines ∧ x ≠ EmptyString ∧ x ∉ before.
Proof.
  induction lines as [|line rest IH]; intros before x; simpl.
  - rewrite elem_of_nil. tauto.
  - rewrite elem_of_app, IH, elem_of_cons, not_elem_of_app,
      list_elem_of_singleton.
    case_bool_decide as Hkeep.
    + rewrite list_elem_of_singleton. split.
      * intros [->|?]; tauto.
      * destruct (decide (x = line)); tauto.
    + rewrite elem_of_nil. split; [tauto|].
      intros ([->|?] & ? & ?); [tauto|].
      right. repeat split; try done. intros ->. tauto.
Qed.

Lemma firstOccurrencesAfter_sublist lines : ∀ before,
  Spec.firstOccurrencesAfter before lines `sublist_of` lines.
Proof.
  induction lines as [|line rest IH]; intros before; simpl; [done|].
  case_bool_decide; simpl.
  - apply sublist_skip, IH.
  - apply sublist_cons, IH.
Qed.

Lemma firstOccurrencesAfter_NoDup lines : ∀ before,
  NoDup (Spec.firstOccurrencesAfter before lines).
Proof.
  induction lines as [|line rest IH]; intros before; simpl.
  - apply NoDup_nil_2.
  - case_bool_decide; simpl; [|apply IH].
    apply NoDup_cons. split; [|apply IH].
    rewrite elem_of_firstOccurrencesAfter, not_elem_of_app,
      list_elem_of_singleton.
    tauto.
Qed.

(** A line the loop skips is empty or has been read before. *)
Lemma skipped_line (seen : gset string) (before : list string)
    (line : string) :
  (∀ x, x ∈ seen ↔ x ∈ before ∧ x ≠ EmptyString) →
  bool_decide (line = EmptyString) || bool_decide (line ∈ seen) = true
  ↔ ¬ (line ≠ EmptyString ∧ line ∉ before).
Proof.
  intros Hseen.
  rewrite orb_true_iff, !bool_decide_eq_true, Hseen.
  destruct (decide (line = EmptyString)), (decide (line ∈ before)); tauto.
Qed.

(** The loop against the specification: [seen] holds the lines read so
    far that are not empty, [deduped] the lines kept so far. *)
Lemma deduplicateLoop_firstOccurrences lines :
  ∀ (seen : gset string) (deduped before : list string),
  (∀ x, x ∈ seen ↔ x ∈ before ∧ x ≠ EmptyString) →
  Dedupe.deduplicateLoop seen deduped lines
  = deduped ++ Spec.firstOccurrencesAfter before lines.
Proof.
  induction lines as [|line rest IH]; intros seen deduped before Hseen; simpl.
  - by rewrite app_nil_r.
  - destruct (bool_decide (line = EmptyString) || bool_decide (line ∈ seen))
      eqn:Hskip.
    + apply (skipped_line _ _ _ Hseen) in Hskip.
      rewrite (bool_decide_false _ Hskip). simpl.
      apply IH. intros x.
      rewrite Hseen, elem_of_app, list_elem_of_singleton.
      split; [tauto|]. intros [[?| ->] ?]; [tauto|].
      destruct (decide (line ∈ before)); tauto.
    + assert (Hkeep : line ≠ EmptyString ∧ line ∉ before).
      { destruct (decide (line = EmptyString)) as [He|He];
          destruct (decide (line ∈ before)) as [Hb|Hb]; try tauto;
          exfalso; apply not_true_iff_false in Hskip; apply Hskip;
          apply (skipped_line _ _ _ Hseen); tauto. }
      rewrite (bool_decide_true _ Hkeep).
      rewrite (IH _ _ (before ++ [line])); [by rewrite <- app_assoc|].
      intros x.
      rewrite elem_of_union, elem_of_singleton, Hseen, elem_of_app,
        list_elem_of_singleton.
      split; [intros [->|?]; tauto|tauto].
Qed.

(** C9. [deduplicateLines] returns the first occurrences of the lines
    that are not empty, in the order of the input: a duplicate-free
    sublist of the input that holds exactly its non-empty lines, each kept
    where it first occurs; and it takes a, b, a, (empty), c, b to
    a, b, c. *)
Theorem deduplicateLines_first_occurrences (lines : list string) :
  Dedupe.deduplicateLines lines = Spec.firstOccurrences lines
  ∧ Dedupe.deduplicateLines lines `sublist_of` lines
  ∧ NoDup (Dedupe.deduplicateLines lines)
  ∧ (∀ x, x ∈ Dedupe.deduplicateLines lines ↔ x ∈ lines ∧ x ≠ EmptyString)
  ∧ Dedupe.deduplicateLines ["a"; "b"; "a"; EmptyString; "c"; "b"]
    = ["a"; "b"; "c"].
Proof.
  assert (Heq : ∀ l, Dedupe.deduplicateLines l = Spec.firstOccurrences l).
  { intros l. unfold Dedupe.deduplicateLines, Spec.firstOccurrences.
    rewrite (deduplicateLoop_firstOccurrences l ∅ [] []); [done|].
    intros x. rewrite elem_of_empty, elem_of_nil. tauto. }
  split; [apply Heq|]. rewrite (Heq lines). unfold Spec.firstOccurrences.
  split; [apply firstOccurrencesAfter_sublist|].
  split; [apply firstOccurrencesAfter_NoDup|].
  split; [|reflexivity].
  intros x. rewrite elem_of_firstOccurrencesAfter, elem_of_nil. tauto.
Qed.

(** * Further properties of the code *)

(** ** Patterns that need a character the subject does not have *)

Lemma avoids_weaken (c c' : ascii → bool) s :
  (∀ a, c' a = true → c a = true) →
  Spec.avoids c s = true → Spec.avoids c' s = true.
Proof.
  intros Hcc. induction s as [|a s IH]; simpl; [done|].
  rewrite !andb_true_iff, !negb_true_iff. intros [Ha Hs].
  split; [|by apply IH].
  destruct (c' a) eqn:E; [|done]. apply Hcc in E. congruence.
Qed.

Lemma many_avoids (c c' : ascii → bool) (k : string → option nat) s :
  (∀ t, Spec.avoids c t = true → k t = None) →
  Spec.avoids c s = true → Js.many c' k s = None.
Proof.
  intros Hk. induction s as [|a s IH]; simpl; intros Hs; [by apply Hk|].
  assert (Hs' : Spec.avoids c s = true)
    by (by apply andb_true_iff in Hs as [_ ?]).
  assert (Hka : k (String a s) = None) by (by apply Hk).
  destruct (c' a); [|done]. by rewrite (IH Hs').
Qed.

Lemma match_here_avoids re (c : ascii → bool) :
  Spec.needs re c →
  ∀ s, Spec.avoids c s = true → Js.match_here re s = None.
Proof.
  unfold Spec.needs.
  induction re as [|[c0 q] re IH]; intros Hneeds s Hs.
  - by apply Exists_nil in Hneeds.
  - apply Exists_cons in Hneeds as [[Hq Hc]|Hrest]; simpl in *.
    + destruct s as [|a s]; [by destruct Hq as [->| ->]|].
      assert (Ha : c0 a = false).
      { simpl in Hs. apply andb_true_iff in Hs as [Ha _].
        apply negb_true_iff in Ha. destruct (c0 a) eqn:E; [|done].
        apply Hc in E. congruence. }
      destruct Hq as [->| ->]; by rewrite Ha.
    + specialize (IH Hrest).
      assert (Htail : ∀ a t, s = String a t → Js.match_here re t = None).
      { intros a t ->. apply IH. simpl in Hs.
        by apply andb_true_iff in Hs as [_ ?]. }
      destruct q.
      * destruct s as [|a t]; simpl; [done|].
        rewrite (Htail a t eq_refl). by destruct (c0 a).
      * destruct s as [|a t]; simpl; [by apply IH|].
        rewrite (Htail a t eq_refl), (IH _ Hs). by destruct (c0 a).
      * by apply (many_avoids c).
      * destruct s as [|a t]; simpl; [done|].
        rewrite (many_avoids c c0 _ t); [by destruct (c0 a)|done|].
        simpl in Hs. by apply andb_true_iff in Hs as [_ ?].
Qed.

Lemma pieces_avoids re (c : ascii → bool) :
  Spec.needs re c →
  ∀ s, Spec.avoids c s = true →
       Js.pieces re O s = Js.Lit <$> list_ascii_of_string s.
Proof.
  intros Hneeds. induction s as [|a s IH]; simpl; intros Hs; [done|].
  rewrite (match_here_avoids re c Hneeds (String a s) Hs).
  f_equal. apply IH. by apply andb_true_iff in Hs as [_ ?].
Qed.

(** A global replacement leaves such a subject as it is, and a global
    match finds nothing in it. *)
Lemma replace_avoids re (c : ascii → bool) replacement s :
  Spec.needs re c → Spec.avoids c s = true →
  Js.replace re replacement s = s.
Proof.
  intros Hneeds Hs. unfold Js.replace. rewrite (pieces_avoids re c Hneeds s Hs).
  rewrite <- (string_of_list_ascii_of_string s) at 2.
  induction (list_ascii_of_string s) as [|a l IH]; [done|].
  rewrite fmap_cons. simpl. by rewrite IH.
Qed.

Lemma matchAll_avoids re (c : ascii → bool) s :
  Spec.needs re c → Spec.avoids c s = true → Js.matchAll re s = [].
Proof.
  intros Hneeds Hs. unfold Js.matchAll.
  rewrite (pieces_avoids re c Hneeds s Hs).
  induction (list_ascii_of_string s) as [|a l IH]; [done|].
  by rewrite fmap_cons.
Qed.

(** Every match of a global match is cut out of the subject, so it has
    no character the subject avoids. *)
Lemma substring_avoids (c : ascii → bool) s : ∀ i n,
  Spec.avoids c s = true → Spec.avoids c (substring i n s) = true.
Proof.
  induction s as [|a s IH]; intros i n Hs; [by destruct i, n|].
  simpl in Hs. apply andb_true_iff in Hs as [Ha Hs].
  destruct i as [|i]; simpl.
  - destruct n as [|n]; simpl; [done|]. by rewrite Ha, IH.
  - by apply IH.
Qed.

Lemma pieces_hit_avoids re (c : ascii → bool) m s : ∀ skip,
  Spec.avoids c s = true →
  Js.Hit m ∈ Js.pieces re skip s →
  Spec.avoids c m = true.
Proof.
  induction s as [|a s IH]; intros skip Hs; simpl; [by rewrite elem_of_nil|].
  assert (Hs' : Spec.avoids c s = true).
  { simpl in Hs. by apply andb_true_iff in Hs as [_ ?]. }
  destruct skip as [|skip]; [|by apply IH].
  destruct (Js.match_here re (String a s)) as [[|n]|];
    rewrite elem_of_cons; (intros [Hm|Hm]; [|by apply (IH _ Hs' Hm)]);
    try discriminate.
  injection Hm as ->. by apply (substring_avoids c (String a s) 0 (S n)).
Qed.

Lemma matchAll_hit_avoids re (c : ascii → bool) m s :
  Spec.avoids c s = true → m ∈ Js.matchAll re s → Spec.avoids c m = true.
Proof.
  intros Hs. unfold Js.matchAll. rewrite list_elem_of_omap.
  intros ([a|m'] & Hin & Hm); [discriminate|]. injection Hm as ->.
  by apply (pieces_hit_avoids re c _ s O).
Qed.

Lemma includes_avoids (c : ascii → bool) s (a : ascii) :
  c a = true → Spec.avoids c s = true →
  Js.includes s (String a EmptyString) = false.
Proof.
  intros Hc. induction s as [|b s IH]; simpl; [done|].
  rewrite andb_true_iff, negb_true_iff. intros [Hb Hs].
  rewrite (IH Hs), orb_false_r.
  destruct (ascii_dec a b) as [->|]; [congruence|done].
Qed.

(** ** Messages the sanitizer leaves alone *)

(** X1. A message with no slash, backslash, equals sign or colon goes
    through [sanitizeErrorMessage] unchanged. *)
Theorem sanitizeErrorMessage_plain (message : string) :
  Spec.avoids (Js.oneOf "/\=:") message = true →
  ErrorHandling.sanitizeErrorMessage message = message.
Proof.
  intros Hplain. unfold ErrorHandling.sanitizeErrorMessage.
  assert (Hslash : ∀ a, Js.exactly "/" a = true → Js.oneOf "/\=:" a = true).
  { intros a Ha. apply Ascii.eqb_eq in Ha. by subst a. }
  assert (Hback : ∀ a, Js.exactly "\" a = true → Js.oneOf "/\=:" a = true).
  { intros a Ha. apply Ascii.eqb_eq in Ha. by subst a. }
  assert (Hassign : ∀ a, Js.oneOf "=:" a = true → Js.oneOf "/\=:" a = true).
  { intros a. unfold Js.oneOf. simpl. rewrite !orb_true_iff. tauto. }
  assert (Husers : Spec.needs ErrorHandling.usersDirPattern (Js.oneOf "/\=:")).
  { apply Exists_cons_hd. split; [by left|exact Hslash]. }
  assert (Hhome : Spec.needs ErrorHandling.homeDirPattern (Js.oneOf "/\=:")).
  { apply Exists_cons_hd. split; [by left|exact Hslash]. }
  assert (Hwindows :
    Spec.needs ErrorHandling.windowsUsersDirPattern (Js.oneOf "/\=:")).
  { do 2 apply Exists_cons_tl. apply Exists_cons_hd.
    split; [by left|exact Hback]. }
  assert (Hpassword :
    Spec.needs (ErrorHandling.assignmentPattern "password") (Js.oneOf "/\=:")).
  { do 8 apply Exists_cons_tl. apply Exists_cons_hd.
    split; [by left|exact Hassign]. }
  assert (Htoken :
    Spec.needs (ErrorHandling.assignmentPattern "token") (Js.oneOf "/\=:")).
  { do 5 apply Exists_cons_tl. apply Exists_cons_hd.
    split; [by left|exact Hassign]. }
  assert (Hkey :
    Spec.needs (ErrorHandling.assignmentPattern "key") (Js.oneOf "/\=:")).
  { do 3 apply Exists_cons_tl. apply Exists_cons_hd.
    split; [by left|exact Hassign]. }
  by rewrite (replace_avoids _ _ _ message Husers Hplain),
    (replace_avoids _ _ _ message Hhome Hplain),
    (replace_avoids _ _ _ message Hwindows Hplain),
    (replace_avoids _ _ _ message Hpassword Hplain),
    (replace_avoids _ _ _ message Htoken Hplain),
    (replace_avoids _ _ _ message Hkey Hplain).
Qed.

Lemma sanitizeErrorMessage_plain_witness :
  ErrorHandling.sanitizeErrorMessage "Something went wrong"
  = "Something went wrong".
Proof. apply sanitizeErrorMessage_plain. reflexivity. Defined.

(** ** The soft checks of the safety gate *)

Lemma split_length (s : string) :
  length (Js.split (Js.chr 10) s) = S (Spec.lineFeeds s).
Proof.
  induction s as [|a s IH]; simpl; [done|].
  destruct (Ascii.eqb a (Js.chr 10)); simpl; [by rewrite IH|].
  destruct (Js.split (Js.chr 10) s); simpl in *; [done|by rewrite <- IH].
Qed.

Lemma filter_none {A} (P : A → Prop) `{∀ x, Decision (P x)} (l : list A) :
  (∀ x, x ∈ l → ¬ P x) → filter P l = [].
Proof.
  induction l as [|x l IH]; intros Hall; [done|].
  rewrite filter_cons_False; [|apply Hall; by left].
  apply IH. intros y Hy. apply Hall. by right.
Qed.

Lemma estimatePathCount_plain (content : string) :
  Spec.avoids (Js.oneOf "/\") content = true →
  Safety.estimatePathCount content = 0.
Proof.
  intros Hplain. unfold Safety.estimatePathCount.
  assert (Hslash : ∀ a, Js.exactly "/" a = true → Js.oneOf "/\" a = true).
  { intros a Ha. apply Ascii.eqb_eq in Ha. by subst a. }
  assert (Hback : ∀ a, Js.exactly "\" a = true → Js.oneOf "/\" a = true).
  { intros a Ha. apply Ascii.eqb_eq in Ha. by subst a. }
  rewrite (matchAll_avoids _ (Js.oneOf "/\") content); [|..|done].
  2:{ apply Exists_cons_hd. split; [by left|exact Hslash]. }
  rewrite (matchAll_avoids _ (Js.oneOf "/\") content); [|..|done].
  2:{ do 2 apply Exists_cons_tl. apply Exists_cons_hd.
      split; [by left|exact Hback]. }
  rewrite (matchAll_avoids _ (Js.oneOf "/\") content); [|..|done].
  2:{ do 2 apply Exists_cons_tl. apply Exists_cons_hd.
      split; [by left|exact Hslash]. }
  rewrite filter_none; [done|].
  intros m Hm.
  apply (matchAll_hit_avoids _ (Js.oneOf "/\") _ _ Hplain) in Hm.
  rewrite (includes_avoids (Js.oneOf "/\") m "/" eq_refl Hm),
    (includes_avoids (Js.oneOf "/\") m "\" eq_refl Hm).
  simpl. tauto.
Qed.

Lemma countComplexPatterns_plain (content : string) :
  Spec.avoids (Js.oneOf "{[/`") content = true →
  Safety.countComplexPatterns content = 0.
Proof.
  intros Hplain. unfold Safety.countComplexPatterns.
  assert (Hone : ∀ b, Js.oneOf "{[/`" b = true →
                      ∀ a, Js.exactly b a = true → Js.oneOf "{[/`" a = true).
  { intros b Hb a Ha. apply Ascii.eqb_eq in Ha. by subst a. }
  rewrite !(matchAll_avoids _ (Js.oneOf "{[/`") content); try done;
    apply Exists_cons_hd; (split; [by left|by apply Hone]).
Qed.

Section SoftChecks.

Variable localize : string → string → list Js.Value → string.
Variable localizeError : string → string → list Js.Value → string.
Variable now : Z.
Variable captureStack : string → option string.

Let handleSafetyChecks :=
  Safety.handleSafetyChecks localize localizeError now captureStack.
Let handleSafetyChecksWithUserConfirmation :=
  Safety.handleSafetyChecksWithUserConfirmation
    localize localizeError now captureStack.

Lemma lineCountThreshold_default config options :
  default (Config.safetyLargeOutputLinesThreshold config)
    (Safety.customThresholds options ≫= Safety.lineCount)
  = Spec.lineCountThreshold config options.
Proof.
  unfold Spec.lineCountThreshold.
  destruct (Safety.customThresholds options) as [custom|]; [|done].
  simpl. by destruct (Safety.lineCount custom).
Qed.

(** When the size check passes, the result is built from the soft
    warnings. *)
Lemma handleSafetyChecks_soft document config options :
  Config.safetyEnabled config = true →
  Js.gt (Spec.sizeOf document) (Spec.fileSizeThreshold config options) = false →
  handleSafetyChecks document config options
  = let warnings :=
      Safety.collectSafetyWarnings localize (Safety.getText document)
        config options in
    {| Safety.proceed := true;
       Safety.message := Safety.buildSafetyMessage localize warnings;
       Safety.error := None;
       Safety.warnings := warnings |}.
Proof.
  intros Hon Hle. unfold handleSafetyChecks, Safety.handleSafetyChecks.
  rewrite Hon. cbn [negb].
  replace (default _ _) with (Spec.fileSizeThreshold config options).
  - unfold Spec.sizeOf in Hle. by rewrite Hle.
  - unfold Spec.fileSizeThreshold.
    destruct (Safety.customThresholds options) as [custom|]; [|done].
    simpl. by destruct (Safety.fileSizeBytes custom).
Qed.

(** X2. With safety enabled, a text within the size and line thresholds
    that has no slash, backslash, brace, bracket or backquote passes
    without any warning: the result is [proceed] true with the message
    "Safety checks passed". *)
Theorem handleSafetyChecks_plain_text document config options :
  Config.safetyEnabled config = true →
  Js.gt (Spec.sizeOf document) (Spec.fileSizeThreshold config options) = false →
  Js.gt (Spec.lineCount (Safety.getText document))
    (Spec.lineCountThreshold config options) = false →
  Spec.avoids (Js.oneOf "/\{[`") (Safety.getText document) = true →
  handleSafetyChecks document config options
  = {| Safety.proceed := true;
       Safety.message :=
         localize "runtime.safety.passed" "Safety checks passed" [];
       Safety.error := None;
       Safety.warnings := [] |}.
Proof.
  intros Hon Hsize Hlines Hplain.
  rewrite (handleSafetyChecks_soft _ _ _ Hon Hsize).
  assert (Hnone : Safety.collectSafetyWarnings localize
                    (Safety.getText document) config options = []).
  { unfold Safety.collectSafetyWarnings.
    rewrite lineCountThreshold_default, split_length.
    unfold Spec.lineCount in Hlines. rewrite Hlines.
    rewrite estimatePathCount_plain, countComplexPatterns_plain; [done|..].
    - revert Hplain. apply avoids_weaken. intros a. unfold Js.oneOf. simpl.
      rewrite !orb_true_iff. tauto.
    - revert Hplain. apply avoids_weaken. intros a. unfold Js.oneOf. simpl.
      rewrite !orb_true_iff. tauto. }
  simpl. by rewrite Hnone.
Qed.

(** X3. With safety enabled and the size within its threshold, a text
    with more lines than the line threshold still proceeds, and its first
    warning is the large-file warning, which reports the number of lines
    and the threshold. *)
Theorem handleSafetyChecks_many_lines document config options :
  Config.safetyEnabled config = true →
  Js.gt (Spec.sizeOf document) (Spec.fileSizeThreshold config options) = false →
  Js.gt (Spec.lineCount (Safety.getText document))
    (Spec.lineCountThreshold config options) = true →
  let r := handleSafetyChecks document config options in
  Safety.proceed r = true
  ∧ Safety.error r = None
  ∧ Safety.warnings r !! O
    = Some (localize "runtime.safety.line-count.warning"
              "Large file detected: {0} lines (threshold: {1})"
              [Js.Num (Spec.lineCount (Safety.getText document));
               Js.Num (Spec.lineCountThreshold config options)])
  ∧ Safety.message r
    = localize "runtime.safety.warnings"
        "Safety checks passed with {0} warnings"
        [Js.Num (Z.of_nat (length (Safety.warnings r)))].
Proof.
  intros Hon Hsize Hlines.
  rewrite (handleSafetyChecks_soft _ _ _ Hon Hsize). simpl.
  unfold Safety.collectSafetyWarnings.
  rewrite lineCountThreshold_default, split_length.
  unfold Spec.lineCount in Hlines. rewrite Hlines. repeat split.
Qed.

(** X4. The confirmation wrapper asks nothing when the check lets the
    document through, or when override is not allowed: it returns the
    result of [handleSafetyChecks] and shows no dialog. *)
Theorem confirmation_without_dialog document config options w :
  Safety.proceed (handleSafetyChecks document config options) = true
  ∨ Safety.allowOverride options ≠ Some true →
  handleSafetyChecksWithUserConfirmation document config options w
  = (handleSafetyChecks document config options, w).
Proof.
  intros Hquiet.
  unfold handleSafetyChecksWithUserConfirmation,
    Safety.handleSafetyChecksWithUserConfirmation.
  fold (handleSafetyChecks document config options).
  destruct Hquiet as [->|Hno]; [done|].
  destruct (Safety.allowOverride options) as [[]|]; try done.
  all: by rewrite andb_false_r.
Qed.

(** X5. When the check blocks, override is allowed and the user presses
    "Continue Anyway", the wrapper returns [proceed] true with the
    approval message, and the result still carries the error of the
    block. *)
Theorem approved_override_keeps_error document config options w :
  let blocked := handleSafetyChecks document config options in
  let continueAnyway :=
    localize "runtime.safety.override.continue" "Continue Anyway" [] in
  let cancel := localize "runtime.safety.override.cancel" "Cancel" [] in
  Safety.proceed blocked = false →
  Safety.allowOverride options = Some true →
  Spec.pressed [continueAnyway; cancel] w = Some continueAnyway →
  (handleSafetyChecksWithUserConfirmation document config options w).1
  = {| Safety.proceed := true;
       Safety.message :=
         localize "runtime.safety.override.approved"
           "Safety override approved by user" [];
       Safety.error := Safety.error blocked;
       Safety.warnings := [] |}
  ∧ is_Some (Safety.error blocked).
Proof.
  intros blocked continueAnyway cancel Hstop Hallow Hpressed.
  destruct (handleSafetyChecks_blocked localize localizeError now captureStack
              document config options Hstop) as (size & threshold & Hblocked).
  assert (Hwarnings : Safety.warnings blocked = [])
    by (unfold blocked, handleSafetyChecks; by rewrite Hblocked).
  split; [|unfold blocked, handleSafetyChecks; by rewrite Hblocked].
  unfold handleSafetyChecksWithUserConfirmation,
    Safety.handleSafetyChecksWithUserConfirmation.
  fold (handleSafetyChecks document config options). fold blocked.
  rewrite Hstop, Hallow. simpl.
  unfold Safety.promptUserOverride, Safety.showWarningMessage.
  fold continueAnyway cancel.
  replace (hd None (Safety.answers w) ≫= ([continueAnyway; cancel] !!.))
    with (Some continueAnyway).
  - rewrite bool_decide_true by done. simpl. by rewrite Hwarnings.
  - rewrite <- Hpressed. unfold Spec.pressed.
    by destruct (Safety.answers w) as [|[button|] ?].
Qed.

(** X6. Whatever the settings, a document of at most 1000 characters is
    never blocked by the gate the extract command runs (the configured
    threshold is at least 1000, or it is NaN, which no length exceeds,
    and the command passes no custom threshold). *)
Theorem small_document_never_blocked
    (settings : Config.WorkspaceConfiguration) document :
  Spec.sizeOf document ≤ 1000 →
  Safety.proceed
    (handleSafetyChecks document (Config.getConfiguration settings)
       Safety.noSafetyOptions) = true.
Proof.
  intros Hsmall.
  destruct (Config.safetyEnabled (Config.getConfiguration settings)) eqn:Hon.
  - rewrite handleSafetyChecks_soft; [done|done|].
    change (Spec.fileSizeThreshold (Config.getConfiguration settings)
              Safety.noSafetyOptions)
      with (Spec.effective Spec.FileSizeWarnBytes
              (Config.getConfiguration settings)).
    destruct (getConfiguration_floor_always settings Spec.FileSizeWarnBytes)
      as [->|(t & -> & Hfloor)]; [done|].
    simpl in *. apply Z.ltb_ge. lia.
  - unfold handleSafetyChecks, Safety.handleSafetyChecks. by rewrite Hon.
Qed.

End SoftChecks.

Lemma handleSafetyChecks_plain_text_witness :
  Safety.handleSafetyChecks Js.localizeDefault Js.localizeDefault 0
    Samples.noStack Samples.plainDocument Samples.configuration
    Safety.noSafetyOptions
  = {| Safety.proceed := true;
       Safety.message := "Safety checks passed";
       Safety.error := None;
       Safety.warnings := [] |}.
Proof.
  apply (handleSafetyChecks_plain_text Js.localizeDefault Js.localizeDefault 0
           Samples.noStack Samples.plainDocument Samples.configuration
           Safety.noSafetyOptions);
    [reflexivity|vm_compute; reflexivity|vm_compute; reflexivity
    |reflexivity].
Defined.

Lemma handleSafetyChecks_many_lines_witness :
  let r :=
    Safety.handleSafetyChecks Js.localizeDefault Js.localizeDefault 0
      Samples.noStack Samples.plainDocument Samples.configuration
      Samples.oneLineOptions in
  Safety.proceed r = true
  ∧ Safety.warnings r !! O
    = Some "Large file detected: 2 lines (threshold: 1)".
Proof.
  intros r.
  destruct (handleSafetyChecks_many_lines Js.localizeDefault
              Js.localizeDefault 0 Samples.noStack Samples.plainDocument
              Samples.configuration Samples.oneLineOptions)
    as (Hproceed & _ & Hfirst & _);
    [reflexivity|vm_compute; reflexivity|vm_compute; reflexivity|].
  split; [exact Hproceed|exact Hfirst].
Defined.

Lemma confirmation_without_dialog_witness :
  Safety.handleSafetyChecksWithUserConfirmation Js.localizeDefault
    Js.localizeDefault 0 Samples.noStack Samples.largeDocument
    Samples.configuration Safety.noSafetyOptions Samples.approveTwice
  = (Safety.handleSafetyChecks Js.localizeDefault Js.localizeDefault 0
       Samples.noStack Samples.largeDocument Samples.configuration
       Safety.noSafetyOptions,
     Samples.approveTwice).
Proof.
  apply (confirmation_without_dialog Js.localizeDefault Js.localizeDefault 0
           Samples.noStack Samples.largeDocument Samples.configuration
           Safety.noSafetyOptions Samples.approveTwice).
  right. discriminate.
Defined.

Lemma approved_override_keeps_error_witness :
  (Safety.handleSafetyChecksWithUserConfirmation Js.localizeDefault
     Js.localizeDefault 0 Samples.noStack Samples.largeDocument
     Samples.configuration Samples.overrideAllowed Samples.approveTwice).1
  = {| Safety.proceed := true;
       Safety.message := "Safety override approved by user";
       Safety.error :=
         Safety.error
           (Safety.handleSafetyChecks Js.localizeDefault Js.localizeDefault 0
              Samples.noStack Samples.largeDocument Samples.configuration
              Samples.overrideAllowed);
       Safety.warnings := [] |}
  ∧ is_Some
      (Safety.error
         (Safety.handleSafetyChecks Js.localizeDefault Js.localizeDefault 0
            Samples.noStack Samples.largeDocument Samples.configuration
            Samples.overrideAllowed)).
Proof.
  apply (approved_override_keeps_error Js.localizeDefault
           Js.localizeDefault 0 Samples.noStack Samples.largeDocument
           Samples.configuration Samples.overrideAllowed
           Samples.approveTwice);
    [vm_compute; reflexivity|reflexivity|vm_compute; reflexivity].
Defined.

Lemma small_document_never_blocked_witness :
  Safety.proceed
    (Safety.handleSafetyChecks Js.localizeDefault Js.localizeDefault 0
       Samples.noStack Samples.smallDocument
       (Config.getConfiguration Samples.settings) Safety.noSafetyOptions)
  = true.
Proof.
  apply (small_document_never_blocked Js.localizeDefault Js.localizeDefault 0
           Samples.noStack Samples.settings Samples.smallDocument).
  vm_compute. discriminate.
Defined.

(** ** Recovery and the error taxonomy *)

Lemma retryLoop_without_fallback handle error : ∀ remaining attempt,
  ErrorHandling.retryLoop handle error None attempt remaining
  = (false, concat (replicate (S remaining) (handle error))).
Proof.
  induction remaining as [|remaining IH]; intros attempt; simpl.
  - by rewrite app_nil_r.
  - by rewrite IH.
Qed.

Lemma retryLoop_with_fallback handle error action : ∀ remaining attempt,
  ErrorHandling.retryLoop handle error (Some action) attempt remaining
  = if existsb action (seq attempt remaining) then (true, [])
    else (false, handle error).
Proof.
  induction remaining as [|remaining IH]; intros attempt; simpl; [done|].
  destruct (action attempt); [done|]. apply IH.
Qed.

(** X7. Left to its own recovery options, [handleWithRecovery] never
    reports a recovery: it returns false for every error, after handling
    the error four times for a file-system error, three times for an
    operational one and once for any other. *)
Theorem handleWithRecovery_default logger notifier config error :
  let handler := ErrorHandling.createErrorHandler logger notifier config in
  let times :=
    match ErrorHandling.category error with
    | ErrorHandling.FileSystem => 4%nat
    | ErrorHandling.Operational => 3%nat
    | _ => 1%nat
    end in
  ErrorHandling.handleWithRecovery handler error None
  = (false,
     concat (replicate times (ErrorHandling.handle handler error))).
Proof.
  simpl. unfold ErrorHandling.buildErrorRecoveryOptions.
  destruct (ErrorHandling.category error); simpl;
    rewrite ?retryLoop_without_fallback; simpl; by rewrite ?app_nil_r.
Qed.

(** X8. With retryable options that carry a fallback action,
    [handleWithRecovery] returns true as soon as the action completes
    within [maxRetries] attempts, and then nothing is logged or shown,
    not even for the attempts that failed; when every attempt fails the
    error is handled once and the result is false. *)
Theorem handleWithRecovery_fallback logger notifier config error options action :
  ErrorHandling.retryable options = true →
  ErrorHandling.fallbackAction options = Some action →
  let handler := ErrorHandling.createErrorHandler logger notifier config in
  ErrorHandling.handleWithRecovery handler error (Some options)
  = if existsb action
         (seq 0 (Z.to_nat (ErrorHandling.maxRetries options)))
    then (true, [])
    else (false, ErrorHandling.handle handler error).
Proof.
  intros Hretry Haction. simpl. rewrite Hretry, Haction. simpl.
  apply retryLoop_with_fallback.
Qed.

Lemma handleWithRecovery_fallback_witness :
  ErrorHandling.handleWithRecovery Samples.handler Samples.leakyError
    (Some {| ErrorHandling.retryable := true;
             ErrorHandling.maxRetries := 3;
             ErrorHandling.retryDelay := 0;
             ErrorHandling.fallbackAction := Some (Nat.eqb 2);
             ErrorHandling.userAction := None |})
  = (true, []).
Proof.
  apply (handleWithRecovery_fallback Samples.logger
           ErrorHandling.createErrorNotifier _ Samples.leakyError
           {| ErrorHandling.retryable := true;
              ErrorHandling.maxRetries := 3;
              ErrorHandling.retryDelay := 0;
              ErrorHandling.fallbackAction := Some (Nat.eqb 2);
              ErrorHandling.userAction := None |} (Nat.eqb 2));
    reflexivity.
Defined.

Lemma toLower_capital (a : ascii) : Js.toLower (Js.capital a) = Js.toLower a.
Proof. destruct a as [[] [] [] [] [] [] [] []]; reflexivity. Qed.

Lemma toLowerCase_capitals (s : string) :
  Js.toLowerCase (Js.capitals s) = Js.toLowerCase s.
Proof.
  induction s as [|a s IH]; simpl; [done|]. by rewrite toLower_capital, IH.
Qed.

(** X9. The classification of an error does not depend on the case of
    the letters a to z in its message: the message with these letters
    replaced by their capitals gets the category and the severity of the
    message as written. *)
Theorem classification_ignores_case (message : string) stack stack' category :
  ErrorHandling.categorizeError
    {| Js.message := Js.capitals message; Js.stack := stack |}
  = ErrorHandling.categorizeError
      {| Js.message := message; Js.stack := stack' |}
  ∧ ErrorHandling.determineSeverity
      {| Js.message := Js.capitals message; Js.stack := stack |} category
    = ErrorHandling.determineSeverity
        {| Js.message := message; Js.stack := stack' |} category.
Proof.
  unfold ErrorHandling.categorizeError, ErrorHandling.determineSeverity.
  simpl. by rewrite toLowerCase_capitals.
Qed.


(** ** The language identifiers of the dispatch *)

Lemma determineFileType_supported (languageId : string) :
  Extraction.determineFileType languageId ≠ Extraction.unknown
  ↔ languageId ∈ Spec.supportedLanguageIds.
Proof.
  unfold Spec.supportedLanguageIds. rewrite !elem_of_cons, elem_of_nil.
  unfold Extraction.determineFileType.
  repeat (match goal with
          | |- context [String.eqb languageId ?lit] =>
            let E := fresh "E" in
            destruct (String.eqb languageId lit) eqn:E;
            [apply String.eqb_eq in E | apply String.eqb_neq in E]
          end; simpl);
    split; try done; tauto.
Qed.

Section DispatchProperties.

Variables csvX tomlX dotenvX jsX jsonX cssX htmlX
  : string → option (list Extraction.Path).
Variable now : Z.

Let extractPaths :=
  Extraction.extractPaths csvX tomlX dotenvX jsX jsonX cssX htmlX now.

(** X11. A result of [extractPaths] reports success exactly when the
    language identifier is one of the fourteen it knows: csv, toml, dotenv,
    env, javascript, javascriptreact, typescript, typescriptreact, json,
    jsonc, html, css, scss and less. *)
Theorem extractPaths_success_iff_supported content languageId r :
  extractPaths content languageId = Some r →
  (Extraction.success r = true ↔ languageId ∈ Spec.supportedLanguageIds).
Proof.
  intros Hr. rewrite <- determineFileType_supported.
  destruct (decide (Extraction.determineFileType languageId
                    = Extraction.unknown)) as [Hft|Hft].
  - unfold extractPaths in Hr.
    rewrite (extractPaths_unknown _ _ _ _ _ _ _ _ _ _ Hft) in Hr.
    injection Hr as <-. simpl. split; [discriminate|done].
  - destruct (extractPaths_supported _ _ _ _ _ _ _ _ _ _ _ Hft Hr) as [-> _].
    done.
Qed.

(** Identifiers of one family share an extractor: for every content, env
    gives the result of dotenv; javascriptreact, typescript and
    typescriptreact give that of javascript; jsonc that of json; scss and
    less that of css. *)
Lemma extractPaths_aliases content :
  extractPaths content "env" = extractPaths content "dotenv"
  ∧ extractPaths content "javascriptreact" = extractPaths content "javascript"
  ∧ extractPaths content "typescript" = extractPaths content "javascript"
  ∧ extractPaths content "typescriptreact" = extractPaths content "javascript"
  ∧ extractPaths content "jsonc" = extractPaths content "json"
  ∧ extractPaths content "scss" = extractPaths content "css"
  ∧ extractPaths content "less" = extractPaths content "css".
Proof. repeat split. Qed.

End DispatchProperties.

Lemma extractPaths_success_iff_supported_witness :
  Extraction.success
    {| Extraction.success := true;
       Extraction.paths :=
         [{| Extraction.value := "a=./b";
             Extraction.line := None; Extraction.column := None |}];
       Extraction.errors := [] |} = true
  ↔ "env" ∈ Spec.supportedLanguageIds.
Proof.
  apply (extractPaths_success_iff_supported
           Samples.wholeContent Samples.wholeContent Samples.wholeContent
           Samples.wholeContent Samples.wholeContent Samples.wholeContent
           Samples.wholeContent 0 "a=./b" "env").
  reflexivity.
Defined.

(** ** The counters of a batch *)

Lemma filter_ext_elem {A} (P Q : A → Prop) `{∀ x, Decision (P x)}
    `{∀ x, Decision (Q x)} (l : list A) :
  (∀ x, x ∈ l → P x ↔ Q x) → filter P l = filter Q l.
Proof.
  induction l as [|x l IH]; intros Hext; [done|].
  rewrite !filter_cons.
  rewrite IH by (intros y Hy; apply Hext; by right).
  destruct (decide (P x)) as [HP|HP], (decide (Q x)) as [HQ|HQ];
    try done; exfalso; apply (Hext x) in HP || apply (Hext x) in HQ;
    try done; by left.
Qed.

(** Counting the indices of a list whose element passes a test is
    counting the elements that pass it. *)
Lemma count_indices {A} (f : A → bool) (l : list A) :
  length (filter (λ i, f <$> l !! i = Some true) (seq 0 (length l)))
  = length (filter (λ x, f x = true) l).
Proof.
  induction l as [|x l IH] using rev_ind; [done|].
  rewrite length_app. simpl. rewrite seq_app, !filter_app, !length_app.
  f_equal.
  - rewrite <- IH. f_equal. apply filter_ext_elem. intros i Hi.
    apply elem_of_seq in Hi. by rewrite lookup_app_l by lia.
  - simpl. rewrite !filter_cons, !filter_nil.
    rewrite lookup_app_r, Nat.sub_diag by lia. simpl.
    destruct (f x); by repeat case_decide.
Qed.

Section StatusProperties.

Variable WorkspaceFolder : Type.
Variable getWorkspaceFolderForPath : string → option WorkspaceFolder.
Variable resolvePathCanonical :
  string → ExtractCommand.ResolveOptions WorkspaceFolder → string.
Variable config : option Config.Resolution.
Variable paths : list Extraction.Path.

Let resolveOne :=
  ExtractCommand.resolveOne getWorkspaceFolderForPath resolvePathCanonical
    config.
Let settle :=
  ExtractCommand.settle getWorkspaceFolderForPath resolvePathCanonical
    config paths.

(** The path was rewritten by its resolution. *)
Let changed (path : Extraction.Path) : bool :=
  negb (String.eqb (resolveOne path) (Extraction.value path)).

Lemma settle_counters i b :
  ExtractCommand.resolvedCount (settle i b)
  = ExtractCommand.resolvedCount b
    + (if decide (changed <$> paths !! i = Some true) then 1 else 0)
  ∧ ExtractCommand.fallbackCount (settle i b)
    = ExtractCommand.fallbackCount b
      + (if decide (negb ∘ changed <$> paths !! i = Some true) then 1 else 0).
Proof.
  unfold settle, ExtractCommand.settle.
  destruct (paths !! i) as [path|]; simpl.
  - unfold changed. fold (resolveOne path).
    destruct (String.eqb (resolveOne path) (Extraction.value path)); simpl;
      repeat case_decide; try done; split; lia.
  - repeat case_decide; try done. split; lia.
Qed.

Lemma settle_fold_counters schedule : ∀ b,
  let final := foldl (λ b i, settle i b) b schedule in
  ExtractCommand.resolvedCount final
  = ExtractCommand.resolvedCount b
    + Z.of_nat (length (filter (λ i, changed <$> paths !! i = Some true)
                          schedule))
  ∧ ExtractCommand.fallbackCount final
    = ExtractCommand.fallbackCount b
      + Z.of_nat
          (length (filter (λ i, negb ∘ changed <$> paths !! i = Some true)
                     schedule)).
Proof.
  induction schedule as [|i rest IH]; intros b; simpl.
  - split; lia.
  - destruct (IH (settle i b)) as [-> ->].
    destruct (settle_counters i b) as [-> ->].
    rewrite !filter_cons. repeat case_decide; simpl; split; lia.
Qed.

(** X13. With canonical resolution enabled, in whatever order the
    resolutions of a batch complete, the status bar is told the same
    thing: how many paths their resolution rewrote, when there is one;
    that resolution failed, when there are paths and none was rewritten;
    nothing for an empty batch. *)
Theorem resolvePathsIfNeeded_status (schedule : list nat) :
  schedule ≡ₚ seq 0 (length paths) →
  let rewritten :=
    Z.of_nat (length (filter (λ path, changed path = true) paths)) in
  ExtractCommand.resolvePathsIfNeeded getWorkspaceFolderForPath
    resolvePathCanonical paths config true schedule
  = Some (resolveOne <$> paths,
          if 0 <? rewritten then
            ["✅ Resolved " +:+ Js.numeral rewritten +:+ " canonical paths"]
          else
            match paths with
            | [] => []
            | _ => ["⚠️ Canonical resolution failed, using original paths"]
            end).
Proof.
  intros Hperm rewritten. unfold ExtractCommand.resolvePathsIfNeeded. simpl.
  rewrite (settleAll_slots _ _ _ _ _ _ Hperm).
  unfold ExtractCommand.promiseAll.
  rewrite list_fmap_compose, (mapM_fmap_Some id Some) by done. simpl.
  unfold ExtractCommand.settleAll. fold settle.
  match goal with
  | |- context [foldl _ ?b0 schedule] =>
    destruct (settle_fold_counters schedule b0) as [Hres Hfall]
  end.
  simpl in Hres, Hfall.
  assert (Hcount : ∀ f : Extraction.Path → bool,
    length (filter (λ i, f <$> paths !! i = Some true) schedule)
    = length (filter (λ path, f path = true) paths)).
  { intros f. rewrite <- count_indices. by rewrite Hperm. }
  rewrite (Hcount changed) in Hres.
  rewrite (Hcount (negb ∘ changed)) in Hfall.
  rewrite Hres, Hfall. fold resolveOne. fold rewritten.
  rewrite !Z.add_0_l.
  destruct (0 <? rewritten) eqn:Hany; [done|].
  apply Z.ltb_ge in Hany.
  assert (Hnone : filter (λ path, changed path = true) paths = []).
  { apply length_zero_iff_nil. unfold rewritten in Hany. lia. }
  assert (Hall : filter (λ path, (negb ∘ changed) path = true) paths = paths).
  { clear -Hnone. induction paths as [|p l IH]; [done|].
    rewrite filter_cons in Hnone. rewrite filter_cons. simpl.
    destruct (changed p); simpl in *; repeat case_decide; try done.
    f_equal. by apply IH. }
  rewrite Hall. destruct paths; [done|]. simpl length.
  by rewrite (proj2 (Z.ltb_lt 0 _)) by lia.
Qed.

End StatusProperties.

Lemma resolvePathsIfNeeded_status_witness :
  ExtractCommand.resolvePathsIfNeeded (λ _, None) Samples.underRoot
    Samples.threePaths None true [1; 2; 0]%nat
  = Some (["/workspace/a.ts"; "/workspace/b.ts"; "/workspace/c.ts"],
          ["✅ Resolved 3 canonical paths"]).
Proof.
  apply (resolvePathsIfNeeded_status unit (λ _, None) Samples.underRoot None
           Samples.threePaths [1; 2; 0]%nat).
  symmetry. apply (Permutation_cons_append [1; 2]%nat 0%nat).
Defined.

(** ** The extract command *)

Section CommandProperties.

Variable WorkspaceFolder : Type.
Variable getWorkspaceFolderForPath : string → option WorkspaceFolder.
Variable resolvePathCanonical :
  string → ExtractCommand.ResolveOptions WorkspaceFolder → string.
Variable localize : string → string → list Js.Value → string.
Variable localizeError : string → string → list Js.Value → string.
Variable now : Z.
Variable captureStack : string → option string.
Variables csvX tomlX dotenvX jsX jsonX cssX htmlX
  : string → option (list Extraction.Path).

Let extractCommand :=
  ExtractCommand.extractCommand getWorkspaceFolderForPath resolvePathCanonical
    localize localizeError now captureStack
    csvX tomlX dotenvX jsX jsonX cssX htmlX.
Let handleSafetyChecks :=
  Safety.handleSafetyChecks localize localizeError now captureStack.
Let extractPaths :=
  Extraction.extractPaths csvX tomlX dotenvX jsX jsonX cssX htmlX now.

(** The configuration the command reads. *)
Let configOf (st : ExtractCommand.State) : Config.Configuration :=
  Config.getConfiguration (Host.getConfiguration (ExtractCommand.settings st)).

Let started : Host.Event := Host.Telemetry "command-extract-paths" [].

(** X14. When the safety gate blocks the document (safety enabled, the
    text longer than the configured file-size threshold), the command
    does one thing besides counting its start: it shows the message of the
    block as a warning.  No extractor runs and no setting changes. *)
Theorem extractCommand_blocked document schedule st :
  Config.safetyEnabled (configOf st) = true →
  Js.gt (Spec.sizeOf document) (Config.safetyFileSizeWarnBytes (configOf st))
  = true →
  extractCommand (Some document) schedule st
  = (Host.Completed,
     [started;
      Host.NotifierWarning
        (localizeError "runtime.error.safety" "Safety threshold exceeded: {0}"
           [Js.Str
              (localize "runtime.safety.file-size"
                 "File size ({0} bytes) exceeds safety threshold ({1} bytes)"
                 [Js.Num (Spec.sizeOf document);
                  Js.Num (Config.safetyFileSizeWarnBytes (configOf st))])])],
     st).
Proof.
  intros Hon Hlarge.
  unfold extractCommand, ExtractCommand.extractCommand.
  fold (configOf st).
  rewrite (handleSafetyChecks_over localize localizeError now captureStack
             document (configOf st) Safety.noSafetyOptions Hon Hlarge).
  reflexivity.
Qed.

(** X15. For a document the gate lets through whose language
    identifier is not supported, the command shows the
    unsupported-format message as information, not as an error, and does
    nothing else. *)
Theorem extractCommand_unsupported document schedule st :
  Safety.proceed
    (handleSafetyChecks document (configOf st) Safety.noSafetyOptions) = true →
  Extraction.determineFileType (Safety.languageId document)
  = Extraction.unknown →
  extractCommand (Some document) schedule st
  = (Host.Completed,
     [started;
      Host.NotifierInfo
        ("Path extraction is not supported for "
         +:+ Safety.languageId document
         +:+ " files. Supported formats: CSV, TOML, ENV, JS, TS, JSON, HTML, CSS.")],
     st).
Proof.
  intros Hgo Hft.
  unfold extractCommand, ExtractCommand.extractCommand.
  fold (configOf st).
  fold (handleSafetyChecks document (configOf st) Safety.noSafetyOptions).
  rewrite Hgo. simpl.
  by rewrite (extractPaths_unknown csvX tomlX dotenvX jsX jsonX cssX htmlX now
                _ _ Hft).
Qed.

(** X16. When the extractor of a supported format throws, the promise of
    the command is rejected after the start has been counted: the user is
    shown nothing, neither the paths nor an error. *)
Theorem extractCommand_extractor_throws document schedule st :
  Safety.proceed
    (handleSafetyChecks document (configOf st) Safety.noSafetyOptions) = true →
  extractPaths (Safety.getText document) (Safety.languageId document) = None →
  extractCommand (Some document) schedule st = (Host.Rejected, [started], st).
Proof.
  intros Hgo Hthrow.
  unfold extractCommand, ExtractCommand.extractCommand.
  fold (configOf st).
  fold (handleSafetyChecks document (configOf st) Safety.noSafetyOptions).
  rewrite Hgo. simpl.
  fold (extractPaths (Safety.getText document) (Safety.languageId document)).
  by rewrite Hthrow.
Qed.


End CommandProperties.

(** X18. [displayResults] puts one text before the user, the paths
    joined by line feeds, and copies that same text to the clipboard when
    copying is enabled, and nothing otherwise. *)
Theorem displayResults_clipboard formattedPaths pathCount document config :
  let content := Js.join (String (Js.chr 10) EmptyString) formattedPaths in
  let events :=
    ExtractCommand.displayResults formattedPaths pathCount document config in
  omap Spec.displayed events = [content]
  ∧ omap Spec.copied events
    = if Config.copyToClipboardEnabled config then [content] else [].
Proof.
  unfold ExtractCommand.displayResults.
  destruct (Config.openResultsSideBySide config),
    (Config.postProcessOpenInNewFile config),
    (Config.copyToClipboardEnabled config); done.
Qed.

(** ** The warning before canonical resolution *)

(** X19. The user's "Continue" is remembered.  When the warning has not
    been shown before and the workspace settings do not set the flag
    themselves, pressing "Continue" lets the command go on, and from then
    on [handleCanonicalResolutionWarning] answers true without showing
    the dialog, whatever else happens in the window. *)
Theorem canonicalWarning_continue_remembered st later :
  Config.get_boolean (Host.getConfiguration (ExtractCommand.settings st))
    "_internal.canonicalWarningShown" false = false →
  Config.booleans (Host.workspace (ExtractCommand.settings st))
    !! "_internal.canonicalWarningShown" = None →
  Safety.answers (ExtractCommand.window st) = Some O :: later →
  ∃ st1,
    ExtractCommand.handleCanonicalResolutionWarning st
    = (true, [Host.StatusProgress "⚠️ Resolving canonical paths..."], st1)
    ∧ Safety.shown (ExtractCommand.window st1)
      = Safety.shown (ExtractCommand.window st)
        ++ [ExtractCommand.canonicalWarning]
    ∧ ∀ w,
        ExtractCommand.handleCanonicalResolutionWarning
          {| ExtractCommand.settings := ExtractCommand.settings st1;
             ExtractCommand.window := w |}
        = (true, [Host.StatusProgress "⚠️ Resolving canonical paths..."],
           {| ExtractCommand.settings := ExtractCommand.settings st1;
              ExtractCommand.window := w |}).
Proof.
  intros Hnew Hworkspace Hanswer.
  unfold ExtractCommand.handleCanonicalResolutionWarning at 1.
  rewrite Hnew. unfold Safety.showWarningMessage. rewrite Hanswer. simpl.
  eexists. split; [reflexivity|]. split; [reflexivity|].
  intros w. unfold ExtractCommand.handleCanonicalResolutionWarning. simpl.
  unfold Config.get_boolean. simpl.
  by rewrite lookup_union_r, lookup_insert_eq.
Qed.

(** X20. "Disable and Continue" does not continue.  When the warning
    has not been shown before, pressing it ends the command
    ([handleCanonicalResolutionWarning] answers false), tells the user
    that canonical resolution was disabled, and writes both resolution
    settings as false to the workspace, so that the configuration read
    next has canonical resolution off. *)
Theorem canonicalWarning_disable st later :
  Config.get_boolean (Host.getConfiguration (ExtractCommand.settings st))
    "_internal.canonicalWarningShown" false = false →
  Safety.answers (ExtractCommand.window st) = Some 1%nat :: later →
  ∃ st1,
    ExtractCommand.handleCanonicalResolutionWarning st
    = (false,
       [Host.StatusProgress "⚠️ Resolving canonical paths...";
        Host.NotifierInfo "Canonical path resolution disabled for security"],
       st1)
    ∧ Spec.canonicalResolution (ExtractCommand.settings st1) = false
    ∧ Config.resolution
        (Config.getConfiguration
           (Host.getConfiguration (ExtractCommand.settings st1)))
      = Some {| Config.resolveSymlinks := Some false;
                Config.resolveWorkspaceRelative := Some false |}.
Proof.
  intros Hnew Hanswer.
  unfold ExtractCommand.handleCanonicalResolutionWarning.
  rewrite Hnew. unfold Safety.showWarningMessage. rewrite Hanswer. simpl.
  set (settings1 :=
         Host.update "resolution.resolveWorkspaceRelative" false
           Host.Workspace
           (Host.update "resolution.resolveSymlinks" false Host.Workspace
              (ExtractCommand.settings st))).
  assert (Hsym :
    Config.readBoolean (Host.getConfiguration settings1)
      "resolution.resolveSymlinks" false = false).
  { unfold Config.readBoolean, Config.get_boolean. simpl.
    rewrite (lookup_union_Some_l _ _ _ false); [done|].
    rewrite lookup_insert_ne by (intros Heq; by apply String.eqb_eq in Heq).
    apply lookup_insert_eq. }
  assert (Hrel :
    Config.readBoolean (Host.getConfiguration settings1)
      "resolution.resolveWorkspaceRelative" false = false).
  { unfold Config.readBoolean, Config.get_boolean. simpl.
    rewrite (lookup_union_Some_l _ _ _ false); [done|].
    apply lookup_insert_eq. }
  eexists. split; [reflexivity|].
  change (Spec.canonicalResolution settings1 = false
          ∧ Config.resolution
              (Config.getConfiguration (Host.getConfiguration settings1))
            = Some {| Config.resolveSymlinks := Some false;
                      Config.resolveWorkspaceRelative := Some false |}).
  unfold Spec.canonicalResolution.
  unfold Config.getConfiguration. cbn [Config.resolution].
  by rewrite Hsym, Hrel.
Qed.

Lemma extractCommand_blocked_witness :
  (Samples.command Samples.wholeContent (Some Samples.largeDocument) []
     Samples.hostState).1.1 = Host.Completed.
Proof.
  unfold Samples.command.
  rewrite (extractCommand_blocked unit); [reflexivity|..];
    vm_compute; reflexivity.
Defined.

Lemma extractCommand_unsupported_witness :
  (Samples.command Samples.wholeContent (Some Samples.smallDocument) []
     Samples.hostState).1.1 = Host.Completed.
Proof.
  unfold Samples.command.
  rewrite (extractCommand_unsupported unit); [reflexivity|..];
    vm_compute; reflexivity.
Defined.

Lemma extractCommand_extractor_throws_witness :
  (Samples.command Samples.throwing (Some Samples.cssDocument) []
     Samples.hostState).1.1 = Host.Rejected.
Proof.
  unfold Samples.command.
  rewrite (extractCommand_extractor_throws unit); [reflexivity|..];
    vm_compute; reflexivity.
Defined.


Lemma canonicalWarning_continue_remembered_witness :
  ∃ st1,
    ExtractCommand.handleCanonicalResolutionWarning Samples.canonicalState
    = (true, [Host.StatusProgress "⚠️ Resolving canonical paths..."], st1)
    ∧ Safety.shown (ExtractCommand.window st1)
      = [] ++ [ExtractCommand.canonicalWarning]
    ∧ ∀ w,
        ExtractCommand.handleCanonicalResolutionWarning
          {| ExtractCommand.settings := ExtractCommand.settings st1;
             ExtractCommand.window := w |}
        = (true, [Host.StatusProgress "⚠️ Resolving canonical paths..."],
           {| ExtractCommand.settings := ExtractCommand.settings st1;
              ExtractCommand.window := w |}).
Proof.
  apply (canonicalWarning_continue_remembered Samples.canonicalState
           [Some O]); reflexivity.
Defined.

Lemma canonicalWarning_disable_witness :
  ∃ st1,
    ExtractCommand.handleCanonicalResolutionWarning Samples.secondButtonState
    = (false,
       [Host.StatusProgress "⚠️ Resolving canonical paths...";
        Host.NotifierInfo "Canonical path resolution disabled for security"],
       st1)
    ∧ Spec.canonicalResolution (ExtractCommand.settings st1) = false
    ∧ Config.resolution
        (Config.getConfiguration
           (Host.getConfiguration (ExtractCommand.settings st1)))
      = Some {| Config.resolveSymlinks := Some false;
                Config.resolveWorkspaceRelative := Some false |}.
Proof.
  apply (canonicalWarning_disable Samples.secondButtonState []); reflexivity.
Defined.

(** ** Sorting *)

Lemma insertSorted_Permutation {A} (compare : A → A → Z) x (l : list A) :
  Js.insertSorted compare x l ≡ₚ x :: l.
Proof.
  induction l as [|y l IH]; simpl; [done|].
  destruct (0 <? compare x y); [|done].
  by rewrite IH, Permutation_swap.
Qed.

Lemma sort_Permutation {A} (compare : A → A → Z) (l : list A) :
  Js.sort compare l ≡ₚ l.
Proof.
  induction l as [|x l IH]; simpl; [done|].
  by rewrite insertSorted_Permutation, IH.
Qed.

Lemma sort_ext {A} (compare compare' : A → A → Z) (l : list A) :
  (∀ a b, compare a b = compare' a b) →
  Js.sort compare l = Js.sort compare' l.
Proof.
  intros Hext. induction l as [|x l IH]; simpl; [done|]. rewrite IH.
  generalize (Js.sort compare' l). intros sorted.
  induction sorted as [|y sorted IHs]; simpl; [done|].
  by rewrite Hext, IHs.
Qed.

Section KeySort.

(** Sorting by a key: the comparator is the difference of the keys. *)
Context {A : Type} (key : A → Z).

Let compare (a b : A) : Z := key a - key b.

Lemma insertSorted_ascending x (l : list A) :
  Spec.ascending key l → Spec.ascending key (Js.insertSorted compare x l).
Proof.
  induction l as [|y l IH]; simpl; [done|]. intros [Hy Hl].
  unfold compare at 1. destruct (0 <? key x - key y) eqn:Hcmp; simpl.
  - apply Z.ltb_lt in Hcmp. split; [|by apply IH].
    rewrite (insertSorted_Permutation compare x l).
    constructor; [lia|done].
  - apply Z.ltb_ge in Hcmp. split; [|done].
    constructor; [lia|]. eapply Forall_impl; [exact Hy|].
    intros z Hz. simpl in Hz. lia.
Qed.

Lemma sort_ascending (l : list A) : Spec.ascending key (Js.sort compare l).
Proof.
  induction l as [|x l IH]; simpl; [done|]. by apply insertSorted_ascending.
Qed.

(** Insertion does not move an element past one of the same key. *)
Lemma insertSorted_filter_key k x (l : list A) :
  filter (λ y, key y = k) (Js.insertSorted compare x l)
  = filter (λ y, key y = k) (x :: l).
Proof.
  induction l as [|y l IH]; simpl; [done|].
  unfold compare at 1. destruct (0 <? key x - key y) eqn:Hcmp; [|done].
  apply Z.ltb_lt in Hcmp.
  rewrite (filter_cons _ y), IH, !filter_cons.
  repeat case_decide; try done; lia.
Qed.

Lemma sort_filter_key k (l : list A) :
  filter (λ y, key y = k) (Js.sort compare l) = filter (λ y, key y = k) l.
Proof.
  induction l as [|x l IH]; simpl; [done|].
  by rewrite insertSorted_filter_key, !filter_cons, IH.
Qed.

(** A list in ascending order is left as it is. *)
Lemma sort_of_ascending (l : list A) :
  Spec.ascending key l → Js.sort compare l = l.
Proof.
  induction l as [|x l IH]; simpl; [done|]. intros [Hx Hl].
  rewrite (IH Hl). destruct l as [|y l]; simpl; [done|].
  apply Forall_cons in Hx as [Hxy _]. unfold compare.
  by rewrite (proj2 (Z.ltb_ge 0 (key x - key y))) by lia.
Qed.

End KeySort.

Section SortProperties.

Variable localeCompare : string → string → Z.

Let sortLines := Sort.sortLines localeCompare.

Lemma sortLines_length_asc lines :
  sortLines lines Sort.length_asc
  = Js.sort (λ a b, Spec.len a - Spec.len b) lines.
Proof. done. Qed.

Lemma sortLines_length_desc lines :
  sortLines lines Sort.length_desc
  = Js.sort (λ a b, (- Spec.len a) - (- Spec.len b)) lines.
Proof.
  unfold sortLines, Sort.sortLines. apply sort_ext.
  intros a b. unfold Spec.len. lia.
Qed.

(** X21. Whatever the order and the collation, [sortLines] returns a
    rearrangement of its input: no line is lost, added or duplicated. *)
Theorem sortLines_Permutation lines order : sortLines lines order ≡ₚ lines.
Proof. destruct order; apply sort_Permutation. Qed.

(** X22. Sorting by length, short to long, puts the lines in
    ascending order of length and keeps lines of equal length in the order
    they had; long to short does the same with descending length. *)
Theorem sortLines_by_length lines :
  Spec.ascending Spec.len (sortLines lines Sort.length_asc)
  ∧ Spec.ascending (λ line, - Spec.len line)
      (sortLines lines Sort.length_desc)
  ∧ ∀ n,
      filter (λ line, Spec.len line = n) (sortLines lines Sort.length_asc)
      = filter (λ line, Spec.len line = n) lines
      ∧ filter (λ line, Spec.len line = n)
          (sortLines lines Sort.length_desc)
        = filter (λ line, Spec.len line = n) lines.
Proof.
  rewrite sortLines_length_asc, sortLines_length_desc.
  split; [apply (sort_ascending Spec.len)|].
  split; [apply (sort_ascending (λ line, - Spec.len line))|].
  intros n. split; [apply (sort_filter_key Spec.len)|].
  transitivity (filter (λ line, - Spec.len line = - n) lines).
  - rewrite <- (sort_filter_key (λ line, - Spec.len line) (- n) lines).
    apply filter_ext_elem. intros line _. lia.
  - apply filter_ext_elem. intros line _. lia.
Qed.

(** X23. Sorting by length twice is sorting once: the lines a length
    order has produced are left as they are by the same order. *)
Theorem sortLines_by_length_idempotent lines order :
  order = Sort.length_asc ∨ order = Sort.length_desc →
  sortLines (sortLines lines order) order = sortLines lines order.
Proof.
  intros [-> | ->].
  - rewrite !sortLines_length_asc.
    apply (sort_of_ascending Spec.len), (sort_ascending Spec.len).
  - rewrite !sortLines_length_desc.
    apply (sort_of_ascending (λ line, - Spec.len line)),
      (sort_ascending (λ line, - Spec.len line)).
Qed.

End SortProperties.

Lemma sortLines_by_length_idempotent_witness :
  Sort.sortLines (λ _ _, 0)
    (Sort.sortLines (λ _ _, 0) ["ccc"; "a"; "bb"; "d"] Sort.length_desc)
    Sort.length_desc
  = Sort.sortLines (λ _ _, 0) ["ccc"; "a"; "bb"; "d"] Sort.length_desc.
Proof.
  apply (sortLines_by_length_idempotent (λ _ _, 0)). by right.
Defined.

(** ** Lines: trimming, splitting and joining *)

Lemma trimStart_avoids (c : ascii → bool) s :
  Spec.avoids c s = true → Spec.avoids c (Js.trimStart s) = true.
Proof.
  induction s as [|a s IH]; simpl; [done|]. intros Hs.
  destruct (Js.space a); [|done].
  apply IH. by apply andb_true_iff in Hs as [_ ?].
Qed.

Lemma trimEnd_avoids (c : ascii → bool) s :
  Spec.avoids c s = true → Spec.avoids c (Js.trimEnd s) = true.
Proof.
  induction s as [|a s IH]; simpl; [done|]. intros Hs.
  apply andb_true_iff in Hs as [Ha Hs]. specialize (IH Hs).
  destruct (Js.trimEnd s); [destruct (Js.space a)|]; simpl in *;
    by rewrite ?Ha, ?IH.
Qed.

Lemma trimEnd_idempotent s : Js.trimEnd (Js.trimEnd s) = Js.trimEnd s.
Proof.
  induction s as [|a s IH]; simpl; [done|].
  destruct (Js.trimEnd s) as [|b t] eqn:Ht.
  - destruct (Js.space a) eqn:Ha; simpl; [done|]. by rewrite Ha.
  - change (Js.trimEnd (String a (String b t))) with
      (match Js.trimEnd (String b t) with
       | EmptyString =>
         if Js.space a then EmptyString else String a EmptyString
       | t' => String a t'
       end).
    by rewrite IH.
Qed.

(** A string that does not begin with white space still does not after
    [trimEnd], so [trimStart] has nothing left to remove. *)
Lemma trimStart_trimEnd s :
  Js.trimStart s = s → Js.trimStart (Js.trimEnd s) = Js.trimEnd s.
Proof.
  destruct s as [|a s]; [done|]. simpl.
  destruct (Js.space a) eqn:Ha.
  - intros Hs. exfalso.
    assert (Hlen : ∀ t,
      (String.length (Js.trimStart t) ≤ String.length t)%nat).
    { induction t as [|b t IHt]; simpl; [done|].
      destruct (Js.space b); simpl; lia. }
    specialize (Hlen s). rewrite Hs in Hlen. simpl in Hlen. lia.
  - intros _. destruct (Js.trimEnd s); simpl; by rewrite Ha.
Qed.

Lemma trimStart_idempotent s : Js.trimStart (Js.trimStart s) = Js.trimStart s.
Proof.
  induction s as [|a s IH]; simpl; [done|].
  destruct (Js.space a) eqn:Ha; [done|]. simpl. by rewrite Ha.
Qed.

Lemma trim_idempotent s : Js.trim (Js.trim s) = Js.trim s.
Proof.
  unfold Js.trim.
  rewrite (trimStart_trimEnd (Js.trimStart s)) by apply trimStart_idempotent.
  apply trimEnd_idempotent.
Qed.

Lemma split_avoids (s : string) :
  Forall (λ piece, Spec.avoids Spec.isLineFeed piece = true)
    (Js.split (Js.chr 10) s).
Proof.
  induction s as [|a s IH]; simpl; [by repeat constructor|].
  destruct (Ascii.eqb a (Js.chr 10)) eqn:Ha; [by constructor|].
  destruct (Js.split (Js.chr 10) s) as [|piece pieces].
  - repeat constructor. simpl. unfold Spec.isLineFeed. by rewrite Ha.
  - apply Forall_cons in IH as [Hpiece Hpieces]. constructor; [|done].
    simpl. unfold Spec.isLineFeed at 1. by rewrite Ha, Hpiece.
Qed.

Lemma split_whole (s : string) :
  Spec.avoids Spec.isLineFeed s = true →
  Js.split (Js.chr 10) s = [s].
Proof.
  induction s as [|a s IH]; simpl; [done|].
  rewrite andb_true_iff, negb_true_iff. intros [Ha Hs].
  unfold Spec.isLineFeed in Ha. by rewrite Ha, (IH Hs).
Qed.

Lemma split_append (s t : string) :
  Spec.avoids Spec.isLineFeed s = true →
  Js.split (Js.chr 10) (s +:+ String (Js.chr 10) t)
  = s :: Js.split (Js.chr 10) t.
Proof.
  induction s as [|a s IH]; simpl; [done|].
  rewrite andb_true_iff, negb_true_iff. intros [Ha Hs].
  unfold Spec.isLineFeed in Ha. by rewrite Ha, (IH Hs).
Qed.

(** Splitting what was joined gives the lines back, when there is at
    least one line and no line holds a line feed. *)
Lemma split_join (lines : list string) :
  lines ≠ [] →
  Forall (λ line, Spec.avoids Spec.isLineFeed line = true) lines →
  Js.split (Js.chr 10) (Js.join (String (Js.chr 10) EmptyString) lines)
  = lines.
Proof.
  induction lines as [|line lines IH]; [done|]. intros _ Hall.
  apply Forall_cons in Hall as [Hline Hlines].
  destruct lines as [|line' lines].
  - by apply split_whole.
  - change (Js.join (String (Js.chr 10) EmptyString) (line :: line' :: lines))
      with (line +:+ String (Js.chr 10)
                       (Js.join (String (Js.chr 10) EmptyString)
                          (line' :: lines))).
    rewrite (split_append line _ Hline). f_equal. by apply IH.
Qed.

Section LineProperties.

Variable localize : string → string → list Js.Value → string.
Variable localeCompare : string → string → Z.

(** The lines a command reads: trimmed pieces between line feeds. *)
Lemma trimmed_lines text :
  Forall (λ line, Js.trim line = line
                  ∧ Spec.avoids Spec.isLineFeed line = true)
    (Js.trim <$> Js.split (Js.chr 10) text).
Proof.
  apply Forall_fmap. eapply Forall_impl; [apply split_avoids|].
  intros piece Hpiece. simpl. split; [apply trim_idempotent|].
  by apply trimEnd_avoids, trimStart_avoids.
Qed.

(** X24. Every line [extractLines] returns is non-empty, has no white
    space at either end and holds no line feed. *)
Theorem extractLines_clean text line :
  line ∈ Sort.extractLines text →
  line ≠ EmptyString
  ∧ Js.trim line = line
  ∧ Spec.avoids Spec.isLineFeed line = true.
Proof.
  unfold Sort.extractLines. rewrite list_elem_of_filter. intros [Hlen Hin].
  pose proof (trimmed_lines text) as Hall.
  rewrite Forall_forall in Hall. destruct (Hall line Hin) as [Htrim Hfeed].
  split; [|done]. intros ->. simpl in Hlen. lia.
Qed.

End LineProperties.

Lemma extractLines_clean_witness :
  "b.txt" ≠ EmptyString
  ∧ Js.trim "b.txt" = "b.txt"
  ∧ Spec.avoids Spec.isLineFeed "b.txt" = true.
Proof.
  apply (extractLines_clean
           (String.concat (String (Js.chr 10) EmptyString)
              ["  a.txt "; ""; " b.txt"])).
  vm_compute. apply list_elem_of_In. right. left. reflexivity.
Defined.

(** ** More on de-duplication *)

Lemma deduplicateLines_as_firstOccurrences (lines : list string) :
  Dedupe.deduplicateLines lines = Spec.firstOccurrences lines.
Proof.
  unfold Dedupe.deduplicateLines, Spec.firstOccurrences.
  rewrite (deduplicateLoop_firstOccurrences lines ∅ [] []); [done|].
  intros x. rewrite elem_of_empty, elem_of_nil. tauto.
Qed.

Lemma firstOccurrencesAfter_fixed (lines : list string) : ∀ before,
  NoDup lines → EmptyString ∉ lines → (∀ x, x ∈ lines → x ∉ before) →
  Spec.firstOccurrencesAfter before lines = lines.
Proof.
  induction lines as [|line rest IH]; intros before Hnodup Hempty Hfresh;
    simpl; [done|].
  apply NoDup_cons in Hnodup as [Hline Hrest].
  apply not_elem_of_cons in Hempty as [Hne Hempty].
  rewrite bool_decide_true.
  - simpl. f_equal. apply IH; [done|done|].
    intros x Hx. rewrite not_elem_of_app, list_elem_of_singleton. split.
    + apply Hfresh. by right.
    + intros ->. done.
  - split; [done|]. apply Hfresh. by left.
Qed.

Lemma deduplicateLines_unchanged (lines : list string) :
  NoDup lines → EmptyString ∉ lines → Dedupe.deduplicateLines lines = lines.
Proof.
  intros Hnodup Hempty. rewrite deduplicateLines_as_firstOccurrences.
  apply firstOccurrencesAfter_fixed; [done|done|].
  intros x _. apply not_elem_of_nil.
Qed.

Lemma deduplicateLines_clean (lines : list string) :
  NoDup (Dedupe.deduplicateLines lines)
  ∧ EmptyString ∉ Dedupe.deduplicateLines lines.
Proof.
  rewrite deduplicateLines_as_firstOccurrences. split.
  - apply firstOccurrencesAfter_NoDup.
  - unfold Spec.firstOccurrences.
    rewrite elem_of_firstOccurrencesAfter. tauto.
Qed.

(** X25. [deduplicateLines] leaves a list as it is exactly when the
    list has no empty line and no line twice; so its own results are left
    as they are: de-duplicating twice is de-duplicating once. *)
Theorem deduplicateLines_fixed (lines : list string) :
  (Dedupe.deduplicateLines lines = lines
   ↔ NoDup lines ∧ EmptyString ∉ lines)
  ∧ Dedupe.deduplicateLines (Dedupe.deduplicateLines lines)
    = Dedupe.deduplicateLines lines.
Proof.
  split.
  - split.
    + intros Heq. rewrite <- Heq. apply deduplicateLines_clean.
    + intros [Hnodup Hempty]. by apply deduplicateLines_unchanged.
  - destruct (deduplicateLines_clean lines).
    by apply deduplicateLines_unchanged.
Qed.

Section DedupeCommandProperties.

Variable localize : string → string → list Js.Value → string.

(** X26. Running the de-duplication command on the text it has just
    produced produces that text again. *)
Theorem dedupeCommand_idempotent text out :
  omap Spec.displayed (Dedupe.dedupeCommand localize (Some text)) = [out] →
  omap Spec.displayed (Dedupe.dedupeCommand localize (Some out)) = [out].
Proof.
  simpl. intros [= <-]. f_equal.
  set (lines := Js.trim <$> Js.split (Js.chr 10) text).
  set (deduped := Dedupe.deduplicateLines lines).
  assert (Hidem : Dedupe.deduplicateLines deduped = deduped).
  { destruct (deduplicateLines_clean lines).
    by apply deduplicateLines_unchanged. }
  destruct deduped as [|line rest] eqn:Hdeduped; [done|].
  rewrite <- Hdeduped in *.
  assert (Hsub : ∀ x, x ∈ deduped → x ∈ lines).
  { intros x. unfold deduped.
    rewrite deduplicateLines_as_firstOccurrences.
    unfold Spec.firstOccurrences. rewrite elem_of_firstOccurrencesAfter.
    tauto. }
  pose proof (trimmed_lines text) as Hlines. fold lines in Hlines.
  rewrite Forall_forall in Hlines.
  rewrite split_join.
  - replace (Js.trim <$> deduped) with deduped; [by rewrite Hidem|].
    clear Hidem Hdeduped.
    induction deduped as [|x l IH]; [done|]. rewrite fmap_cons.
    rewrite <- IH by (intros y Hy; apply Hsub; by right).
    f_equal. symmetry. apply Hlines, Hsub. by left.
  - by rewrite Hdeduped.
  - apply Forall_forall. intros x Hx. by apply Hlines, Hsub.
Qed.

End DedupeCommandProperties.

Lemma dedupeCommand_idempotent_witness :
  omap Spec.displayed
    (Dedupe.dedupeCommand Js.localizeDefault
       (Some (String.concat (String (Js.chr 10) EmptyString) ["b"; "a"])))
  = [String.concat (String (Js.chr 10) EmptyString) ["b"; "a"]].
Proof.
  apply (dedupeCommand_idempotent Js.localizeDefault
           (String.concat (String (Js.chr 10) EmptyString)
              [" b"; "a "; ""; "b"])).
  reflexivity.
Defined.

(** ** Validation of paths *)

Section ValidationProperties.

Variable WorkspaceFolder : Type.
Variable getWorkspaceFolderForPath : string → option WorkspaceFolder.
Variable validatePathFormat : string → Validation.PathFormatValidation.
Variable isValidPath : string → bool.
Variable detectPathType : string → Validation.PathType.
Variable resolvePathCanonical :
  string → ExtractCommand.ResolveOptions WorkspaceFolder → string.

(** The validation that runs against the file system [stat]. *)
Let validatePath (stat : string → bool) :=
  Validation.validatePath getWorkspaceFolderForPath validatePathFormat
    isValidPath detectPathType resolvePathCanonical stat.
Let validatePaths (stat : string → bool) :=
  Validation.validatePaths getWorkspaceFolderForPath validatePathFormat
    isValidPath detectPathType resolvePathCanonical stat.
Let resolved :=
  Validation.resolvePathIfNeeded getWorkspaceFolderForPath
    resolvePathCanonical.

(** The path reaches the file system: it passes both format checks, is
    not a URL, and existence checking is on. *)
Let reachesStat (path : string) (config : Config.Configuration) : Prop :=
  Validation.isValid (validatePathFormat path) = true
  ∧ isValidPath path = true
  ∧ detectPathType path ≠ Validation.url
  ∧ Config.validation config ≫= Config.checkExistence = Some true.

Lemma validateLoop_mapM stat config paths : ∀ results,
  Validation.validateLoop getWorkspaceFolderForPath validatePathFormat
    isValidPath detectPathType resolvePathCanonical stat results paths config
  = (results ++.) <$> mapM (λ path, validatePath stat path config) paths.
Proof.
  induction paths as [|path paths IH]; intros results; simpl.
  - by rewrite app_nil_r.
  - fold (validatePath stat path config).
    destruct (validatePath stat path config) as [result|]; simpl; [|done].
    rewrite IH.
    destruct (mapM _ paths); simpl; [|done]. by rewrite <- app_assoc.
Qed.

Lemma validatePaths_mapM stat config paths :
  validatePaths stat paths config
  = mapM (λ path, validatePath stat path config) paths.
Proof.
  unfold validatePaths, Validation.validatePaths.
  rewrite validateLoop_mapM. by destruct (mapM _ paths).
Qed.

(** [validatePath] is rejected exactly when the path reaches the file
    system and [stat] throws on what it resolves to. *)
Lemma validatePath_rejected stat path config :
  validatePath stat path config = None
  ↔ reachesStat path config ∧ stat (resolved path config) = false.
Proof.
  unfold validatePath, Validation.validatePath, reachesStat.
  fold (resolved path config).
  destruct (Validation.isValid (validatePathFormat path)); simpl;
    [|split; [done|intros [(? & _) _]; done]].
  destruct (isValidPath path); simpl;
    [|split; [done|intros [(_ & ? & _) _]; done]].
  destruct (detectPathType path); simpl;
    try (destruct (Config.validation config ≫= Config.checkExistence)
           as [[]|]; simpl;
         unfold Validation.checkPathExistence;
         destruct (stat (resolved path config)));
    split; try done; try (intros [(_ & _ & ? & ?) ?]; done).
Qed.

(** X27. A batch that [validatePaths] answers has one result for each
    path, in the order of the paths: the result at each position is the
    one [validatePath] gives for the path at that position, and names that
    path. *)
Theorem validatePaths_aligned stat paths config results :
  validatePaths stat paths config = Some results →
  Forall2 (λ path result,
             validatePath stat path config = Some result
             ∧ Validation.path result = path) paths results.
Proof.
  rewrite validatePaths_mapM. intros Hall. apply mapM_Some_1 in Hall.
  eapply Forall2_impl; [exact Hall|].
  intros path result Hresult. split; [done|].
  revert Hresult. unfold validatePath, Validation.validatePath.
  repeat match goal with
         | |- context [if ?b then _ else _] => destruct b
         | |- context [match ?t with Validation.absolute => _ | _ => _ end] =>
           destruct t
         end;
    unfold Validation.checkPathExistence;
    repeat match goal with
           | |- context [if ?b then _ else _] => destruct b
           end;
    by intros [= <-].
Qed.

(** X28. What a result of [validatePath] can look like.  A valid
    result has no error and says the path exists; it carries a resolved
    path only when resolution changed the path.  An invalid result has an
    error and nothing else.  Permissions, when present, are "read-write". *)
Theorem validatePath_result stat path config result :
  validatePath stat path config = Some result →
  match Validation.status result with
  | Validation.valid =>
    Validation.error result = None
    ∧ Validation.exists_ result = Some true
    ∧ (∀ target, Validation.resolvedPath result = Some target →
                 target ≠ path ∧ target = resolved path config)
  | Validation.invalid =>
    is_Some (Validation.error result)
    ∧ Validation.exists_ result = None
    ∧ Validation.resolvedPath result = None
    ∧ Validation.permissions result = None
  end
  ∧ (∀ p, Validation.permissions result = Some p → p = "read-write").
Proof.
  unfold validatePath, Validation.validatePath.
  fold (resolved path config).
  assert (Hchanged : ∀ target,
    (if String.eqb (resolved path config) path then None
     else Some (resolved path config)) = Some target →
    target ≠ path ∧ target = resolved path config).
  { intros target.
    destruct (String.eqb (resolved path config) path) eqn:Heq; [done|].
    intros [= <-]. by apply String.eqb_neq in Heq. }
  destruct (Validation.isValid (validatePathFormat path)); simpl;
    [|intros [= <-]; simpl; by eauto].
  destruct (isValidPath path); simpl; [|intros [= <-]; simpl; by eauto].
  destruct (detectPathType path); simpl;
    try (destruct (negb _); simpl;
         unfold Validation.checkPathExistence;
         try destruct (stat (resolved path config)));
    try discriminate; intros [= <-]; simpl;
    (split; [by auto|]);
    intros p; try done; by destruct (Validation.checkPermissionsEnabled config);
    intros [= <-].
Qed.

(** X29. One path is enough to lose the batch: [validatePaths] is
    rejected, with no result for any path, exactly when some path reaches
    the file system (it passes the format checks, is not a URL, existence
    checking is on) and [stat] throws on what it resolves to.  (The format
    checks and canonical resolution, of utils/pathValidation, return.) *)
Theorem validatePaths_rejected stat paths config :
  validatePaths stat paths config = None
  ↔ ∃ path, path ∈ paths
            ∧ reachesStat path config
            ∧ stat (resolved path config) = false.
Proof.
  rewrite validatePaths_mapM, mapM_None, Exists_exists.
  split; intros (path & Hin & Hpath); exists path; (split; [done|]).
  - by apply validatePath_rejected.
  - by apply validatePath_rejected.
Qed.

(** X30. With existence checking off the file system is not asked:
    [validatePaths] answers every batch, and with the same results
    whatever [stat] would have said. *)
Theorem validatePaths_without_existence stat stat' paths config :
  Config.validation config ≫= Config.checkExistence ≠ Some true →
  is_Some (validatePaths stat paths config)
  ∧ validatePaths stat paths config = validatePaths stat' paths config.
Proof.
  intros Hoff. split.
  - rewrite validatePaths_mapM. apply mapM_is_Some, Forall_forall.
    intros path _. simpl.
    destruct (validatePath stat path config) eqn:Hnone; [done|].
    apply validatePath_rejected in Hnone as [(_ & _ & _ & ?) _]. done.
  - rewrite !validatePaths_mapM. apply mapM_ext. intros path.
    unfold validatePath, Validation.validatePath.
    destruct (Config.validation config ≫= Config.checkExistence)
      as [[]|]; done.
Qed.

End ValidationProperties.

Lemma validatePaths_aligned_witness :
  ∃ first second,
    Forall2 (λ path result,
               Validation.validatePath (WorkspaceFolder := unit) (λ _, None)
                 Samples.formatOf (λ _, true) Samples.typeOf
                 Samples.underRoot Samples.onlyA path
                 Samples.canonicalConfiguration = Some result
               ∧ Validation.path result = path)
      ["a.ts"; "https://example.org/x"] [first; second].
Proof.
  eexists _, _.
  apply (validatePaths_aligned unit (λ _, None) Samples.formatOf (λ _, true)
           Samples.typeOf Samples.underRoot Samples.onlyA
           ["a.ts"; "https://example.org/x"] Samples.canonicalConfiguration).
  reflexivity.
Defined.

Lemma validatePath_result_witness :
  let result :=
    {| Validation.path := "a.ts";
       Validation.status := Validation.valid;
       Validation.error := None;
       Validation.exists_ := Some true;
       Validation.resolvedPath := Some "/workspace/a.ts";
       Validation.permissions := None |} in
  Validation.validatePath (WorkspaceFolder := unit) (λ _, None)
    Samples.formatOf (λ _, true) Samples.typeOf Samples.underRoot
    Samples.onlyA "a.ts" Samples.canonicalConfiguration = Some result
  ∧ Validation.error result = None
  ∧ Validation.exists_ result = Some true.
Proof.
  split; [reflexivity|].
  destruct (validatePath_result unit (λ _, None) Samples.formatOf (λ _, true)
              Samples.typeOf Samples.underRoot Samples.onlyA "a.ts"
              Samples.canonicalConfiguration
              {| Validation.path := "a.ts";
                 Validation.status := Validation.valid;
                 Validation.error := None;
                 Validation.exists_ := Some true;
                 Validation.resolvedPath := Some "/workspace/a.ts";
                 Validation.permissions := None |} eq_refl)
    as [(Herror & Hexists & _) _].
  split; assumption.
Defined.

Lemma validatePaths_without_existence_witness :
  is_Some (Samples.validate Samples.onlyA ["b.ts"; ""]
             Samples.uncheckedConfiguration)
  ∧ Samples.validate Samples.onlyA ["b.ts"; ""]
      Samples.uncheckedConfiguration
    = Samples.validate (λ _, false) ["b.ts"; ""]
        Samples.uncheckedConfiguration.
Proof.
  apply (validatePaths_without_existence unit (λ _, None) Samples.formatOf
           (λ _, true) Samples.typeOf Samples.underRoot Samples.onlyA
           (λ _, false) ["b.ts"; ""] Samples.uncheckedConfiguration).
  vm_compute. discriminate.
Defined.

(** ** The path prompt *)



















